(** * JobGenie: the job-listing acquisition and normalisation pipeline

    A shallow embedding of the pure parts of [jobSearchEnhanced]
    (freshness classification, JSON repair, structuring fallback,
    de-duplication, quality filter, scoring, final ordering) and of the
    generic branch of the page fetcher's [extractJobData].

    Conventions of the embedding.
    - A JavaScript string is a [string]: one [ascii] per UTF-16 code unit,
      so the model covers the strings whose code units are below 256.
      On those, [toLowerCase], [trim], [\s], [\d] and [\D] are the
      functions written out below.
    - Scores, lengths and counters are [Z]: small integers, far inside
      the range in which a double is exact.  A number read from page text
      by [parseInt], and everything computed from it, is a [Js.Num]: an
      integer rounded to the nearest double, an infinity, or [NaN].
    - A [Date] object is a [Clock.Date]: a time value in milliseconds or
      the Invalid Date.  [getDate], [setDate], [getHours] and [setHours]
      work on the local calendar of a [Clock.Zone], as ECMAScript
      defines them; the clock reading [now] of [new Date()] and the
      offsets of the zone are inputs.  The [postedDate] of a typed
      listing is the time value of a valid date.
    - [undefined]/[null] is [None]; a value is "falsy" when it is [None]
      or the empty string. *)

From stdpp Require Import base decidable option list strings gmap.
From Stdlib Require Import ZArith Lia Ascii String.
From Stdlib Require Import Sorting.Sorted Sorting.Permutation.
From Stdlib Require Import Numbers.DecimalString Numbers.DecimalNat.

Local Open Scope Z_scope.

(** ** JavaScript string primitives *)

Module Js.

Definition code (c : ascii) : nat := nat_of_ascii c.

(** [\d] *)
Definition is_digit (c : ascii) : bool :=
  (48 <=? code c)%nat && (code c <=? 57)%nat.

(** [\s] and the characters removed by [trim]: TAB, LF, VT, FF, CR,
    SPACE and NBSP are the ones below 256. *)
Definition is_space (c : ascii) : bool :=
  ((9 <=? code c)%nat && (code c <=? 13)%nat)
  || (code c =? 32)%nat || (code c =? 160)%nat.

(** [toLowerCase] on one code unit: A-Z and the Latin-1 capitals
    U+00C0..U+00DE except the multiplication sign U+00D7. *)
Definition lower (c : ascii) : ascii :=
  let n := code c in
  if ((65 <=? n)%nat && (n <=? 90)%nat)
     || ((192 <=? n)%nat && (n <=? 222)%nat && negb (n =? 215)%nat)
  then ascii_of_nat (n + 32) else c.

Fixpoint toLowerCase (s : string) : string :=
  match s with
  | EmptyString => EmptyString
  | String c r => String (lower c) (toLowerCase r)
  end.

(** Equality of code units under the [i] flag of a regular expression
    whose own letters are ASCII: only the two ASCII cases of a letter
    are identified. *)
Definition ci_eqb (p c : ascii) : bool :=
  let fold (x : ascii) :=
    if ((65 <=? code x)%nat && (code x <=? 90)%nat)
    then ascii_of_nat (code x + 32) else x in
  Ascii.eqb (fold p) (fold c).

(** [s.startsWith(p)], returning the rest of [s]. *)
Fixpoint strip_prefix (p s : string) : option string :=
  match p, s with
  | EmptyString, _ => Some s
  | String a p', String b s' =>
      if Ascii.eqb a b then strip_prefix p' s' else None
  | String _ _, EmptyString => None
  end.

(** The same under the [i] flag. *)
Fixpoint strip_prefix_ci (p s : string) : option string :=
  match p, s with
  | EmptyString, _ => Some s
  | String a p', String b s' =>
      if ci_eqb a b then strip_prefix_ci p' s' else None
  | String _ _, EmptyString => None
  end.

(** [s.includes(p)] *)
Fixpoint includes (p s : string) : bool :=
  match strip_prefix p s with
  | Some _ => true
  | None =>
      match s with
      | EmptyString => false
      | String _ s' => includes p s'
      end
  end.

(** [/p/i.test(s)] for a literal pattern [p]. *)
Fixpoint includes_ci (p s : string) : bool :=
  match strip_prefix_ci p s with
  | Some _ => true
  | None =>
      match s with
      | EmptyString => false
      | String _ s' => includes_ci p s'
      end
  end.

(** Longest prefix of [s] whose characters satisfy [f], and the rest. *)
Fixpoint span (f : ascii -> bool) (s : string) : string * string :=
  match s with
  | EmptyString => (EmptyString, EmptyString)
  | String c r =>
      if f c then let '(a, b) := span f r in (String c a, b)
      else (EmptyString, s)
  end.

Definition is_empty (s : string) : bool :=
  match s with EmptyString => true | _ => false end.

(** A value used as a condition: the empty string is falsy. *)
Definition truthy (s : string) : bool := negb (is_empty s).

(** [s.replace(/\D/g, '')] *)
Fixpoint strip_non_digits (s : string) : string :=
  match s with
  | EmptyString => EmptyString
  | String c r =>
      if is_digit c then String c (strip_non_digits r)
      else strip_non_digits r
  end.

Definition digit_value (c : ascii) : Z := Z.of_nat (code c - 48).

Fixpoint digits_value (acc : Z) (s : string) : Z :=
  match s with
  | EmptyString => acc
  | String c r => digits_value (10 * acc + digit_value c) r
  end.

(** A number whose value is an integer, an infinity or [NaN]; [Int z]
    stands for a double, so [z] is an integer that a double holds.
    Signed zeros are not told apart: no operation below divides. *)
Inductive Num : Type :=
| Int (z : Z)
| Infinity (positive : bool)
| NaN.

(** The double nearest to a non-negative integer [n], ties to the even
    significand: an integer of at most 53 bits is exact; of a longer one
    the [e] lowest bits are rounded away; from [2^1024 - 2^970] on the
    result is [Infinity]. *)
Definition round_nonneg (n : Z) : Num :=
  let e := Z.log2 n - 52 in
  if e <=? 0 then Int n
  else
    let q := n / 2 ^ e in
    let r := n mod 2 ^ e in
    let half := 2 ^ (e - 1) in
    let q := if (half <? r) || ((r =? half) && Z.odd q) then q + 1 else q in
    let m := q * 2 ^ e in
    if 2 ^ 1024 <=? m then Infinity true else Int m.

Definition num_neg (a : Num) : Num :=
  match a with
  | Int z => Int (- z)
  | Infinity s => Infinity (negb s)
  | NaN => NaN
  end.

(** The double nearest to an integer. *)
Definition round (z : Z) : Num :=
  if z <? 0 then num_neg (round_nonneg (- z)) else round_nonneg z.

(** [a + b], [a - b] and [a * b]: the exact result, rounded. *)
Definition num_add (a b : Num) : Num :=
  match a, b with
  | NaN, _ | _, NaN => NaN
  | Int x, Int y => round (x + y)
  | Infinity s, Int _ | Int _, Infinity s => Infinity s
  | Infinity s, Infinity s' => if Bool.eqb s s' then Infinity s else NaN
  end.

Definition num_sub (a b : Num) : Num := num_add a (num_neg b).

Definition num_mul (a b : Num) : Num :=
  match a, b with
  | NaN, _ | _, NaN => NaN
  | Int x, Int y => round (x * y)
  | Infinity s, Int y | Int y, Infinity s =>
      if y =? 0 then NaN else Infinity (Bool.eqb s (0 <? y))
  | Infinity s, Infinity s' => Infinity (Bool.eqb s s')
  end.

(** [a < b] and [a <= b]; a comparison with [NaN] is false. *)
Definition num_lt (a b : Num) : bool :=
  match a, b with
  | NaN, _ | _, NaN => false
  | Int x, Int y => x <? y
  | Int _, Infinity s => s
  | Infinity s, Int _ => negb s
  | Infinity s, Infinity s' => negb s && s'
  end.

Definition num_le (a b : Num) : bool :=
  match a, b with
  | NaN, _ | _, NaN => false
  | Int x, Int y => x <=? y
  | Int _, Infinity s => s
  | Infinity s, Int _ => negb s
  | Infinity s, Infinity s' => negb s || s'
  end.

(** [parseInt(s)] on a string of decimal digits (every call site passes
    a [\d+] capture or the result of removing [\D]): the number the
    digits denote, rounded to a double; [NaN] on the empty string. *)
Definition parseInt (s : string) : Num :=
  let '(ds, _) := span is_digit s in
  if is_empty ds then NaN else round (digits_value 0 ds).

Fixpoint drop_spaces (s : string) : string :=
  match s with
  | EmptyString => EmptyString
  | String c r => if is_space c then drop_spaces r else s
  end.

Fixpoint rev_string (acc s : string) : string :=
  match s with
  | EmptyString => acc
  | String c r => rev_string (String c acc) r
  end.

(** [s.trim()] *)
Definition trim (s : string) : string :=
  rev_string EmptyString
    (drop_spaces (rev_string EmptyString (drop_spaces s))).

(** [s.substring(0, n)] *)
Definition substring0 (n : nat) (s : string) : string :=
  String.substring 0 n s.

(** Decimal rendering of a non-negative integer, as in a template
    literal. *)
Definition of_nat (n : nat) : string :=
  NilEmpty.string_of_uint (Nat.to_uint n).

End Js.

(** ** Dates

    The time value of a [Date] object and the local calendar, after the
    ECMAScript definitions (Date objects: time values, local time zone
    adjustment, [MakeTime], [MakeDay], [MakeDate], [TimeClip]). *)

Module Clock.
Import Js.

Definition msPerSecond : Z := 1000.
Definition msPerMinute : Z := 60000.
Definition msPerHour : Z := 3600000.
Definition msPerDay : Z := 86400000.

(** A [Date] object: a time value, in milliseconds since the epoch, or
    the Invalid Date, whose time value is [NaN]. *)
Inductive Date : Type :=
| At (t : Z)
| InvalidDate.

(** The local time zone: the offset of local time from UTC in
    milliseconds, looked up for a UTC time value ([offset_at], the
    adjustment that [LocalTime] adds) and for a local time value
    ([offset_of_local], the adjustment that [UTC] subtracts).  Both are
    inputs; the offsets of a real zone are less than a day. *)
Record Zone : Type := {
  offset_at : Z -> Z;
  offset_of_local : Z -> Z
}.

Definition Day (t : Z) : Z := t / msPerDay.

Definition TimeWithinDay (t : Z) : Z := t mod msPerDay.

Definition DaysInYear (y : Z) : Z :=
  if negb (y mod 4 =? 0) then 365
  else if negb (y mod 100 =? 0) then 366
  else if negb (y mod 400 =? 0) then 365
  else 366.

Definition DayFromYear (y : Z) : Z :=
  365 * (y - 1970) + (y - 1969) / 4 - (y - 1901) / 100 + (y - 1601) / 400.

Definition TimeFromYear (y : Z) : Z := msPerDay * DayFromYear y.

(** The largest year that starts at or before [t]: 400 years have
    146097 days, so the estimate is off by one year at most. *)
Definition YearFromTime (t : Z) : Z :=
  let d := Day t in
  let y := 1970 + 400 * d / 146097 in
  if DayFromYear (y + 1) <=? d then y + 1
  else if d <? DayFromYear y then y - 1
  else y.

Definition InLeapYear (t : Z) : Z :=
  if DaysInYear (YearFromTime t) =? 366 then 1 else 0.

Definition DayWithinYear (t : Z) : Z := Day t - DayFromYear (YearFromTime t).

Definition MonthFromTime (t : Z) : Z :=
  let d := DayWithinYear t in
  let leap := InLeapYear t in
  if d <? 31 then 0
  else if d <? 59 + leap then 1
  else if d <? 90 + leap then 2
  else if d <? 120 + leap then 3
  else if d <? 151 + leap then 4
  else if d <? 181 + leap then 5
  else if d <? 212 + leap then 6
  else if d <? 243 + leap then 7
  else if d <? 273 + leap then 8
  else if d <? 304 + leap then 9
  else if d <? 334 + leap then 10
  else 11.

Definition DateFromTime (t : Z) : Z :=
  let d := DayWithinYear t in
  let leap := InLeapYear t in
  match MonthFromTime t with
  | 0 => d + 1
  | 1 => d - 30
  | 2 => d - 58 - leap
  | 3 => d - 89 - leap
  | 4 => d - 119 - leap
  | 5 => d - 150 - leap
  | 6 => d - 180 - leap
  | 7 => d - 211 - leap
  | 8 => d - 242 - leap
  | 9 => d - 272 - leap
  | 10 => d - 303 - leap
  | _ => d - 333 - leap
  end.

Definition HourFromTime (t : Z) : Z := (t / msPerHour) mod 24.
Definition MinFromTime (t : Z) : Z := (t / msPerMinute) mod 60.
Definition SecFromTime (t : Z) : Z := (t / msPerSecond) mod 60.
Definition msFromTime (t : Z) : Z := t mod msPerSecond.

(** [MakeTime(hour, min, sec, ms)] *)
Definition MakeTime (hour : Num) (min sec ms : Z) : Num :=
  match hour with
  | Int h =>
      num_add
        (num_add
           (num_add (num_mul (Int h) (Int msPerHour))
                    (num_mul (Int min) (Int msPerMinute)))
           (num_mul (Int sec) (Int msPerSecond)))
        (Int ms)
  | _ => NaN
  end.

(** The day number of the first day of month [mn] in a year that starts
    on day [0]. *)
Definition month_start (mn : Z) (leap : Z) : Z :=
  match mn with
  | 0 => 0
  | 1 => 31
  | 2 => 59 + leap
  | 3 => 90 + leap
  | 4 => 120 + leap
  | 5 => 151 + leap
  | 6 => 181 + leap
  | 7 => 212 + leap
  | 8 => 243 + leap
  | 9 => 273 + leap
  | 10 => 304 + leap
  | _ => 334 + leap
  end.

(** [MakeDay(year, month, date)]: the day number of the first day of
    the month, plus [date - 1]. *)
Definition MakeDay (year month : Z) (date : Num) : Num :=
  match date with
  | Int dt =>
      let ym := year + month / 12 in
      let mn := month mod 12 in
      let leap := if DaysInYear ym =? 366 then 1 else 0 in
      num_sub (num_add (Int (DayFromYear ym + month_start mn leap)) (Int dt))
              (Int 1)
  | _ => NaN
  end.

(** [MakeDate(day, time)] *)
Definition MakeDate (day time : Num) : Num :=
  match day, time with
  | Int _, Int _ =>
      match num_add (num_mul day (Int msPerDay)) time with
      | Int tv => Int tv
      | _ => NaN
      end
  | _, _ => NaN
  end.

(** [TimeClip(time)] *)
Definition TimeClip (time : Num) : Date :=
  match time with
  | Int t => if 8640000000000000 <? Z.abs t then InvalidDate else At t
  | _ => InvalidDate
  end.

(** [LocalTime(t)] of the time value of a valid date; the sum of a
    time value and an offset is far below [2^53], hence exact. *)
Definition LocalTime (zone : Zone) (t : Z) : Z := t + offset_at zone t.

(** [UTC(t)] *)
Definition UTC (zone : Zone) (t : Num) : Num :=
  match t with
  | Int lt => num_sub (Int lt) (Int (offset_of_local zone lt))
  | _ => NaN
  end.

(** [d.getDate()] and [d.getHours()] on a valid date with time value
    [t]. *)
Definition getDate (zone : Zone) (t : Z) : Z :=
  DateFromTime (LocalTime zone t).

Definition getHours (zone : Zone) (t : Z) : Z :=
  HourFromTime (LocalTime zone t).

(** [d.setDate(date)] on a valid date with time value [t]: the date
    that the object holds afterwards. *)
Definition setDate (zone : Zone) (t : Z) (date : Num) : Date :=
  let t := LocalTime zone t in
  let newDate :=
    MakeDate (MakeDay (YearFromTime t) (MonthFromTime t) date)
             (Int (TimeWithinDay t)) in
  TimeClip (UTC zone newDate).

(** [d.setHours(hour)], with minutes, seconds and milliseconds kept. *)
Definition setHours (zone : Zone) (t : Z) (hour : Num) : Date :=
  let t := LocalTime zone t in
  let date :=
    MakeDate (Int (Day t))
             (MakeTime hour (MinFromTime t) (SecFromTime t) (msFromTime t)) in
  TimeClip (UTC zone date).

End Clock.

(** ** Freshness classifier: [extractJobDate] *)

Module Freshness.
Import Js.

(** The tail [\s+ago] of the age patterns.  [\s+] is greedy, and no
    white space character can start [ago], so taking the whole run is
    the only way to match. *)
Definition ws_ago (s : string) : bool :=
  let '(w, r) := span is_space s in
  truthy w && bool_decide (is_Some (strip_prefix_ci "ago" r)).

(** [\s+unit[s]?\s+ago] under the [i] flag, tried with and then
    without the optional [s]. *)
Definition unit_ago (unit : string) (s : string) : bool :=
  let '(w, r) := span is_space s in
  truthy w &&
  match strip_prefix_ci unit r with
  | None => false
  | Some r1 =>
      match strip_prefix_ci "s" r1 with
      | Some r2 => ws_ago r2 || ws_ago r1
      | None => ws_ago r1
      end
  end.

(** [(\d+)\s+unit[s]?\s+ago] anchored at the start of [s]; the result
    is the capture.  A shorter run of digits would be followed by a
    digit, which [\s+] refuses, so the greedy run is the capture. *)
Definition ago_at (unit : string) (s : string) : option string :=
  let '(ds, r) := span is_digit s in
  if truthy ds && unit_ago unit r then Some ds else None.

(** [text.match(/(\d+)\s+unit[s]?\s+ago/i)]: the leftmost match. *)
Fixpoint match_ago (unit : string) (s : string) : option string :=
  match ago_at unit s with
  | Some ds => Some ds
  | None =>
      match s with
      | EmptyString => None
      | String _ r => match_ago unit r
      end
  end.

(** [/month[s]?\s+ago/i.test(text)] *)
Fixpoint month_ago (s : string) : bool :=
  (match strip_prefix_ci "month" s with
   | None => false
   | Some r1 =>
       match strip_prefix_ci "s" r1 with
       | Some r2 => ws_ago r2 || ws_ago r1
       | None => ws_ago r1
       end
   end)
  || match s with
     | EmptyString => false
     | String _ r => month_ago r
     end.

(** [extractJobDate(text)]: [zone] is the local time zone and [now]
    the time value of [new Date()].  [None] is [null]. *)
Definition extractJobDate (zone : Clock.Zone) (now : Z) (text : string)
  : option Clock.Date :=
  if is_empty text then None
  else if includes_ci "today" text then Some (Clock.At now)
  else if includes_ci "yesterday" text then
    Some (Clock.setDate zone now
            (num_sub (Int (Clock.getDate zone now)) (Int 1)))
  else
    match match_ago "hour" text with
    | Some h =>
        let hours := parseInt h in
        Some (Clock.setHours zone now
                (num_sub (Int (Clock.getHours zone now)) hours))
    | None =>
        match match_ago "day" text with
        | Some d =>
            let days := parseInt d in
            if num_lt (Int 4) days then None
            else
              Some (Clock.setDate zone now
                      (num_sub (Int (Clock.getDate zone now)) days))
        | None =>
            match match_ago "week" text with
            | Some w =>
                let weeks := parseInt w in
                if num_le (Int 1) weeks then None
                else
                  Some (Clock.setDate zone now
                          (num_sub (Int (Clock.getDate zone now))
                                   (num_mul weeks (Int 7))))
            | None =>
                if month_ago text then None else None
            end
        end
    end.

End Freshness.

(** ** Exceptions

    A computation either returns a value or throws; [try_catch] is the
    [try { ... } catch (e) { ... }] statement. *)

Inductive Exc (A : Type) : Type :=
| Ret (a : A)
| Throw.
Arguments Ret {A} a.
Arguments Throw {A}.

#[global] Instance exc_ret : MRet Exc := fun A a => Ret a.
#[global] Instance exc_bind : MBind Exc := fun A B k m =>
  match m with
  | Ret a => k a
  | Throw => Throw
  end.

Definition try_catch {A : Type} (body handler : Exc A) : Exc A :=
  match body with
  | Ret a => Ret a
  | Throw => handler
  end.

(** ** The JSON-repair parser: [safeJsonParse] *)

(** Values produced by [JSON.parse] and by object literals. *)
#[local] Unset Elimination Schemes.
Inductive Json : Type :=
| JNull
| JBool (b : bool)
| JNum (n : Z)
| JStr (s : string)
| JArr (items : list Json)
| JObj (fields : list (string * Json)).
#[local] Set Elimination Schemes.

Module JsonRepair.
Import Js.

(** [s.replace(re, ...)] with the [g] flag, for a pattern that never
    matches the empty string: [m] tries the pattern at the start of its
    argument and yields the replacement text and what follows the
    match.  Scanning resumes after each match; [fuel] bounds the number
    of steps and the length of the subject suffices. *)
Fixpoint replace_all (m : string -> option (string * string))
         (fuel : nat) (s : string) : string :=
  match fuel with
  | O => s
  | S fuel' =>
      match m s with
      | Some (out, rest) => out +:+ replace_all m fuel' rest
      | None =>
          match s with
          | EmptyString => EmptyString
          | String c r => String c (replace_all m fuel' r)
          end
      end
  end.

Definition replace_g (m : string -> option (string * string))
           (s : string) : string :=
  replace_all m (S (String.length s)) s.

Definition chr (n : nat) : ascii := ascii_of_nat n.
Definition LF : ascii := chr 10.
Definition CR : ascii := chr 13.
Definition TAB : ascii := chr 9.
Definition DQUOTE : ascii := chr 34.
Definition SQUOTE : ascii := chr 39.
Definition BACKTICK : ascii := chr 96.

Definition str1 (c : ascii) : string := String c EmptyString.

(** [/```(?:json)?\s*/gi] replaced by the empty string. *)
Definition fence (s : string) : option (string * string) :=
  match strip_prefix (String BACKTICK (String BACKTICK (str1 BACKTICK))) s with
  | None => None
  | Some r =>
      let r1 := match strip_prefix_ci "json" r with
                | Some r' => r'
                | None => r
                end in
      Some (EmptyString, drop_spaces r1)
  end.

(** A one-character pattern replaced by [out]. *)
Definition one_char (c : ascii) (out : string) (s : string)
  : option (string * string) :=
  match s with
  | String x r => if Ascii.eqb x c then Some (out, r) else None
  | EmptyString => None
  end.

(** The cleaning chain of [safeJsonParse]. *)
Definition clean (text : string) : string :=
  trim
    (replace_g (one_char TAB " ")
       (replace_g (one_char CR "")
          (replace_g (one_char LF " ")
             (replace_g fence text)))).

(** [.] of a regular expression: anything but a line terminator. *)
Definition dot (c : ascii) : bool :=
  negb (Ascii.eqb c LF || Ascii.eqb c CR).

(** The longest prefix of [s] that ends with [c]. *)
Fixpoint upto_last (c : ascii) (s : string) : option string :=
  match s with
  | EmptyString => None
  | String x r =>
      match upto_last c r with
      | Some t => Some (String x t)
      | None => if Ascii.eqb x c then Some (str1 x) else None
      end
  end.

(** [open.*close] anchored at the start of [s]: the greedy [.*] backs
    off to the last [close] of the line. *)
Definition span_at (open close : ascii) (s : string) : option string :=
  match s with
  | String x r =>
      if Ascii.eqb x open then
        let '(line, _) := span dot r in
        match upto_last close line with
        | Some body => Some (String x body)
        | None => None
        end
      else None
  | EmptyString => None
  end.

(** [s.match(/open.*close/)]: the text of the leftmost match. *)
Fixpoint match_span (open close : ascii) (s : string) : option string :=
  match span_at open close s with
  | Some m => Some m
  | None =>
      match s with
      | EmptyString => None
      | String _ r => match_span open close r
      end
  end.

Definition is_ident_start (c : ascii) : bool :=
  let n := code c in
  ((65 <=? n)%nat && (n <=? 90)%nat)
  || ((97 <=? n)%nat && (n <=? 122)%nat) || (n =? 95)%nat.

Definition is_ident_char (c : ascii) : bool :=
  is_ident_start c || is_digit c.

(** The key-quoting replacement: an opening brace or a comma, white
    space, an identifier [[a-zA-Z_][a-zA-Z0-9_]*], white space and a
    colon; the identifier is put between double quotes and the white
    space before the colon is dropped.  The runs are over disjoint
    character classes, so the greedy choice is the only one. *)
Definition quote_key (s : string) : option (string * string) :=
  match s with
  | String x r =>
      if Ascii.eqb x "{" || Ascii.eqb x "," then
        let '(w1, r1) := span is_space r in
        match r1 with
        | String y _ =>
            if is_ident_start y then
              let '(ident, r2) := span is_ident_char r1 in
              match drop_spaces r2 with
              | String z r3 =>
                  if Ascii.eqb z ":" then
                    Some (String x w1 +:+ str1 DQUOTE +:+ ident
                            +:+ str1 DQUOTE +:+ ":", r3)
                  else None
              | EmptyString => None
              end
            else None
        | EmptyString => None
        end
      else None
  | EmptyString => None
  end.

(** The value-requoting replacement: a colon, white space and a text
    between single quotes; the text is put between double quotes
    directly after the colon. *)
Definition requote_value (s : string) : option (string * string) :=
  match s with
  | String x r =>
      if Ascii.eqb x ":" then
        match drop_spaces r with
        | String q r1 =>
            if Ascii.eqb q SQUOTE then
              let '(body, r2) := span (fun c => negb (Ascii.eqb c SQUOTE)) r1 in
              match r2 with
              | String _ r3 =>
                  Some (":" +:+ str1 DQUOTE +:+ body +:+ str1 DQUOTE, r3)
              | EmptyString => None
              end
            else None
        | EmptyString => None
        end
      else None
  | EmptyString => None
  end.

(** The trailing-comma replacement: a comma, white space and a closing
    brace or bracket; only the closing character is kept. *)
Definition trailing_comma (s : string) : option (string * string) :=
  match s with
  | String x r =>
      if Ascii.eqb x "," then
        match drop_spaces r with
        | String b r1 =>
            if Ascii.eqb b "}" || Ascii.eqb b "]" then Some (str1 b, r1)
            else None
        | EmptyString => None
        end
      else None
  | EmptyString => None
  end.

(** [/:\s*undefined/g] replaced by [':null']. *)
Definition undefined_value (s : string) : option (string * string) :=
  match s with
  | String x r =>
      if Ascii.eqb x ":" then
        match strip_prefix "undefined" (drop_spaces r) with
        | Some r1 => Some (":null", r1)
        | None => None
        end
      else None
  | EmptyString => None
  end.

(** The repair chain applied to the located span. *)
Definition repair (jsonStr : string) : string :=
  replace_g undefined_value
    (replace_g trailing_comma
       (replace_g requote_value
          (replace_g quote_key jsonStr))).

Definition strings (l : list string) : Json := JArr (JStr <$> l).

Definition default_refinements : Json :=
  JObj [ ("jobTitles", JArr []);
         ("synonyms", JArr []);
         ("location", JObj [("remote", JBool true)]);
         ("seniority", JStr "mid");
         ("mustHaveSkills", JArr []);
         ("niceToHaveSkills", JArr []);
         ("salary", JObj []);
         ("contractType", JStr "full-time");
         ("eligibility", JObj [("languages", strings ["English"])]);
         ("dateRange", JNum 3);
         ("exclusions", JObj []);
         ("targetCompanies", JArr []) ].

(** The object returned when no JSON span is found in a refinement
    reply. *)
Definition no_span_default : Json :=
  JObj [ ("refinements", default_refinements);
         ("missingInfo",
           strings ["Job title or role"; "Location preference"]);
         ("suggestions",
           strings ["Add specific job title"; "Specify location"]) ].

(** The object returned when parsing a refinement reply throws. *)
Definition parse_failed_default : Json :=
  JObj [ ("refinements", default_refinements);
         ("missingInfo",
           strings ["Job title"; "Location"; "Experience level"]);
         ("suggestions",
           strings ["Specify the role you want";
                    "Add your preferred location"]) ].

(** [cleaned.match(/\{.*\}/) || cleaned.match(/\[.*\]/)]: the text of
    the match. *)
Definition jsonMatch (cleaned : string) : option string :=
  match match_span "{" "}" cleaned with
  | Some m => Some m
  | None => match_span "[" "]" cleaned
  end.

Section with_parser.
(** [JSON.parse]: [Throw] is a [SyntaxError]. *)
Variable JSON_parse : string -> Exc Json.

(** The [try] block of [safeJsonParse]; [None] is [null]. *)
Definition parse_body (text : string) : Exc (option Json) :=
  let cleaned := clean text in
  match jsonMatch cleaned with
  | None =>
      if includes "refinements" text then Ret (Some no_span_default)
      else Ret None
  | Some jsonStr =>
      v ← JSON_parse (repair jsonStr); Ret (Some v)
  end.

Definition parse_handler (text : string) : Exc (option Json) :=
  if includes "refinements" text || includes "missingInfo" text
  then Ret (Some parse_failed_default)
  else Ret None.

Definition safeJsonParse (text : string) : Exc (option Json) :=
  if is_empty text then Ret None
  else try_catch (parse_body text) (parse_handler text).
End with_parser.

End JsonRepair.

(** ** Data model *)

(** [SearchRefinements] and its nested option records.  A number field
    holds an integer, as the interface's examples do; it is a double,
    so an integer of more than 53 bits is one that a double can hold. *)
Module Pref.

Inductive SalaryType : Type := hourly | yearly.

Record Location : Type := {
  city : option string;
  radius : option Z;
  remote : option bool;
  hybrid : option bool;
  timezone : option string
}.

Record Salary : Type := {
  min : option Z;
  max : option Z;
  currency : option string;
  type : option SalaryType
}.

Record Eligibility : Type := {
  visa : option string;
  relocation : option bool;
  languages : option (list string)
}.

Record Exclusions : Type := {
  companies : option (list string);
  keywords : option (list string);
  agencies : option bool
}.

Record SearchRefinements : Type := {
  jobTitles : list string;
  synonyms : list string;
  location : Location;
  seniority : string;
  mustHaveSkills : list string;
  niceToHaveSkills : list string;
  salary : Salary;
  contractType : string;
  eligibility : Eligibility;
  dateRange : Z;
  exclusions : Exclusions;
  targetCompanies : option (list string)
}.

(** The refinements [performEnhancedSearch] builds when the caller
    passes none. *)
Definition performEnhancedSearch_defaults : SearchRefinements :=
  {| jobTitles := [];
     synonyms := [];
     location := {| city := None; radius := None; remote := Some true;
                    hybrid := None; timezone := None |};
     seniority := "mid";
     mustHaveSkills := [];
     niceToHaveSkills := [];
     salary := {| min := None; max := None; currency := None;
                  type := None |};
     contractType := "full-time";
     eligibility := {| visa := None; relocation := None;
                       languages := Some ["English"] |};
     dateRange := 3;
     exclusions := {| companies := None; keywords := None;
                      agencies := None |};
     targetCompanies := Some [] |}.

End Pref.

(** [JobListing] (from [jobService]) and [EnhancedJobListing].  The
    fields [applicationDeadline], [companyInfo], [interviewQuestions] and
    [salaryNegotiation] are never read or written by the functions
    below and are left out. *)
Record JobListing : Type := {
  id : string;
  title : string;
  company : string;
  location : string;
  description : string;
  salary : option string;
  currency : option string;
  employmentType : option string;
  workplaceType : option string;
  requirements : option (list string);
  responsibilities : option (list string);
  postedDate : Z;
  sourceUrl : string
}.

Record EnhancedJobListing : Type := {
  listing :> JobListing;
  matchScore : Z;
  matchReasons : list string;
  missingSkills : list string
}.

(** ** Ranking: [calculateMatchScore] and [generateMatchReasons] *)

Module Ranking.
Import Js.

Definition opt_truthy (x : option string) : bool :=
  match x with Some s => truthy s | None => false end.

(** [refinements.location.city && job.location.includes(city)] *)
Definition location_match (job : JobListing) (r : Pref.SearchRefinements)
  : bool :=
  match Pref.city (Pref.location r) with
  | Some c => truthy c && includes c (location job)
  | None => false
  end.

(** [refinements.location.remote && job.workplaceType === 'Remote'] *)
Definition remote_match (job : JobListing) (r : Pref.SearchRefinements)
  : bool :=
  bool_decide (Pref.remote (Pref.location r) = Some true)
  && bool_decide (workplaceType job = Some "Remote").

(** The salary test of [calculateMatchScore]: both values truthy and
    the digits of the salary text, read as one number by [parseInt], at
    least [min]. *)
Definition salary_match (job : JobListing) (r : Pref.SearchRefinements)
  : bool :=
  match salary job, Pref.min (Pref.salary r) with
  | Some s, Some m =>
      truthy s && negb (m =? 0) &&
      let jobSalary := parseInt (strip_non_digits s) in
      num_le (Int m) jobSalary
  | _, _ => false
  end.

Definition jobText (job : JobListing) : string :=
  toLowerCase (title job +:+ " " +:+ description job).

Definition skill_match (job : JobListing) (skill : string) : bool :=
  includes (toLowerCase skill) (jobText job).

Definition calculateMatchScore (job : JobListing)
           (r : Pref.SearchRefinements) : Z :=
  let score := 70 in
  let score := if location_match job r then score + 10 else score in
  let score := if remote_match job r then score + 10 else score in
  let score := if salary_match job r then score + 5 else score in
  let score :=
    fold_left
      (fun score skill =>
         if skill_match job skill then score + 2 else score)
      (Pref.mustHaveSkills r) score in
  Z.min score 95.

(** [reasons.slice(0, 3)] *)
Definition slice0 {A : Type} (n : nat) (l : list A) : list A := take n l.

Definition generateMatchReasons (job : JobListing)
           (r : Pref.SearchRefinements) : list string :=
  let reasons := [] in
  let reasons :=
    if location_match job r then reasons ++ ["Location match"]
    else reasons in
  let reasons :=
    if remote_match job r then reasons ++ ["Remote opportunity"]
    else reasons in
  let reasons :=
    if opt_truthy (salary job) then reasons ++ ["Competitive salary"]
    else reasons in
  let matchedSkills :=
    List.filter (skill_match job) (Pref.mustHaveSkills r) in
  let reasons :=
    if (0 <? List.length matchedSkills)%nat
    then reasons ++ ["Matches " +:+ of_nat (List.length matchedSkills)
                       +:+ " key skills"]
    else reasons in
  slice0 3 reasons.

End Ranking.

(** ** Structuring engine: [structureJobWithGemini] *)

(** The record handed over by the page-fetching service; it arrives
    untyped, and any field may be missing or empty. *)
Module Scraped.
Record ScrapedJob : Type := {
  title : option string;
  company : option string;
  location : option string;
  description : option string;
  salary : option string;
  employmentType : option string
}.
End Scraped.

Module Structuring.
Import Js.

(** [x || d] on an optional string. *)
Definition or_default (x : option string) (d : string) : string :=
  match x with
  | Some s => if truthy s then s else d
  | None => d
  end.

(** [text.split(/\n|•|·|★/)]: of the four separators only the line feed
    and the middle dot U+00B7 have code units below 256. *)
Definition is_separator (c : ascii) : bool :=
  (code c =? 10)%nat || (code c =? 183)%nat.

Fixpoint split_lines (cur : string) (s : string) : list string :=
  match s with
  | EmptyString => [rev_string EmptyString cur]
  | String c r =>
      if is_separator c
      then rev_string EmptyString cur :: split_lines EmptyString r
      else split_lines (String c cur) r
  end.

(** The loop of [extractListFromText]; returning early is the
    [break]. *)
Fixpoint scan_lines (type : string) (capturing : bool)
         (items : list string) (lines : list string) : list string :=
  match lines with
  | [] => items
  | line :: rest =>
      if includes type (toLowerCase line)
      then scan_lines type true items rest
      else if capturing && (10 <? String.length (trim line))%nat
      then
        let items := items ++ [substring0 150 (trim line)] in
        if (5 <=? List.length items)%nat then items
        else scan_lines type capturing items rest
      else scan_lines type capturing items rest
  end.

Definition extractListFromText (text : option string) (type : string)
  : option (list string) :=
  match text with
  | None => None
  | Some t =>
      if is_empty t then None
      else
        let items := scan_lines type false [] (split_lines EmptyString t) in
        if (0 <? List.length items)%nat then Some items else None
  end.

Definition is_alnum (c : ascii) : bool :=
  let n := code c in
  ((65 <=? n)%nat && (n <=? 90)%nat)
  || ((97 <=? n)%nat && (n <=? 122)%nat) || is_digit c.

Fixpoint keep (f : ascii -> bool) (s : string) : string :=
  match s with
  | EmptyString => EmptyString
  | String c r => if f c then String c (keep f r) else keep f r
  end.

(** [url.split('/').pop()]: what follows the last slash. *)
Fixpoint last_segment (cur : string) (s : string) : string :=
  match s with
  | EmptyString => rev_string EmptyString cur
  | String c r =>
      if Ascii.eqb c "/" then last_segment EmptyString r
      else last_segment (String c cur) r
  end.

(** [generateJobId(url)]; [randomPart] stands for the six base-36
    characters drawn from [Math.random()] and [now] for [Date.now()]. *)
Definition generateJobId (randomPart : string) (now : Z) (url : string)
  : string :=
  let urlHash :=
    let h := keep is_alnum (last_segment EmptyString url) in
    if truthy h then h else "job" in
  "job_" +:+ urlHash +:+ "_" +:+ randomPart +:+ "_"
    +:+ of_nat (Z.to_nat now).

(** What [structureJobWithGemini] resolves to: an object built field
    by field, or the spread [{ id, ...jobData, sourceUrl, ... }] of the
    provider's untyped object. *)
Inductive Structured : Type :=
| Built (job : EnhancedJobListing)
| Spread (id : string) (jobData : Json) (sourceUrl : string)
         (postedDate : Z) (matchScore : Z) (matchReasons : list string)
         (missingSkills : list string).

Fixpoint assoc (k : string) (fields : list (string * Json)) : option Json :=
  match fields with
  | [] => None
  | (k', v) :: rest => if String.eqb k k' then Some v else assoc k rest
  end.

(** A string-valued property of an object; [None] when the property is
    missing or is not a string. *)
Definition str_field (k : string) (fields : list (string * Json))
  : option string :=
  match assoc k fields with
  | Some (JStr s) => Some s
  | _ => None
  end.

(** A property that is a string when present ([null] counts as
    absent). *)
Definition opt_str_field (k : string) (fields : list (string * Json))
  : option (option string) :=
  match assoc k fields with
  | None | Some JNull => Some None
  | Some (JStr s) => Some (Some s)
  | Some _ => None
  end.

(** The provider's object read as a [JobListing], when the fields that
    scoring reads have the types of the interface: [title], [location]
    and [description] strings, [salary] a string if present.  Fields
    that scoring does not read are taken as they come or left blank. *)
Definition as_listing (jobData : Json) : option JobListing :=
  match jobData with
  | JObj fields =>
      t ← str_field "title" fields;
      l ← str_field "location" fields;
      d ← str_field "description" fields;
      s ← opt_str_field "salary" fields;
      Some {| id := default "" (str_field "id" fields);
              title := t;
              company := default "" (str_field "company" fields);
              location := l;
              description := d;
              salary := s;
              currency := str_field "currency" fields;
              employmentType := str_field "employmentType" fields;
              workplaceType := str_field "workplaceType" fields;
              requirements := None;
              responsibilities := None;
              postedDate := 0;
              sourceUrl := "" |}
  | _ => None
  end.

(** Truthiness of a parsed value. *)
Definition json_truthy (v : Json) : bool :=
  match v with
  | JNull => false
  | JBool b => b
  | JNum n => negb (n =? 0)
  | JStr s => truthy s
  | JArr _ | JObj _ => true
  end.

Section with_environment.
(** [JSON.parse]. *)
Variable JSON_parse : string -> Exc Json.
(** What the engine does when [calculateMatchScore] and
    [generateMatchReasons] are applied to a provider object that has
    not the shape of a [JobListing]: some property access may throw a
    [TypeError], or both may run to completion. *)
Variable untyped_scoring :
  Json -> Pref.SearchRefinements -> Exc (Z * list string).

Definition score_provider_object (jobData : Json)
           (r : Pref.SearchRefinements) : Exc (Z * list string) :=
  match as_listing jobData with
  | Some job =>
      Ret (Ranking.calculateMatchScore job r,
           Ranking.generateMatchReasons job r)
  | None => untyped_scoring jobData r
  end.

(** The object built when the provider's reply cannot be parsed. *)
Definition unparsed_fallback (id : string) (now : Z)
           (sd : Scraped.ScrapedJob) (url : string) : EnhancedJobListing :=
  {| listing :=
       {| id := id;
          title := or_default (Scraped.title sd) "Job Opening";
          company := or_default (Scraped.company sd) "Company";
          location :=
            or_default (Scraped.location sd) "Location not specified";
          description :=
            or_default (Scraped.description sd)
              "Please visit the job page for full details.";
          salary := Some (or_default (Scraped.salary sd) "Competitive");
          currency := Some "USD";
          employmentType :=
            Some (or_default (Scraped.employmentType sd) "Full-time");
          workplaceType := Some "Onsite";
          requirements :=
            Some (default ["Please visit the job page for requirements"]
                    (extractListFromText (Scraped.description sd)
                       "requirements"));
          responsibilities :=
            Some (default
                    ["Please visit the job page for responsibilities"]
                    (extractListFromText (Scraped.description sd)
                       "responsibilities"));
          postedDate := now;
          sourceUrl := url |};
     matchScore := 70;
     matchReasons := ["Potential match"];
     missingSkills := [] |}.

(** The object built in the [catch] block. *)
Definition caught_fallback (id : string) (now : Z)
           (sd : Scraped.ScrapedJob) (url : string) : EnhancedJobListing :=
  {| listing :=
       {| id := id;
          title := or_default (Scraped.title sd) "Job Opening";
          company := or_default (Scraped.company sd) "Company";
          location :=
            or_default (Scraped.location sd) "Location not specified";
          description :=
            or_default (Scraped.description sd)
              "Please visit the job page for full details.";
          salary := Some (or_default (Scraped.salary sd) "Competitive");
          currency := Some "USD";
          employmentType := Some "Full-time";
          workplaceType := Some "Onsite";
          requirements := Some ["Visit job page for full requirements"];
          responsibilities :=
            Some ["Visit job page for full responsibilities"];
          postedDate := now;
          sourceUrl := url |};
     matchScore := 70;
     matchReasons := ["Potential match"];
     missingSkills := [] |}.

(** The guard at the top of the [try] block:
    [!scrapedData || (!scrapedData.title && !scrapedData.description)]. *)
Definition no_real_data (scrapedData : option Scraped.ScrapedJob) : bool :=
  match scrapedData with
  | None => true
  | Some sd =>
      negb (Ranking.opt_truthy (Scraped.title sd))
      && negb (Ranking.opt_truthy (Scraped.description sd))
  end.

(** The [try] block.  [reply] is the outcome of the call to the
    generative provider on the prompt built from the scraped fields:
    the text of its response, or [Throw] when obtaining the model,
    the call or reading the response throws.  [randomPart] and [now]
    feed [generateJobId] and [new Date()]. *)
Definition structure_body (reply : Exc string) (randomPart : string)
           (now : Z) (scrapedData : option Scraped.ScrapedJob)
           (url : string) (r : Pref.SearchRefinements)
  : Exc (option Structured) :=
  match scrapedData with
  | None => Ret None
  | Some sd =>
      if no_real_data scrapedData then Ret None
      else
        text ← reply;
        jobData ← JsonRepair.safeJsonParse JSON_parse text;
        match jobData with
        | Some jd =>
            if json_truthy jd then
              let id := generateJobId randomPart now url in
              '(score, reasons) ← score_provider_object jd r;
              Ret (Some (Spread id jd url now score reasons []))
            else
              Ret (Some (Built (unparsed_fallback
                                  (generateJobId randomPart now url)
                                  now sd url)))
        | None =>
            Ret (Some (Built (unparsed_fallback
                                (generateJobId randomPart now url)
                                now sd url)))
        end
  end.

(** The [catch] block; it reads [scrapedData.title], which throws when
    [scrapedData] is [null]. *)
Definition structure_handler (randomPart : string) (now : Z)
           (scrapedData : option Scraped.ScrapedJob) (url : string)
  : Exc (option Structured) :=
  match scrapedData with
  | None => Throw
  | Some sd =>
      Ret (Some (Built (caught_fallback
                          (generateJobId randomPart now url) now sd url)))
  end.

Definition structureJobWithGemini (reply : Exc string)
           (randomPart : string) (now : Z)
           (scrapedData : option Scraped.ScrapedJob) (url : string)
           (r : Pref.SearchRefinements) : Exc (option Structured) :=
  try_catch (structure_body reply randomPart now scrapedData url r)
            (structure_handler randomPart now scrapedData url).
End with_environment.

End Structuring.

(** ** Quality and de-duplication filter *)

Module Filter.
Import Js.

(** A [Map<string, V>]: keys in insertion order; [set] on a key already
    present replaces the value and keeps the key's position. *)
Fixpoint map_set {V : Type} (k : string) (v : V) (m : list (string * V))
  : list (string * V) :=
  match m with
  | [] => [(k, v)]
  | (k', v') :: rest =>
      if String.eqb k k' then (k, v) :: rest
      else (k', v') :: map_set k v rest
  end.

(** [Array.from(m.values())] *)
Definition map_values {V : Type} (m : list (string * V)) : list V := m.*2.

Record DedupState : Type := {
  uniqueJobs : list (string * EnhancedJobListing);
  seenTitles : gset string
}.

Definition dedup_init : DedupState :=
  {| uniqueJobs := []; seenTitles := ∅ |}.

(** The first [continue] of the loop:
    [!job.title || !job.company || job.title === 'Job Opening']. *)
Definition insufficient_data (job : EnhancedJobListing) : bool :=
  negb (truthy (title job)) || negb (truthy (company job))
  || String.eqb (title job) "Job Opening".

(** The second: [!job.description || job.description.length < 100]. *)
Definition too_short (job : EnhancedJobListing) : bool :=
  negb (truthy (description job))
  || (String.length (description job) <? 100)%nat.

Definition titleCompany (job : EnhancedJobListing) : string :=
  trim (toLowerCase (title job)) +:+ "_" +:+ trim (toLowerCase (company job)).

Definition titleLocation (job : EnhancedJobListing) : string :=
  trim (toLowerCase (title job)) +:+ "_" +:+ trim (toLowerCase (location job)).

(** One iteration of the loop of [removeDuplicateJobs]. *)
Definition dedup_step (st : DedupState) (job : EnhancedJobListing)
  : DedupState :=
  if insufficient_data job then st
  else if too_short job then st
  else if bool_decide (titleCompany job ∈ seenTitles st)
          || bool_decide (titleLocation job ∈ seenTitles st)
  then st
  else {| seenTitles := {[ titleCompany job ]} ∪ seenTitles st;
          uniqueJobs := map_set (id job) job (uniqueJobs st) |}.

Definition removeDuplicateJobs (jobs : list EnhancedJobListing)
  : list EnhancedJobListing :=
  map_values (uniqueJobs (fold_left dedup_step jobs dedup_init)).

Definition list_empty (l : option (list string)) : bool :=
  match l with
  | None => true
  | Some l => (List.length l =? 0)%nat
  end.

(** The callback of [filterQualityJobs]. *)
Definition quality_callback (job : EnhancedJobListing) : bool :=
  if negb (truthy (title job)) || negb (truthy (company job))
     || negb (truthy (description job))
  then false
  else if (String.length (title job) <? 5)%nat
          || String.eqb (title job) "Job Opening"
  then false
  else if String.eqb (company job) "Company"
          || (String.length (company job) <? 2)%nat
  then false
  else if (String.length (description job) <? 100)%nat
          || includes "Please visit the job page" (description job)
  then false
  else if list_empty (requirements job) && list_empty (responsibilities job)
  then false
  else true.

Definition filterQualityJobs (jobs : list EnhancedJobListing)
  : list EnhancedJobListing :=
  List.filter quality_callback jobs.

End Filter.

(** ** The tail of [searchWithRefinements] *)

Module Search.

(** The comparison function passed to [sort]. *)
Definition compare_jobs (a b : EnhancedJobListing) : Z :=
  let dateA := postedDate a in
  let dateB := postedDate b in
  if negb (dateB =? dateA) then dateB - dateA
  else matchScore b - matchScore a.

(** [Array.prototype.sort] with a comparison function is a stable
    sort: an element stays in front of the later elements it does not
    compare greater than. *)
Fixpoint insert_sorted {A : Type} (cmp : A -> A -> Z) (x : A) (l : list A)
  : list A :=
  match l with
  | [] => [x]
  | y :: rest =>
      if cmp x y <=? 0 then x :: l else y :: insert_sorted cmp x rest
  end.

Definition sort {A : Type} (cmp : A -> A -> Z) (l : list A) : list A :=
  foldr (insert_sorted cmp) [] l.

Definition day_ms : Z := 1000 * 60 * 60 * 24.

(** The callback of the final date filter; [/] followed by
    [Math.floor] is [Z.div]. *)
Definition fresh (now : Z) (job : EnhancedJobListing) : bool :=
  let daysSincePosted := (now - postedDate job) `div` day_ms in
  daysSincePosted <=? 4.

(** Everything after the collection loop: date filter, de-duplication,
    quality filter, sort, [slice(0, 20)]. *)
Definition finish (now : Z) (allJobs : list EnhancedJobListing)
  : list EnhancedJobListing :=
  let freshJobs := List.filter (fresh now) allJobs in
  let uniqueJobs := Filter.removeDuplicateJobs freshJobs in
  let uniqueJobs := Filter.filterQualityJobs uniqueJobs in
  let uniqueJobs := sort compare_jobs uniqueJobs in
  take 20 uniqueJobs.

(** [searchWithRefinements]: [collected] is the outcome of the
    collection loop over the search queries ([Throw] when something
    outside the per-query [try] throws); the outer [catch] returns the
    empty array. *)
Definition searchWithRefinements (now : Z)
           (collected : Exc (list EnhancedJobListing))
  : list EnhancedJobListing :=
  match collected with
  | Ret allJobs => finish now allJobs
  | Throw => []
  end.

End Search.

(** ** The page fetcher: the generic branch of [extractJobData] *)

Module Fetcher.
Import Js.

(** [JobData] of the scraping function.  After the JSON-LD step a field
    holds either the text found in the page or whatever value the
    structured data carries, so fields are untyped values; [None] is
    [undefined]. *)
Record JobData : Type := {
  url : string;
  title : option Json;
  company : option Json;
  location : option Json;
  salary : option Json;
  description : option Json;
  employmentType : string
}.

Inductive ScrapeResponse : Type :=
| single (job : JobData)
| list_of (jobs : list JobData).

(** What the functions read of a loaded page: the text of the first
    element matching a selector, the content of the first JSON-LD
    script element ([None] when there is none), and the links found by
    [findJobLinks]. *)
Record Page : Type := {
  first_text : string -> string;
  jsonld_html : option string;
  jobLinks : list JobData
}.

Definition recognised (url : string) : bool :=
  includes "indeed.com" url || includes "linkedin.com" url
  || includes "glassdoor.com" url
  || includes "angel.co" url || includes "wellfound.com" url
  || includes "greenhouse.io" url || includes "lever.co" url
  || includes "workday.com" url.

(** The local function [extractText]. *)
Fixpoint extractText (page : Page) (selectors : list string) : string :=
  match selectors with
  | [] => ""
  | selector :: rest =>
      let text := trim (first_text page selector) in
      if truthy text && (3 <? String.length text)%nat then text
      else extractText page rest
  end.

Definition heuristic_job (page : Page) (url : string) : JobData :=
  {| url := url;
     title := Some (JStr (extractText page
       ["h1"; ".jobTitle"; "[class*=title]"; "[data-testid*=title]";
        ".job-title"; ".position-title"; "h2.title"]));
     company := Some (JStr (extractText page
       [".company"; ".employer"; "[class*=company]"; "[data-company]";
        ".companyName"; "[data-testid*=company]"]));
     location := Some (JStr (extractText page
       [".location"; "[class*=location]"; "[data-location]";
        ".locationsContainer"; "[data-testid*=location]"]));
     salary := Some (JStr (extractText page
       [".salary"; "[class*=salary]"; "[data-salary]";
        ".compensation"; ".pay"; "[class*=compensation]"]));
     description := Some (JStr (substring0 5000 (extractText page
       [".description"; ".job-description"; "[class*=description]";
        "#jobDescriptionText"; ".jobsearch-JobComponent-description";
        "article"; ".content"; "main"])));
     employmentType := extractText page
       [".employment-type"; "[class*=employment]"; ".job-type";
        "[data-job-type]"; ".metadata"] |}.

Definition value_truthy (v : option Json) : bool :=
  match v with
  | Some j => Structuring.json_truthy j
  | None => false
  end.

(** [a || b] *)
Definition or_else (a b : option Json) : option Json :=
  if value_truthy a then a else b.

(** [v.k] on a value that is not [null]. *)
Definition prop (k : string) (v : Json) : option Json :=
  match v with
  | JObj fields => Structuring.assoc k fields
  | _ => None
  end.

(** [v?.k] *)
Definition opt_prop (k : string) (v : option Json) : option Json :=
  match v with
  | None | Some JNull => None
  | Some j => prop k j
  end.

(** [data['@type'] === 'JobPosting'] *)
Definition is_job_posting (data : Json) : bool :=
  match prop "@type" data with
  | Some (JStr t) => String.eqb t "JobPosting"
  | _ => false
  end.

(** The body of [if (data['@type'] === 'JobPosting')]. *)
Definition merge_jsonld (job : JobData) (data : Json) : JobData :=
  {| url := url job;
     title := or_else (title job) (prop "title" data);
     company :=
       or_else (company job)
               (opt_prop "name" (prop "hiringOrganization" data));
     location :=
       or_else (location job)
               (opt_prop "addressLocality"
                  (opt_prop "address" (prop "jobLocation" data)));
     salary :=
       or_else (salary job)
               (opt_prop "value" (opt_prop "value" (prop "baseSalary" data)));
     description := or_else (description job) (prop "description" data);
     employmentType := employmentType job |}.

Section with_environment.
(** [JSON.parse]. *)
Variable JSON_parse : string -> Exc Json.
(** The seven site-specific scrapers, chosen by the URL. *)
Variable site_scraper : Page -> string -> ScrapeResponse.

(** The JSON-LD step with its [try]/[catch]: reading a property of
    [null] throws, and any exception leaves the record as it is. *)
Definition apply_jsonld (page : Page) (job : JobData) : JobData :=
  match jsonld_html page with
  | Some jsonLd =>
      if truthy jsonLd then
        match JSON_parse jsonLd with
        | Ret JNull => job
        | Ret data =>
            if is_job_posting data then merge_jsonld job data else job
        | Throw => job
        end
      else job
  | None => job
  end.

Definition extractJobData (page : Page) (url : string) : ScrapeResponse :=
  if recognised url then site_scraper page url
  else
    let job := apply_jsonld page (heuristic_job page url) in
    if (1 <? List.length (jobLinks page))%nat
       && (negb (value_truthy (title job))
           || negb (value_truthy (company job)))
    then list_of (jobLinks page)
    else single job.
End with_environment.

End Fetcher.


(** ** Vocabulary of the statements *)

(** Dates and zones. *)
Module Calendar.
Import Js Clock.

(** The time value of a valid date. *)
Definition valid_time (t : Z) : Prop := Z.abs t <= 8640000000000000.

(** Every offset of the zone is less than a day. *)
Definition bounded (zone : Zone) : Prop :=
  forall t, Z.abs (offset_at zone t) < msPerDay
            /\ Z.abs (offset_of_local zone t) < msPerDay.

(** The date with time value [u], if there is one. *)
Definition clip (u : Z) : Date :=
  if 8640000000000000 <? Z.abs u then InvalidDate else At u.

(** The instant whose local time is [lt]. *)
Definition of_local (zone : Zone) (lt : Z) : Date :=
  clip (lt - offset_of_local zone lt).

(** The local time of [now] moved back by [k] days, and by [h] hours,
    on the local calendar: the wall clock reads the same minutes,
    seconds and milliseconds. *)
Definition days_back (zone : Zone) (now : Z) (k : Z) : Date :=
  of_local zone (LocalTime zone now - k * msPerDay).

Definition hours_back (zone : Zone) (now : Z) (h : Z) : Date :=
  of_local zone (LocalTime zone now - h * msPerHour).

(** Every offset of the zone lies between [lo] and [hi]. *)
Definition offsets_within (lo hi : Z) (zone : Zone) : Prop :=
  forall t, lo <= offset_at zone t <= hi
            /\ lo <= offset_of_local zone t <= hi.

(** The number [x], if it is one, is at most [b]. *)
Definition at_most (x : Js.Num) (b : Z) : Prop :=
  match x with
  | Js.Int a => a <= b
  | Js.Infinity positive => positive = false
  | Js.NaN => True
  end.

(** A zone whose offset never changes. *)
Definition fixed (c : Z) : Zone :=
  {| offset_at := fun _ => c; offset_of_local := fun _ => c |}.

Definition utc : Zone := fixed 0.

(** A zone that is two hours ahead of UTC until the instant
    [1700000000000 - 2 days] and one hour ahead from then on. *)
Definition clock_change : Zone :=
  let change := 1700000000000 - 2 * msPerDay in
  {| offset_at :=
       fun t => if t <? change then 2 * msPerHour else msPerHour;
     offset_of_local :=
       fun lt =>
         if lt <? change + 2 * msPerHour then 2 * msPerHour else msPerHour |}.

End Calendar.


Module Phrase.
Import Js.

Fixpoint all_chars (f : ascii -> bool) (s : string) : bool :=
  match s with
  | EmptyString => true
  | String c r => f c && all_chars f r
  end.

(** The first character of [s], if any, is not a digit. *)
Definition no_leading_digit (s : string) : bool :=
  match s with
  | EmptyString => true
  | String c _ => negb (is_digit c)
  end.

(** The phrase [N day ago] or [N days ago]. *)
Definition days_ago_text (n : nat) (plural : bool) : string :=
  of_nat n +:+ " day" +:+ (if plural then "s" else "") +:+ " ago".

(** The phrase [N week ago] or [N weeks ago]. *)
Definition weeks_ago_text (n : nat) (plural : bool) : string :=
  of_nat n +:+ " week" +:+ (if plural then "s" else "") +:+ " ago".

(** [prefix] can stand in front of the date phrase [text]: it holds no
    digit, and the whole text mentions neither [today] nor
    [yesterday]. *)
Definition plain_prefix (prefix text : string) : Prop :=
  all_chars (fun c => negb (is_digit c)) prefix = true
  /\ includes_ci "today" (prefix +:+ text) = false
  /\ includes_ci "yesterday" (prefix +:+ text) = false.

End Phrase.

Module Claims.
Import Js.

(** The repair-and-parse pipeline fails on [text]: no span is located,
    or [JSON.parse] throws on the repaired span. *)
Definition pipeline_fails (JSON_parse : string -> Exc Json) (text : string)
  : Prop :=
  match JsonRepair.jsonMatch (JsonRepair.clean text) with
  | None => True
  | Some jsonStr => JSON_parse (JsonRepair.repair jsonStr) = Throw
  end.

(** The defaults that the two fallback objects of the structuring engine
    share. *)
Definition fallback_defaults (sd : Scraped.ScrapedJob)
           (s : Structuring.Structured) : Prop :=
  match s with
  | Structuring.Spread _ _ _ _ _ _ _ => True
  | Structuring.Built job =>
      salary job
      = Some (Structuring.or_default (Scraped.salary sd) "Competitive")
      /\ workplaceType job = Some "Onsite"
      /\ (employmentType job
          = Some (Structuring.or_default (Scraped.employmentType sd)
                    "Full-time")
          \/ employmentType job = Some "Full-time")
  end.

(** A listing with the given identity and texts, one requirement, no
    salary, posted at time 0. *)
Definition sample_job (id title company location description : string)
  : EnhancedJobListing :=
  {| listing :=
       {| id := id; title := title; company := company;
          location := location; description := description;
          salary := None; currency := None; employmentType := None;
          workplaceType := None;
          requirements := Some ["Five years of experience"];
          responsibilities := None;
          postedDate := 0; sourceUrl := "https://example.org/" +:+ id |};
     matchScore := 70; matchReasons := []; missingSkills := [] |}.

(** A description of 128 characters. *)
Definition long_description : string :=
  "We build data pipelines for logistics companies and are looking "
  +:+ "for an engineer who enjoys Python and distributed query engines.".

(** The job passes the two guards at the top of the loop of
    [removeDuplicateJobs]. *)
Definition has_data (job : EnhancedJobListing) : bool :=
  negb (Filter.insufficient_data job) && negb (Filter.too_short job).




(** The job is added to the map when the loop reaches it in state
    [st]. *)
Definition retained (st : Filter.DedupState) (job : EnhancedJobListing)
  : bool :=
  has_data job
  && negb (bool_decide (Filter.titleCompany job ∈ Filter.seenTitles st))
  && negb (bool_decide (Filter.titleLocation job ∈ Filter.seenTitles st)).

(** The job with [extra] appended to its description. *)
Definition extend_description (job : JobListing) (extra : string)
  : JobListing :=
  {| id := id job; title := title job; company := company job;
     location := location job;
     description := description job +:+ extra;
     salary := salary job; currency := currency job;
     employmentType := employmentType job;
     workplaceType := workplaceType job;
     requirements := requirements job;
     responsibilities := responsibilities job;
     postedDate := postedDate job; sourceUrl := sourceUrl job |}.

Definition bonus (b : bool) (points : Z) : Z := if b then points else 0.

(** The number of must-have skills found in the job text. *)
Definition matched_skills (job : JobListing) (r : Pref.SearchRefinements)
  : nat :=
  List.length (List.filter (Ranking.skill_match job) (Pref.mustHaveSkills r)).



(** A list property is present and has an element. *)
Definition non_empty (l : option (list string)) : Prop :=
  exists x rest, l = Some (x :: rest).

(** The quality predicate in the words of the specification. *)
Definition quality (job : EnhancedJobListing) : Prop :=
  (title job <> "" /\ (5 <= String.length (title job))%nat
   /\ title job <> "Job Opening")
  /\ (company job <> "" /\ (2 <= String.length (company job))%nat
      /\ company job <> "Company")
  /\ (description job <> ""
      /\ (100 <= String.length (description job))%nat
      /\ includes "Please visit the job page" (description job) = false)
  /\ (non_empty (requirements job) \/ non_empty (responsibilities job)).

(** [a] may stand before [b] in the final list: it is newer, or as new
    and scored at least as high. *)
Definition newer_then_better (a b : EnhancedJobListing) : Prop :=
  postedDate a > postedDate b
  \/ (postedDate a = postedDate b /\ matchScore a >= matchScore b).

(** The reasons before [slice(0, 3)], one optional note per test, in the
    order of the source. *)
Definition reason_notes (job : JobListing) (r : Pref.SearchRefinements)
  : list string :=
  (if Ranking.location_match job r then ["Location match"] else [])
  ++ (if Ranking.remote_match job r then ["Remote opportunity"] else [])
  ++ (if Ranking.opt_truthy (salary job) then ["Competitive salary"] else [])
  ++ (if (0 <? matched_skills job r)%nat
      then ["Matches " +:+ of_nat (matched_skills job r) +:+ " key skills"]
      else []).

(** Refinements that ask for a minimum salary and nothing else. *)
Definition wants_salary (m : Z) : Pref.SearchRefinements :=
  {| Pref.jobTitles := []; Pref.synonyms := [];
     Pref.location := {| Pref.city := None; Pref.radius := None;
                         Pref.remote := None; Pref.hybrid := None;
                         Pref.timezone := None |};
     Pref.seniority := "mid";
     Pref.mustHaveSkills := []; Pref.niceToHaveSkills := [];
     Pref.salary := {| Pref.min := Some m; Pref.max := None;
                       Pref.currency := None; Pref.type := None |};
     Pref.contractType := "full-time";
     Pref.eligibility := {| Pref.visa := None; Pref.relocation := None;
                            Pref.languages := None |};
     Pref.dateRange := 3;
     Pref.exclusions := {| Pref.companies := None; Pref.keywords := None;
                           Pref.agencies := None |};
     Pref.targetCompanies := None |}.

(** The sample listing with a salary text. *)
Definition with_salary (s : string) (job : EnhancedJobListing) : JobListing :=
  {| id := id job; title := title job; company := company job;
     location := location job; description := description job;
     salary := Some s; currency := currency job;
     employmentType := employmentType job;
     workplaceType := workplaceType job;
     requirements := requirements job;
     responsibilities := responsibilities job;
     postedDate := postedDate job; sourceUrl := sourceUrl job |}.

(** A page of an unrecognised site whose first [h1] reads [heading],
    with a JSON-LD script and no job links. *)
Definition page_with_heading (heading : string) : Fetcher.Page :=
  {| Fetcher.first_text :=
       fun selector => if String.eqb selector "h1" then heading else "";
     Fetcher.jsonld_html := Some "{...}";
     Fetcher.jobLinks := [] |}.

(** Structured data of a [JobPosting] that carries a title. *)
Definition posting_titled (t : string) : Json :=
  JObj [("@type", JStr "JobPosting"); ("title", JStr t)].

End Claims.

(** More phrases. *)
Module Phrase2.
Import Js.

(** The phrase [N hour ago] or [N hours ago]. *)
Definition hours_ago_text (n : nat) (plural : bool) : string :=
  of_nat n +:+ " hour" +:+ (if plural then "s" else "") +:+ " ago".

(** The phrase [N month ago] or [N months ago]. *)
Definition months_ago_text (n : nat) (plural : bool) : string :=
  of_nat n +:+ " month" +:+ (if plural then "s" else "") +:+ " ago".

Definition not_digit (c : ascii) : bool := negb (is_digit c).

End Phrase2.

(** Shapes of strings. *)
Module Shape.
Import Js.

(** [c] does not occur in [s]. *)
Definition lacks (c : ascii) (s : string) : bool :=
  Phrase.all_chars (fun x => negb (Ascii.eqb x c)) s.

Definition starts_with (c : ascii) (s : string) : bool :=
  match s with
  | String x _ => Ascii.eqb x c
  | EmptyString => false
  end.

Fixpoint ends_with (c : ascii) (s : string) : bool :=
  match s with
  | EmptyString => false
  | String x EmptyString => Ascii.eqb x c
  | String _ r => ends_with c r
  end.

End Shape.

(** Shapes of listings. *)
Module ListingShape.
Import Js.

(** A list property holds between 1 and 5 entries. *)
Definition one_to_five (l : option (list string)) : Prop :=
  exists items, l = Some items
                /\ (1 <= List.length items <= 5)%nat.

(** The fields that the rest of the pipeline relies on are filled. *)
Definition fields_present (job : EnhancedJobListing) : Prop :=
  title job <> "" /\ company job <> "" /\ location job <> ""
  /\ description job <> ""
  /\ (exists s, salary job = Some s /\ s <> "")
  /\ one_to_five (requirements job)
  /\ one_to_five (responsibilities job)
  /\ matchScore job = 70
  /\ matchReasons job = ["Potential match"].

(** The scraped record lacks its title, its company or its
    description. *)
Definition incomplete (sd : Scraped.ScrapedJob) : bool :=
  negb (Ranking.opt_truthy (Scraped.title sd))
  || negb (Ranking.opt_truthy (Scraped.company sd))
  || negb (Ranking.opt_truthy (Scraped.description sd)).

End ListingShape.

(** ** [rankJobsForResume] *)

Module Resume.

(** The comparison function [(a, b) => b.matchScore - a.matchScore]. *)
Definition by_score (a b : EnhancedJobListing) : Z :=
  matchScore b - matchScore a.

(** [rankJobsForResume(jobs, resumeText, refinements)]: the loop pushes
    one enhanced listing per job, and the result is sorted by score.
    The resume text is not read. *)
Definition rankJobsForResume (jobs : list JobListing) (resumeText : string)
           (r : Pref.SearchRefinements) : list EnhancedJobListing :=
  let rankedJobs :=
    fold_left
      (fun rankedJobs job =>
         rankedJobs ++
           [{| listing := job;
               matchScore := Ranking.calculateMatchScore job r;
               matchReasons := Ranking.generateMatchReasons job r;
               missingSkills := [] |}])
      jobs [] in
  Search.sort by_score rankedJobs.

End Resume.

(** The state of the de-duplication loop. *)
Module DedupShape.
Import Filter.

(** What the loop of [removeDuplicateJobs] maintains while it runs over
    jobs of [input]: every entry of the map is keyed by its own id, comes
    from the input, passed the data guards and has its primary signature
    recorded; keys are distinct, and so are the primary signatures of the
    values. *)
Definition dedup_inv (input : list EnhancedJobListing) (st : DedupState)
  : Prop :=
  (forall (k : string) (v : EnhancedJobListing), (k, v) ∈ uniqueJobs st ->
               k = id v /\ v ∈ input /\ Claims.has_data v = true
               /\ titleCompany v ∈ seenTitles st)
  /\ NoDup (uniqueJobs st).*1
  /\ NoDup (titleCompany <$> (uniqueJobs st).*2).


(** [a] may stand before [b] when sorted by score. *)
Definition better (a b : EnhancedJobListing) : Prop :=
  matchScore a >= matchScore b.

End DedupShape.

(** ** Page resolver: [processJobResult] *)

(** One organic result of the search provider. *)
Module Hit.
Record SearchResult : Type := {
  title : option string;
  snippet : option string;
  link : string
}.
End Hit.

Module Resolver.
Import Js.

(** An entry of a list page, of which only the URL is read. *)
Record ListedJob : Type := { url : string }.

(** The data returned by the scraping function, as the caller reads
    it. *)
Record Response : Type := {
  type : string;
  jobs : option (list ListedJob);
  job : option Scraped.ScrapedJob;
  error : option string
}.

(** [date === null && text?.includes('ago')], where [date] is
    [extractJobDate(text || '')]. *)
Definition looks_old (zone : Clock.Zone) (now : Z) (text : option string)
  : bool :=
  match text with
  | None => false
  | Some t =>
      bool_decide (Freshness.extractJobDate zone now t = None)
      && includes "ago" t
  end.

(** The URL test: search and browse pages are skipped. *)
Definition not_a_posting (link : string) : bool :=
  let url := toLowerCase link in
  includes "/search?" url || includes "?q=" url
  || includes "job-search" url || includes "browse-jobs" url.

(** A structured job after the assignment
    [structuredJob.postedDate = date]: the object, and the date that its
    [postedDate] property holds from then on. *)
Record Dated : Type := {
  object : Structuring.Structured;
  posted : Clock.Date
}.

Definition set_postedDate (date : Clock.Date) (s : Structuring.Structured)
  : Dated :=
  {| object := s; posted := date |}.

(** [jobDate || new Date()]: a [Date] object is truthy, the Invalid
    Date too. *)
Definition date_or_now (now : Z) (jobDate : option Clock.Date)
  : Clock.Date :=
  default (Clock.At now) jobDate.

Section with_environment.
(** [fetchJobPageContent]: the response of the scraping function, or
    [None] for the [null] returned when the call fails. *)
Variable fetch : string -> option Response.
(** [structureJobWithGemini] on a scraped record and its URL, with the
    provider behind it. *)
Variable structure :
  Scraped.ScrapedJob -> string -> Exc (option Structuring.Structured).

(** The loop over the first entries of a list page; [continue] moves on
    to the next entry, an exception leaves the loop. *)
Fixpoint resolve_listed (zone : Clock.Zone) (now : Z)
         (entries : list ListedJob) (jobs : list Dated)
  : Exc (list Dated) :=
  match entries with
  | [] => Ret jobs
  | jobInfo :: rest =>
      if truthy (url jobInfo) then
        match fetch (url jobInfo) with
        | Some jobPageData =>
            match job jobPageData with
            | Some scrapedJob =>
                if String.eqb (type jobPageData) "single" then
                  structuredJob ← structure scrapedJob (url jobInfo);
                  match structuredJob with
                  | Some s =>
                      let jobDate :=
                        Freshness.extractJobDate zone now
                          (Structuring.or_default
                             (Scraped.description scrapedJob) "") in
                      if bool_decide (jobDate = None)
                         && match Scraped.description scrapedJob with
                            | Some d => includes "ago" d
                            | None => false
                            end
                      then resolve_listed zone now rest jobs
                      else
                        resolve_listed zone now rest
                          (jobs ++ [set_postedDate (date_or_now now jobDate) s])
                  | None => resolve_listed zone now rest jobs
                  end
                else resolve_listed zone now rest jobs
            | None => resolve_listed zone now rest jobs
            end
        | None => resolve_listed zone now rest jobs
        end
      else resolve_listed zone now rest jobs
  end.

(** The [try] block of [processJobResult]. *)
Definition process_body (zone : Clock.Zone) (now : Z)
           (result : Hit.SearchResult) : Exc (list Dated) :=
  if looks_old zone now (Hit.snippet result)
     || looks_old zone now (Hit.title result)
  then Ret []
  else if not_a_posting (Hit.link result) then Ret []
  else
    match fetch (Hit.link result) with
    | None => Ret []
    | Some scraped =>
        if Ranking.opt_truthy (error scraped) then Ret []
        else
          let listed := default [] (jobs scraped) in
          if String.eqb (type scraped) "list"
             && bool_decide (is_Some (jobs scraped))
             && (0 <? List.length listed)%nat
          then resolve_listed zone now (take 3 listed) []
          else
            match job scraped with
            | Some scrapedJob =>
                if String.eqb (type scraped) "single" then
                  if negb (Ranking.opt_truthy (Scraped.title scrapedJob))
                     || negb (Ranking.opt_truthy
                                (Scraped.description scrapedJob))
                     || (String.length
                           (default "" (Scraped.description scrapedJob))
                         <? 50)%nat
                  then Ret []
                  else
                    let jobDate :=
                      Freshness.extractJobDate zone now
                        (Structuring.or_default
                           (Scraped.description scrapedJob) "") in
                    if bool_decide (jobDate = None)
                       && match Scraped.description scrapedJob with
                          | Some d => includes "ago" d
                          | None => false
                          end
                    then Ret []
                    else
                      structuredJob ← structure scrapedJob (Hit.link result);
                      match structuredJob with
                      | Some s =>
                          Ret [set_postedDate (date_or_now now jobDate) s]
                      | None => Ret []
                      end
                else Ret []
            | None => Ret []
            end
    end.

(** [processJobResult]: any exception yields the empty list. *)
Definition processJobResult (zone : Clock.Zone) (now : Z)
           (result : Hit.SearchResult) : list Dated :=
  match process_body zone now result with
  | Ret jobs => jobs
  | Throw => []
  end.

End with_environment.

End Resolver.

(** ** The collection loop of [searchWithRefinements] *)

Module Collect.
Import Js.

Definition quoted (s : string) : string :=
  String (ascii_of_nat 34) s +:+ String (ascii_of_nat 34) "".

Definition freshTerms : list string :=
  ["posted today"; "posted yesterday"; "hiring now"; "urgently hiring";
   "new"].

(** The five queries; [pick] is [Math.floor(Math.random() * 5)]. *)
Definition searches (query location : string) (pick : nat) : list string :=
  [ query +:+ " " +:+ location +:+ " " +:+ quoted "posted today" +:+ " OR "
      +:+ quoted "posted yesterday" +:+ " site:linkedin.com/jobs/view";
    query +:+ " " +:+ location +:+ " " +:+ quoted "urgently hiring"
      +:+ " site:indeed.com/viewjob";
    query +:+ " " +:+ location +:+ " " +:+ quoted "new" +:+ " "
      +:+ quoted "hiring" +:+ " site:glassdoor.com";
    query +:+ " " +:+ location +:+ " " +:+ quoted "posted 1 day ago"
      +:+ " OR " +:+ quoted "posted 2 days ago";
    query +:+ " " +:+ location +:+ " "
      +:+ default "undefined" (freshTerms !! pick) ].

(** [\s+ago] at the start of [s]. *)
Definition spaces_ago (s : string) : bool :=
  let '(w, r) := span is_space s in
  truthy w && bool_decide (is_Some (strip_prefix "ago" r)).

(** The pattern [(\d+)\s+days?\s+ago] anchored at the start of [s]. *)
Definition days_at (s : string) : option string :=
  let '(ds, r) := span is_digit s in
  let '(w, r1) := span is_space r in
  if truthy ds && truthy w then
    match strip_prefix "day" r1 with
    | Some r2 =>
        match strip_prefix "s" r2 with
        | Some r3 =>
            if spaces_ago r3 || spaces_ago r2 then Some ds else None
        | None => if spaces_ago r2 then Some ds else None
        end
    | None => None
    end
  else None.

(** [snippetLower.match(/(\d+)\s+days?\s+ago/)]: the leftmost match. *)
Fixpoint days_match (s : string) : option string :=
  match days_at s with
  | Some ds => Some ds
  | None =>
      match s with
      | EmptyString => None
      | String _ r => days_match r
      end
  end.

(** The snippet test made before a result is processed. *)
Definition snippet_old (snippet : option string) : bool :=
  match snippet with
  | None => false
  | Some s =>
      truthy s &&
      let snippetLower := toLowerCase s in
      (includes "week" snippetLower && includes "ago" snippetLower)
      || (includes "month" snippetLower && includes "ago" snippetLower)
      || match days_match snippetLower with
         | Some d => num_lt (Int 4) (parseInt d)
         | None => false
         end
  end.

Record LoopState : Type := {
  allJobs : list Resolver.Dated;
  processedUrls : gset string
}.

Definition loop_init : LoopState :=
  {| allJobs := []; processedUrls := ∅ |}.

Section with_environment.
(** The search provider: the organic results for a query, or [Throw]
    when the request fails. *)
Variable search : string -> Exc (list Hit.SearchResult).
(** [processJobResult] with its environment. *)
Variable process : Hit.SearchResult -> list Resolver.Dated.

(** The loop over the results of one query; returning early is the
    [break]. *)
Fixpoint scan_results (results : list Hit.SearchResult) (st : LoopState)
  : LoopState :=
  match results with
  | [] => st
  | result :: rest =>
      if bool_decide (Hit.link result ∈ processedUrls st)
      then scan_results rest st
      else
        let st := {| allJobs := allJobs st;
                     processedUrls := {[ Hit.link result ]} ∪ processedUrls st |} in
        if snippet_old (Hit.snippet result) then scan_results rest st
        else
          let st := {| allJobs := allJobs st ++ process result;
                       processedUrls := processedUrls st |} in
          if (25 <=? List.length (allJobs st))%nat then st
          else scan_results rest st
  end.

(** The loop over the queries; a failed request moves on to the next
    query. *)
Fixpoint run_searches (queries : list string) (st : LoopState)
  : LoopState :=
  match queries with
  | [] => st
  | searchQuery :: rest =>
      match search searchQuery with
      | Throw => run_searches rest st
      | Ret searchResults =>
          let st := scan_results searchResults st in
          if (25 <=? List.length (allJobs st))%nat then st
          else run_searches rest st
      end
  end.

(** The jobs collected before the final filters. *)
Definition collect (query location : string) (pick : nat)
  : list Resolver.Dated :=
  allJobs (run_searches (searches query location pick) loop_init).

End with_environment.

End Collect.

(** Where the posting date of a resolved job comes from. *)
Module Provenance.

(** The date is the clock reading, or a date that the freshness
    classifier inferred from some text. *)
Definition dated_by_page (zone : Clock.Zone) (now : Z)
           (d : Resolver.Dated) : Prop :=
  Resolver.posted d = Clock.At now
  \/ exists text,
       Freshness.extractJobDate zone now text = Some (Resolver.posted d).

End Provenance.

(** The shape of a job id. *)
Module IdShape.

(** A letter of the English alphabet or a digit. *)
Definition letter_or_digit (c : ascii) : bool :=
  existsb (Ascii.eqb c)
    (list_ascii_of_string
       ("ABCDEFGHIJKLMNOPQRSTUVWXYZ" +:+ "abcdefghijklmnopqrstuvwxyz"
          +:+ "0123456789")).

(** The letters and digits of [s], in their order. *)
Definition letters_and_digits (s : string) : string :=
  string_of_list_ascii (List.filter letter_or_digit (list_ascii_of_string s)).

End IdShape.

(** Date phrases that mark a posting as old. *)
Module OldPhrase.

Definition old_phrase (t : string) : Prop :=
  (exists n plural, (4 < n)%nat /\ t = Phrase.days_ago_text n plural)
  \/ (exists n plural, (1 <= n)%nat /\ t = Phrase.weeks_ago_text n plural)
  \/ (exists n plural, t = Phrase2.months_ago_text n plural).

End OldPhrase.

(** ** The Playwright scraper's helpers: [isRecentJob],
    [extractRequirements], [extractResponsibilities] *)

Module Playwright.
Import Js.

(** The pattern [(\d+)\s*days?] anchored at the start of [s]; the
    optional [s] at its end never decides whether it matches. *)
Definition loose_days_at (s : string) : option string :=
  let '(ds, r) := span is_digit s in
  if truthy ds
     && bool_decide (is_Some (strip_prefix "day" (drop_spaces r)))
  then Some ds else None.

(** [lower.match(/(\d+)\s*days?/)]: the leftmost match. *)
Fixpoint loose_days_match (s : string) : option string :=
  match loose_days_at s with
  | Some ds => Some ds
  | None =>
      match s with
      | EmptyString => None
      | String _ r => loose_days_match r
      end
  end.

(** [isRecentJob(dateStr)]; [None] is a missing date. *)
Definition isRecentJob (dateStr : option string) : bool :=
  match dateStr with
  | None => true
  | Some s =>
      if is_empty s then true
      else
        let lower := toLowerCase s in
        if includes "just posted" lower || includes "today" lower
           || includes "1 day" lower || includes "2 days" lower
           || includes "3 days" lower || includes "4 days" lower
        then true
        else if includes "week" lower || includes "month" lower
                || includes "30+ days" lower
        then false
        else
          match loose_days_match lower with
          | Some d =>
              let days := parseInt d in
              num_le days (Int 4)
          | None => true
          end
  end.

(** [description.split(/\n|\.|\•|\-/)]: of the four separators the line
    feed, the full stop and the hyphen have code units below 256. *)
Definition is_break (c : ascii) : bool :=
  (code c =? 10)%nat || (code c =? 46)%nat || (code c =? 45)%nat.

Fixpoint split_breaks (cur : string) (s : string) : list string :=
  match s with
  | EmptyString => [rev_string EmptyString cur]
  | String c r =>
      if is_break c
      then rev_string EmptyString cur :: split_breaks EmptyString r
      else split_breaks (String c cur) r
  end.

Definition mentions (words : list string) (lower : string) : bool :=
  existsb (fun w => includes w lower) words.

(** The loop shared by [extractRequirements] and
    [extractResponsibilities]: [start] are the words that open the
    section, [stop] those that close it.  Returning early is the
    [break]. *)
Fixpoint section_lines (start stop : list string) (inSection : bool)
         (found : list string) (lines : list string) : list string :=
  match lines with
  | [] => found
  | line :: rest =>
      let lower := toLowerCase line in
      if mentions start lower
      then section_lines start stop true found rest
      else
        let found' :=
          if inSection && (10 <? String.length (trim line))%nat
          then found ++ [trim line] else found in
        if inSection && (10 <? String.length (trim line))%nat
           && (5 <=? List.length found')%nat
        then found'
        else if inSection && mentions stop lower then found'
        else section_lines start stop inSection found' rest
  end.

Definition extractRequirements (description : string) : list string :=
  take 5 (section_lines ["requirement"; "qualification"; "must have"]
            ["responsibilit"; "benefit"] false []
            (split_breaks EmptyString description)).

Definition extractResponsibilities (description : string) : list string :=
  take 5 (section_lines ["responsibilit"; "duties"; "you will"]
            ["requirement"; "benefit"] false []
            (split_breaks EmptyString description)).

End Playwright.

(** Digit strings by their last digit. *)
Module Digits.

(** The digit string ends with 1, 2, 3 or 4. *)
Definition ends_1_to_4 (ds : string) : bool :=
  Shape.ends_with "1" ds || Shape.ends_with "2" ds
  || Shape.ends_with "3" ds || Shape.ends_with "4" ds.

End Digits.

(** ** Query builder: [buildSearchQuery] and [performEnhancedSearch] *)

Module Query.
Import Js.

(** [parts.join(sep)] *)
Fixpoint join (sep : string) (parts : list string) : string :=
  match parts with
  | [] => ""
  | [x] => x
  | x :: rest => x +:+ sep +:+ join sep rest
  end.

Definition buildSearchQuery (r : Pref.SearchRefinements) : string :=
  let parts := [] in
  let parts :=
    if (0 <? List.length (Pref.jobTitles r))%nat
    then parts ++ ["(" +:+ join " OR " (Pref.jobTitles r ++ Pref.synonyms r)
                     +:+ ")"]
    else parts in
  let parts :=
    match Pref.city (Pref.location r) with
    | Some c => if truthy c then parts ++ [c] else parts
    | None => parts
    end in
  let parts :=
    if bool_decide (Pref.remote (Pref.location r) = Some true)
    then parts ++ ["remote"] else parts in
  let parts :=
    if truthy (Pref.seniority r) && negb (String.eqb (Pref.seniority r) "mid")
    then parts ++ [Pref.seniority r] else parts in
  let parts :=
    if (0 <? List.length (Pref.mustHaveSkills r))%nat
    then parts ++ [join " " (take 3 (Pref.mustHaveSkills r))]
    else parts in
  let parts := parts ++ ["hiring now"] in
  let parts := parts ++ ["actively hiring"] in
  let parts :=
    parts ++ [Collect.quoted "posted today" +:+ " OR "
                +:+ Collect.quoted "posted yesterday" +:+ " OR "
                +:+ Collect.quoted "posted 2 days ago"] in
  join " " parts.

(** [Partial<SearchRefinements>]: every field may be missing. *)
Record PartialRefinements : Type := {
  jobTitles : option (list string);
  synonyms : option (list string);
  location : option Pref.Location;
  seniority : option string;
  mustHaveSkills : option (list string);
  niceToHaveSkills : option (list string);
  salary : option Pref.Salary;
  contractType : option string;
  eligibility : option Pref.Eligibility;
  dateRange : option Z;
  exclusions : option Pref.Exclusions;
  targetCompanies : option (list string)
}.

(** [refinements?.field], for a field that holds an object or an
    array (always truthy when present). *)
Definition field {A : Type} (refinements : option PartialRefinements)
           (get : PartialRefinements -> option A) (d : A) : A :=
  match refinements with
  | Some p => default d (get p)
  | None => d
  end.

(** The same for a string field: the empty string is falsy. *)
Definition string_field (refinements : option PartialRefinements)
           (get : PartialRefinements -> option string) (d : string)
  : string :=
  match refinements with
  | Some p => Structuring.or_default (get p) d
  | None => d
  end.

(** [fullRefinements] of [performEnhancedSearch]. *)
Definition fullRefinements (refinements : option PartialRefinements)
  : Pref.SearchRefinements :=
  {| Pref.jobTitles := field refinements jobTitles [];
     Pref.synonyms := field refinements synonyms [];
     Pref.location :=
       field refinements location
         {| Pref.city := None; Pref.radius := None;
            Pref.remote := Some true; Pref.hybrid := None;
            Pref.timezone := None |};
     Pref.seniority := string_field refinements seniority "mid";
     Pref.mustHaveSkills := field refinements mustHaveSkills [];
     Pref.niceToHaveSkills := field refinements niceToHaveSkills [];
     Pref.salary :=
       field refinements salary
         {| Pref.min := None; Pref.max := None; Pref.currency := None;
            Pref.type := None |};
     Pref.contractType := string_field refinements contractType "full-time";
     Pref.eligibility :=
       field refinements eligibility
         {| Pref.visa := None; Pref.relocation := None;
            Pref.languages := Some ["English"] |};
     Pref.dateRange :=
       match refinements with
       | Some p =>
           match dateRange p with
           | Some d => if d =? 0 then 3 else d
           | None => 3
           end
       | None => 3
       end;
     Pref.exclusions :=
       field refinements exclusions
         {| Pref.companies := None; Pref.keywords := None;
            Pref.agencies := None |};
     Pref.targetCompanies := Some (field refinements targetCompanies []) |}.

(** The query that [performEnhancedSearch] hands to
    [searchWithRefinements]. *)
Definition performEnhancedSearch_query (searchText : string)
           (refinements : option PartialRefinements) : string :=
  searchText +:+ " " +:+ buildSearchQuery (fullRefinements refinements).

(** The fixed end of every query. *)
Definition fresh_tail : string :=
  "hiring now actively hiring "
    +:+ Collect.quoted "posted today" +:+ " OR "
    +:+ Collect.quoted "posted yesterday" +:+ " OR "
    +:+ Collect.quoted "posted 2 days ago".

(** The refinements with other must-have skills. *)
Definition with_skills (r : Pref.SearchRefinements) (skills : list string)
  : Pref.SearchRefinements :=
  {| Pref.jobTitles := Pref.jobTitles r;
     Pref.synonyms := Pref.synonyms r;
     Pref.location := Pref.location r;
     Pref.seniority := Pref.seniority r;
     Pref.mustHaveSkills := skills;
     Pref.niceToHaveSkills := Pref.niceToHaveSkills r;
     Pref.salary := Pref.salary r;
     Pref.contractType := Pref.contractType r;
     Pref.eligibility := Pref.eligibility r;
     Pref.dateRange := Pref.dateRange r;
     Pref.exclusions := Pref.exclusions r;
     Pref.targetCompanies := Pref.targetCompanies r |}.

End Query.

(** The JSON-LD of a page cannot be used. *)
Module JsonLd.

Definition unusable (JSON_parse : string -> Exc Json) (page : Fetcher.Page)
  : Prop :=
  match Fetcher.jsonld_html page with
  | None => True
  | Some html =>
      Js.truthy html = false
      \/ match JSON_parse html with
         | Throw => True
         | Ret data => data = JNull \/ Fetcher.is_job_posting data = false
         end
  end.

End JsonLd.

(** ** Intent analyzer: the local checks of [analyzeSearchIntent] *)

Module Intent.
Import Js.

(** A word character [\w]. *)
Definition is_word (c : ascii) : bool :=
  Structuring.is_alnum c || (code c =? 95)%nat.

Definition is_upper (c : ascii) : bool :=
  (65 <=? code c)%nat && (code c <=? 90)%nat.

Definition is_lower (c : ascii) : bool :=
  (97 <=? code c)%nat && (code c <=? 122)%nat.

(** The word boundary between a word character and what follows in
    [s]. *)
Definition word_ends (s : string) : bool :=
  match s with
  | EmptyString => true
  | String c _ => negb (is_word c)
  end.

(** One of the alternatives of the location pattern followed by a
    word boundary, at the start of [s]: the words [remote], [hybrid],
    [onsite], or a capital letter and a run of small letters.  The run
    has to be taken whole, since the boundary fails inside it; and when
    the boundary fails after it, the optional further words cannot start
    either, since they begin with white space. *)
Definition location_word_at (s : string) : bool :=
  let literal (w : string) :=
    match strip_prefix w s with
    | Some r => word_ends r
    | None => false
    end in
  literal "remote" || literal "hybrid" || literal "onsite"
  || match s with
     | String c r =>
         is_upper c &&
         let '(run, rest) := span is_lower r in
         truthy run && word_ends rest
     | EmptyString => false
     end.

(** The location test: the pattern (a word boundary, then one of
    remote, hybrid, onsite or capitalised words separated by white
    space, then a word boundary) matches somewhere in the input.
    [prev_word] tells whether the character in front of [s] is a word
    character: the boundary has to hold there, and every alternative
    starts with a word character. *)
Fixpoint location_from (prev_word : bool) (s : string) : bool :=
  (negb prev_word && location_word_at s)
  || match s with
     | EmptyString => false
     | String c r => location_from (is_word c) r
     end.

Definition hasLocation (input : string) : bool := location_from false input.

(** [input.split(' ')] *)
Fixpoint split_spaces (cur : string) (s : string) : list string :=
  match s with
  | EmptyString => [rev_string EmptyString cur]
  | String c r =>
      if Ascii.eqb c " "
      then rev_string EmptyString cur :: split_spaces EmptyString r
      else split_spaces (String c cur) r
  end.

Definition hasJobTitle (input : string) : bool :=
  (1 <? List.length (split_spaces EmptyString input))%nat.

(** Digits and the letter k, in either case, at the start of [s]. *)
Definition number_k_at (s : string) : bool :=
  let '(ds, r) := span is_digit s in
  truthy ds && bool_decide (is_Some (strip_prefix_ci "k" r)).

(** The salary test: a dollar sign or digits followed by the letter k
    occur somewhere in the input. *)
Fixpoint hasSalary (input : string) : bool :=
  match input with
  | EmptyString => false
  | String c r =>
      Ascii.eqb c "$" || number_k_at input || hasSalary r
  end.

(** The list [missingInfo] after the three checks. *)
Definition missing_info (input : string) : list string :=
  let missingInfo := [] in
  let missingInfo :=
    if negb (hasJobTitle input)
    then missingInfo ++ ["Specific job title or role"] else missingInfo in
  let missingInfo :=
    if negb (hasLocation input)
    then missingInfo ++ ["Location preference (city or remote)"]
    else missingInfo in
  let missingInfo :=
    if negb (hasSalary input)
    then missingInfo ++ ["Salary expectations (optional)"]
    else missingInfo in
  missingInfo.

Record Analysis : Type := {
  refinements : Pref.SearchRefinements;
  missingInfo : list string;
  suggestions : list string
}.

(** What the function resolves to: an object written out in the code,
    or the provider's parsed object. *)
Inductive Outcome : Type :=
| Written (a : Analysis)
| Parsed (v : Json).

(** The refinements of the early return: no location at all. *)
Definition empty_refinements : Pref.SearchRefinements :=
  {| Pref.jobTitles := [];
     Pref.synonyms := [];
     Pref.location := {| Pref.city := None; Pref.radius := None;
                         Pref.remote := None; Pref.hybrid := None;
                         Pref.timezone := None |};
     Pref.seniority := "mid";
     Pref.mustHaveSkills := [];
     Pref.niceToHaveSkills := [];
     Pref.salary := {| Pref.min := None; Pref.max := None;
                       Pref.currency := None; Pref.type := None |};
     Pref.contractType := "full-time";
     Pref.eligibility := {| Pref.visa := None; Pref.relocation := None;
                            Pref.languages := Some ["English"] |};
     Pref.dateRange := 3;
     Pref.exclusions := {| Pref.companies := None; Pref.keywords := None;
                           Pref.agencies := None |};
     Pref.targetCompanies := Some [] |}.

(** [analyzeSearchIntent(input, isResume)] up to the call of the
    provider; [rest] is what the remainder of the function (provider
    call, parsing, fallbacks, [catch]) resolves to. *)
Definition analyzeSearchIntent (input : string) (isResume : bool)
           (rest : Outcome) : Outcome :=
  let missingInfo := missing_info input in
  if (0 <? List.length missingInfo)%nat && negb isResume
  then
    Written
      {| refinements := empty_refinements;
         missingInfo := missingInfo;
         suggestions :=
           [ "Add specific job title (e.g., " +:+ Collect.quoted "Senior React Developer" +:+ ")";
             "Include location or mention if remote is okay";
             "Specify experience level (junior/mid/senior)" ] |}
  else rest.

End Intent.

(** * Properties *)

#[local] Arguments String.append !_ _ / : simpl nomatch.

(** ** String primitives *)

Section string_facts.
Import Js Phrase.

Lemma append_nil_r (s : string) : s +:+ "" = s.
Proof. induction s as [|c s IH]; simpl; congruence. Qed.

Lemma append_assoc (a b c : string) : (a +:+ b) +:+ c = a +:+ b +:+ c.
Proof. induction a as [|x a IH]; simpl; congruence. Qed.

Lemma is_empty_app_l (a b : string) :
  is_empty a = false -> is_empty (a +:+ b) = false.
Proof. by destruct a. Qed.

Lemma span_all_app (f : ascii -> bool) (ds tail : string) :
  all_chars f ds = true ->
  match tail with EmptyString => True | String c _ => f c = false end ->
  span f (ds +:+ tail) = (ds, tail).
Proof.
  intros Hds Htail. induction ds as [|c ds IH].
  - destruct tail as [|c r]; simpl; [done | by rewrite Htail].
  - simpl in Hds. apply andb_prop in Hds as [Hc Hds].
    simpl. by rewrite Hc, (IH Hds).
Qed.

Lemma digit_not_ci_letter (a d : ascii) :
  is_digit a = false -> is_digit d = true -> ci_eqb a d = false.
Proof.
  intros Ha Hd.
  destruct d as [[] [] [] [] [] [] [] []];
    try (by vm_compute in Hd);
    clear Hd; revert Ha;
    destruct a as [[] [] [] [] [] [] [] []]; by vm_compute.
Qed.

(** A literal pattern that begins with a non-digit cannot start inside a
    run of digits. *)
Lemma includes_ci_skip_digits (a : ascii) (p ds tail : string) :
  is_digit a = false ->
  all_chars is_digit ds = true ->
  includes_ci (String a p) (ds +:+ tail) = includes_ci (String a p) tail.
Proof.
  intros Ha Hds. induction ds as [|d ds IH]; [done |].
  simpl in Hds. apply andb_prop in Hds as [Hd Hds].
  cbn [String.append includes_ci strip_prefix_ci].
  rewrite (digit_not_ci_letter a d Ha Hd). by apply IH.
Qed.

Lemma digits_value_uint (d : Decimal.uint) (acc : nat) :
  digits_value (Z.of_nat acc) (NilEmpty.string_of_uint d)
  = Z.of_nat (Nat.of_uint_acc d acc).
Proof.
  revert acc.
  induction d as [|d IH|d IH|d IH|d IH|d IH|d IH|d IH|d IH|d IH|d IH];
    intros acc; cbn [NilEmpty.string_of_uint digits_value Nat.of_uint_acc];
    [done | ..]; rewrite <- IH; f_equal; rewrite Nat.tail_mul_spec;
    unfold digit_value, code; cbn [nat_of_ascii]; vm_compute (nat_of_ascii _ - 48)%nat; lia.
Qed.

Lemma digits_value_of_nat (n : nat) : digits_value 0 (of_nat n) = Z.of_nat n.
Proof.
  unfold of_nat. rewrite (digits_value_uint _ 0).
  change (Nat.of_uint_acc (Nat.to_uint n) 0) with (Nat.of_uint (Nat.to_uint n)).
  by rewrite DecimalNat.Unsigned.of_to.
Qed.

Lemma all_digits_uint (d : Decimal.uint) :
  all_chars is_digit (NilEmpty.string_of_uint d) = true.
Proof. induction d; simpl; auto. Qed.

Lemma all_digits_of_nat (n : nat) : all_chars is_digit (of_nat n) = true.
Proof. apply all_digits_uint. Qed.

Lemma of_nat_nonempty (n : nat) : is_empty (of_nat n) = false.
Proof.
  unfold of_nat. destruct (Nat.to_uint n) as [| | | | | | | | | |] eqn:E; try done.
  pose proof (DecimalNat.Unsigned.of_to n) as H. rewrite E in H.
  simpl in H. subst n. discriminate E.
Qed.

Lemma parseInt_digits (ds : string) :
  all_chars is_digit ds = true -> is_empty ds = false ->
  parseInt ds = round (digits_value 0 ds).
Proof.
  intros Hds Hne. unfold parseInt.
  pose proof (span_all_app is_digit ds "" Hds I) as H.
  rewrite append_nil_r in H. by rewrite H, Hne.
Qed.

End string_facts.

(** ** Numbers *)

Section number_facts.
Import Js.

Lemma round_nonneg_exact (n : Z) :
  0 <= n < 2 ^ 53 -> round_nonneg n = Int n.
Proof.
  intros Hn. unfold round_nonneg.
  assert (Z.log2 n < 53) as Hlog.
  { destruct (Z.eq_dec n 0) as [-> | Hne]; [done |].
    apply Z.log2_lt_pow2; lia. }
  replace (Z.log2 n - 52 <=? 0) with true by (symmetry; apply Z.leb_le; lia).
  done.
Qed.

Lemma round_exact (z : Z) :
  - 2 ^ 53 < z < 2 ^ 53 -> round z = Int z.
Proof.
  intros Hz. unfold round. destruct (Z.ltb_spec z 0).
  - rewrite round_nonneg_exact by lia. simpl. f_equal. lia.
  - apply round_nonneg_exact. lia.
Qed.

(** Beyond 53 bits rounding stays beyond 53 bits. *)
Lemma round_nonneg_large (n : Z) :
  2 ^ 53 <= n ->
  match round_nonneg n with
  | Int m => 2 ^ 53 <= m
  | Infinity s => s = true
  | NaN => False
  end.
Proof.
  intros Hn. unfold round_nonneg.
  assert (53 <= Z.log2 n) as Hlog by (apply Z.log2_le_pow2; lia).
  destruct (Z.leb_spec (Z.log2 n - 52) 0) as [? | He]; [lia |].
  set (e := Z.log2 n - 52) in *.
  assert (2 ^ 52 <= n / 2 ^ e) as Hq.
  { apply Z.div_le_lower_bound; [lia |].
    rewrite Z.mul_comm, <- Z.pow_add_r by lia.
    replace (52 + e) with (Z.log2 n) by lia.
    apply Z.log2_spec. lia. }
  assert (2 <= 2 ^ e) as Hpow.
  { change 2 with (2 ^ 1) at 1. apply Z.pow_le_mono_r; lia. }
  cbv zeta.
  set (c := (_ <? _) || _).
  set (q := n / 2 ^ e) in *.
  assert (exists q', 2 ^ 52 <= q' /\ (if c then q + 1 else q) = q') as (q' & Hq' & ->).
  { destruct c; eexists; (split; [| reflexivity]); lia. }
  destruct (2 ^ 1024 <=? q' * 2 ^ e); [done |].
  change (2 ^ 53) with (2 ^ 52 * 2). nia.
Qed.

Lemma parseInt_of_nat (n : nat) :
  parseInt (of_nat n) = round_nonneg (Z.of_nat n).
Proof.
  rewrite parseInt_digits by auto using all_digits_of_nat, of_nat_nonempty.
  rewrite digits_value_of_nat. unfold round.
  by replace (Z.of_nat n <? 0) with false by (symmetry; apply Z.ltb_ge; lia).
Qed.

(** Rounding does not move a number across a small integer. *)
Lemma round_nonneg_lt (k n : Z) :
  0 <= k < 2 ^ 53 -> 0 <= n ->
  num_lt (Int k) (round_nonneg n) = (k <? n).
Proof.
  intros Hk Hn. destruct (Z.lt_ge_cases n (2 ^ 53)) as [Hs | Hl].
  - by rewrite round_nonneg_exact by lia.
  - pose proof (round_nonneg_large n Hl) as H.
    replace (k <? n) with true by (symmetry; apply Z.ltb_lt; lia).
    destruct (round_nonneg n) as [m | s |]; simpl; [| done | done].
    apply Z.ltb_lt. lia.
Qed.

Lemma round_nonneg_le (k n : Z) :
  0 <= k < 2 ^ 53 -> 0 <= n ->
  num_le (Int k) (round_nonneg n) = (k <=? n).
Proof.
  intros Hk Hn. destruct (Z.lt_ge_cases n (2 ^ 53)) as [Hs | Hl].
  - by rewrite round_nonneg_exact by lia.
  - pose proof (round_nonneg_large n Hl) as H.
    replace (k <=? n) with true by (symmetry; apply Z.leb_le; lia).
    destruct (round_nonneg n) as [m | s |]; simpl; [| done | done].
    apply Z.leb_le. lia.
Qed.

Lemma round_nonneg_ge (k n : Z) :
  0 <= k < 2 ^ 53 -> 0 <= n ->
  num_le (round_nonneg n) (Int k) = (n <=? k).
Proof.
  intros Hk Hn. destruct (Z.lt_ge_cases n (2 ^ 53)) as [Hs | Hl].
  - by rewrite round_nonneg_exact by lia.
  - pose proof (round_nonneg_large n Hl) as H.
    replace (n <=? k) with false by (symmetry; apply Z.leb_gt; lia).
    destruct (round_nonneg n) as [m | s |]; simpl; [| by subst | done].
    apply Z.leb_gt. lia.
Qed.

End number_facts.

(** ** The local calendar *)

Section clock_facts.
Import Js Clock Calendar.

Lemma YearFromTime_spec (t : Z) :
  TimeFromYear (YearFromTime t) <= t < TimeFromYear (YearFromTime t + 1).
Proof.
  unfold TimeFromYear, YearFromTime, DayFromYear, Day, msPerDay.
  repeat case_match; Z.div_mod_to_equations; lia.
Qed.

Lemma num_add_comm (a b : Num) : num_add a b = num_add b a.
Proof.
  destruct a as [x | s |], b as [y | s' |]; simpl; try done.
  - by rewrite Z.add_comm.
  - by destruct s, s'.
Qed.

Lemma num_add_exact (x y : Z) :
  - 2 ^ 53 < x + y < 2 ^ 53 -> num_add (Int x) (Int y) = Int (x + y).
Proof. intros H. simpl. by apply round_exact. Qed.

Lemma num_sub_exact (x y : Z) :
  - 2 ^ 53 < x - y < 2 ^ 53 -> num_sub (Int x) (Int y) = Int (x - y).
Proof. intros H. unfold num_sub. simpl. by apply round_exact. Qed.

Lemma num_mul_exact (x y : Z) :
  - 2 ^ 53 < x * y < 2 ^ 53 -> num_mul (Int x) (Int y) = Int (x * y).
Proof. intros H. simpl. by apply round_exact. Qed.

Lemma LocalTime_bound (zone : Zone) (now : Z) :
  valid_time now -> bounded zone ->
  Z.abs (LocalTime zone now) <= 8640000000000000 + msPerDay.
Proof.
  intros Hnow Hz. unfold LocalTime. destruct (Hz now) as [H _].
  unfold valid_time in Hnow. lia.
Qed.

Lemma of_local_exact (zone : Zone) (lt : Z) :
  bounded zone -> Z.abs lt <= 9007199000000000 ->
  TimeClip (UTC zone (Int lt)) = of_local zone lt.
Proof.
  intros Hz Hlt. unfold UTC, of_local, clip, TimeClip.
  destruct (Hz lt) as [_ Ho]. unfold msPerDay in Ho.
  by rewrite num_sub_exact by lia.
Qed.

(** What [MakeDay] returns for the year and month of [lt] and a day of
    the month counted from the one of [lt]. *)
Lemma MakeDay_back (lt k : Z) :
  Z.abs lt <= 8650000000000000 -> 0 <= k <= 7 ->
  MakeDay (YearFromTime lt) (MonthFromTime lt)
          (num_sub (Int (DateFromTime lt)) (Int k))
  = Int (Day lt - k).
Proof.
  intros Hlt Hk.
  pose proof (YearFromTime_spec lt) as Hy.
  assert (0 <= DayWithinYear lt < 366) as Hd.
  { unfold DayWithinYear. revert Hy.
    unfold TimeFromYear, DayFromYear, Day, msPerDay.
    Z.div_mod_to_equations. lia. }
  assert (0 <= MonthFromTime lt <= 11) as Hm.
  { unfold MonthFromTime. repeat case_match; lia. }
  assert (0 <= InLeapYear lt <= 1) as Hl
      by (unfold InLeapYear; case_match; lia).
  assert (DayFromYear (YearFromTime lt)
          + month_start (MonthFromTime lt) (InLeapYear lt)
          + DateFromTime lt - 1 = Day lt) as Hday.
  { unfold DateFromTime, DayWithinYear, MonthFromTime in *.
    repeat case_match; simpl; lia. }
  assert (Z.abs (Day lt) <= 100200000) as HD.
  { unfold Day, msPerDay in *. Z.div_mod_to_equations. lia. }
  assert (Z.abs (DateFromTime lt) <= 400) as Hdt.
  { unfold DateFromTime. repeat case_match; lia. }
  assert (Z.abs (month_start (MonthFromTime lt) (InLeapYear lt)) <= 400)
    as Hms.
  { unfold month_start. repeat case_match; lia. }
  rewrite num_sub_exact by lia.
  unfold MakeDay.
  replace (MonthFromTime lt `div` 12) with 0
    by (Z.div_mod_to_equations; lia).
  replace (MonthFromTime lt `mod` 12) with (MonthFromTime lt)
    by (Z.div_mod_to_equations; lia).
  rewrite Z.add_0_r. fold (InLeapYear lt).
  rewrite num_add_exact by lia.
  rewrite num_sub_exact by lia.
  f_equal. lia.
Qed.

Lemma setDate_days_back (zone : Zone) (now k : Z) :
  valid_time now -> bounded zone -> 0 <= k <= 7 ->
  setDate zone now (num_sub (Int (getDate zone now)) (Int k))
  = days_back zone now k.
Proof.
  intros Hnow Hz Hk.
  unfold setDate, getDate, days_back.
  pose proof (LocalTime_bound zone now Hnow Hz) as Hlt.
  set (lt := LocalTime zone now) in *. unfold msPerDay in Hlt.
  rewrite MakeDay_back by lia.
  assert (0 <= TimeWithinDay lt < msPerDay) as Htw.
  { unfold TimeWithinDay, msPerDay. Z.div_mod_to_equations. lia. }
  assert (lt = Day lt * msPerDay + TimeWithinDay lt) as Hsplit.
  { unfold Day, TimeWithinDay, msPerDay. Z.div_mod_to_equations. lia. }
  unfold MakeDate, msPerDay in *.
  rewrite num_mul_exact by lia.
  rewrite num_add_exact by lia.
  replace ((Day lt - k) * 86400000 + TimeWithinDay lt)
    with (lt - k * 86400000) by lia.
  apply of_local_exact; [done | lia].
Qed.

(** [setHours] with the hour of [now] less [h] hours. *)
Lemma setHours_hours_back (zone : Zone) (now h : Z) :
  valid_time now -> bounded zone -> 0 <= h <= 100000000 ->
  setHours zone now (num_sub (Int (getHours zone now)) (Int h))
  = hours_back zone now h.
Proof.
  intros Hnow Hz Hh.
  unfold setHours, getHours, hours_back.
  pose proof (LocalTime_bound zone now Hnow Hz) as Hlt.
  set (lt := LocalTime zone now) in *. unfold msPerDay in Hlt.
  assert (0 <= HourFromTime lt < 24 /\ 0 <= MinFromTime lt < 60
          /\ 0 <= SecFromTime lt < 60 /\ 0 <= msFromTime lt < 1000
          /\ lt = Day lt * 86400000 + HourFromTime lt * 3600000
                  + MinFromTime lt * 60000 + SecFromTime lt * 1000
                  + msFromTime lt) as (HH & HM & HS & Hms & Hsplit).
  { unfold HourFromTime, MinFromTime, SecFromTime, msFromTime, Day,
      msPerHour, msPerMinute, msPerSecond, msPerDay.
    Z.div_mod_to_equations. lia. }
  rewrite num_sub_exact by lia.
  unfold MakeTime, MakeDate, msPerHour, msPerMinute, msPerSecond, msPerDay.
  repeat first [rewrite num_mul_exact by lia | rewrite num_add_exact by lia].
  match goal with
  | |- TimeClip (UTC _ (Int ?x)) = _ =>
      replace x with (lt - h * 3600000) by lia
  end.
  apply of_local_exact; [done | lia].
Qed.

(** Rounding does not lift a number above a bound that a double
    holds. *)
Lemma round_upper (z B : Z) :
  z <= B -> - 2 ^ 53 < B < 2 ^ 53 -> at_most (round z) B.
Proof.
  intros Hz HB. destruct (Z.lt_ge_cases (- 2 ^ 53) z) as [Hs | Hl].
  - rewrite round_exact by lia. done.
  - unfold round.
    replace (z <? 0) with true by (symmetry; apply Z.ltb_lt; lia).
    pose proof (round_nonneg_large (- z) ltac:(lia)) as H.
    destruct (round_nonneg (- z)) as [m | s |]; simpl in *;
      [lia | by subst | done].
Qed.

Lemma num_add_upper (x : Num) (y B1 B2 : Z) :
  at_most x B1 -> y <= B2 -> - 2 ^ 53 < B1 + B2 < 2 ^ 53 ->
  at_most (num_add x (Int y)) (B1 + B2).
Proof.
  intros Hx Hy HB. destruct x as [a | s |]; simpl in *; [| done | done].
  apply round_upper; lia.
Qed.

Lemma num_mul_upper (x : Num) (c B : Z) :
  at_most x B -> 0 < c -> - 2 ^ 53 < B * c < 2 ^ 53 ->
  at_most (num_mul x (Int c)) (B * c).
Proof.
  intros Hx Hc HB. destruct x as [a | s |]; simpl in *.
  - apply round_upper; nia.
  - subst s. destruct (Z.eqb_spec c 0); [lia |].
    by replace (0 <? c) with true by (symmetry; apply Z.ltb_lt; lia).
  - done.
Qed.

(** [setHours] with the hour of [now] less a non-negative number never
    leads to a later instant than the zone's offsets allow. *)
Lemma setHours_upper (zone : Zone) (lo hi now t : Z) (hours : Num) :
  valid_time now -> offsets_within lo hi zone ->
  - msPerDay < lo -> hi < msPerDay ->
  at_most (num_neg hours) 0 ->
  setHours zone now (num_sub (Int (getHours zone now)) hours) = At t ->
  t <= now + (hi - lo).
Proof.
  intros Hnow Hoff Hlo Hhi Hh.
  assert (bounded zone) as Hz.
  { intros u. destruct (Hoff u). lia. }
  unfold setHours, getHours.
  pose proof (LocalTime_bound zone now Hnow Hz) as Hlt.
  assert (LocalTime zone now <= now + hi) as Hlt'.
  { unfold LocalTime. destruct (Hoff now). lia. }
  set (lt := LocalTime zone now) in *. unfold msPerDay in *.
  assert (0 <= HourFromTime lt < 24 /\ 0 <= MinFromTime lt < 60
          /\ 0 <= SecFromTime lt < 60 /\ 0 <= msFromTime lt < 1000
          /\ lt = Day lt * 86400000 + HourFromTime lt * 3600000
                  + MinFromTime lt * 60000 + SecFromTime lt * 1000
                  + msFromTime lt) as (HH & HM & HS & Hms & Hsplit).
  { unfold HourFromTime, MinFromTime, SecFromTime, msFromTime, Day,
      msPerHour, msPerMinute, msPerSecond, msPerDay.
    Z.div_mod_to_equations. lia. }
  assert (at_most (num_sub (Int (HourFromTime lt)) hours)
                  (HourFromTime lt)) as Hx.
  { unfold num_sub. rewrite num_add_comm.
    replace (HourFromTime lt) with (0 + HourFromTime lt) at 2 by lia.
    apply num_add_upper; [done | lia | lia]. }
  destruct (num_sub (Int (HourFromTime lt)) hours) as [a | s |];
    [| done | done].
  cbn [at_most] in Hx.
  unfold MakeTime, msPerHour, msPerMinute, msPerSecond.
  rewrite (num_mul_exact (MinFromTime lt)) by lia.
  rewrite (num_mul_exact (SecFromTime lt)) by lia.
  assert (at_most
            (num_add
               (num_add
                  (num_add (num_mul (Int a) (Int 3600000))
                     (Int (MinFromTime lt * 60000)))
                  (Int (SecFromTime lt * 1000)))
               (Int (msFromTime lt)))
            (HourFromTime lt * 3600000 + MinFromTime lt * 60000
             + SecFromTime lt * 1000 + msFromTime lt)) as Htime.
  { repeat (apply num_add_upper; [| lia | lia]).
    apply num_mul_upper; [done | lia | lia]. }
  destruct (num_add _ (Int (msFromTime lt))) as [tv | s |];
    [| done | done].
  cbn [at_most] in Htime.
  unfold MakeDate, msPerDay. rewrite num_mul_exact by lia.
  assert (at_most (num_add (Int (Day lt * 86400000)) (Int tv)) lt) as Hd.
  { rewrite Hsplit at 2.
    replace (Day lt * 86400000 + HourFromTime lt * 3600000
             + MinFromTime lt * 60000 + SecFromTime lt * 1000
             + msFromTime lt)
      with (Day lt * 86400000
            + (HourFromTime lt * 3600000 + MinFromTime lt * 60000
               + SecFromTime lt * 1000 + msFromTime lt)) by lia.
    apply (num_add_upper (Int _)); [simpl; lia | lia | lia]. }
  destruct (num_add (Int (Day lt * 86400000)) (Int tv)) as [d | s |];
    [| done | done].
  cbn [at_most] in Hd.
  unfold UTC, num_sub. cbn [num_neg].
  destruct (Hoff d) as [_ Ho].
  assert (at_most (num_add (Int d) (Int (- offset_of_local zone d)))
                  (lt + - lo)) as Hu.
  { apply (num_add_upper (Int d)); [done | lia | lia]. }
  destruct (num_add (Int d) _) as [u | s |]; [| done | done].
  cbn [at_most] in Hu. unfold TimeClip.
  destruct (_ <? _); [done |]. intros [= <-]. lia.
Qed.

(** Rounding to a double: ties go to the even significand, and the
    largest numbers become [Infinity]. *)
Example rounding_examples :
  round (2 ^ 53 + 1) = Int (2 ^ 53)
  /\ round (2 ^ 53 + 3) = Int (2 ^ 53 + 4)
  /\ round (10 ^ 23) = Int 99999999999999991611392
  /\ round (- (2 ^ 53 + 1)) = Int (- 2 ^ 53)
  /\ round (2 ^ 1024 - 2 ^ 970) = Infinity true.
Proof. repeat split; vm_compute; reflexivity. Qed.

(** The calendar on three instants: 14 November 2023, 22:13:20 UTC;
    noon of 29 February 2024; and the last millisecond of 1969. *)
Example calendar_examples :
  (YearFromTime 1700000000000, MonthFromTime 1700000000000,
   DateFromTime 1700000000000, HourFromTime 1700000000000)
  = (2023, 10, 14, 22)
  /\ (YearFromTime 1709208000000, MonthFromTime 1709208000000,
      DateFromTime 1709208000000, HourFromTime 1709208000000)
     = (2024, 1, 29, 12)
  /\ (YearFromTime (-1), MonthFromTime (-1), DateFromTime (-1),
      HourFromTime (-1), msFromTime (-1))
     = (1969, 11, 31, 23, 999).
Proof. repeat split; vm_compute; reflexivity. Qed.

(** The day before 1 March 2024 is 29 February. *)
Example setDate_across_months :
  setDate utc 1709294400000 (num_sub (Int (getDate utc 1709294400000)) (Int 1))
  = At 1709208000000.
Proof. vm_compute. reflexivity. Qed.

End clock_facts.

(** ** Freshness classifier *)

Section freshness_facts.
Import Js Phrase Freshness.

Lemma match_ago_unfold (unit s : string) :
  match_ago unit s =
  match ago_at unit s with
  | Some ds => Some ds
  | None =>
      match s with
      | EmptyString => None
      | String _ r => match_ago unit r
      end
  end.
Proof. by destruct s. Qed.

(** On a run of digits followed by [tail], the age pattern either
    matches at the very start, capturing the whole run, or matches
    nowhere in the run. *)
Lemma match_ago_skip_digits (unit ds tail : string) :
  all_chars is_digit ds = true ->
  is_empty ds = false ->
  no_leading_digit tail = true ->
  match_ago unit (ds +:+ tail)
  = if unit_ago unit tail then Some ds else match_ago unit tail.
Proof.
  intros Hds Hne Htail.
  assert (Hsp : forall ds', all_chars is_digit ds' = true ->
                            span is_digit (ds' +:+ tail) = (ds', tail)).
  { intros ds' H. apply span_all_app; [done |].
    destruct tail as [|c r]; [done |]. simpl in Htail.
    by destruct (is_digit c). }
  induction ds as [|d ds IH]; [done |].
  rewrite match_ago_unfold. unfold ago_at. rewrite (Hsp _ Hds).
  destruct (unit_ago unit tail) eqn:E; [done |].
  cbn [truthy is_empty negb andb String.append].
  simpl in Hds. apply andb_prop in Hds as [_ Hds].
  destruct ds as [|d' ds']; [done |].
  by rewrite (IH Hds eq_refl).
Qed.

(** The day rule on a phrase that opens with a number. *)
Lemma extractJobDate_days_phrase (zone : Clock.Zone) (now : Z)
      (ds tail : string) :
  all_chars is_digit ds = true ->
  is_empty ds = false ->
  no_leading_digit tail = true ->
  includes_ci "today" tail = false ->
  includes_ci "yesterday" tail = false ->
  unit_ago "hour" tail = false ->
  match_ago "hour" tail = None ->
  unit_ago "day" tail = true ->
  extractJobDate zone now (ds +:+ tail)
  = let days := round (digits_value 0 ds) in
    if num_lt (Int 4) days then None
    else Some (Clock.setDate zone now
                 (num_sub (Int (Clock.getDate zone now)) days)).
Proof.
  intros Hds Hne Htail Htoday Hyest Hhour1 Hhour2 Hday.
  unfold extractJobDate.
  rewrite (is_empty_app_l _ _ Hne).
  rewrite (includes_ci_skip_digits "t" "oday" ds tail eq_refl Hds), Htoday.
  rewrite (includes_ci_skip_digits "y" "esterday" ds tail eq_refl Hds), Hyest.
  rewrite !(match_ago_skip_digits _ ds tail Hds Hne Htail).
  rewrite Hhour1, Hhour2, Hday.
  by rewrite (parseInt_digits ds Hds Hne).
Qed.

(** The week rule on a phrase that opens with a number. *)
Lemma extractJobDate_weeks_phrase (zone : Clock.Zone) (now : Z)
      (ds tail : string) :
  all_chars is_digit ds = true ->
  is_empty ds = false ->
  no_leading_digit tail = true ->
  includes_ci "today" tail = false ->
  includes_ci "yesterday" tail = false ->
  unit_ago "hour" tail = false ->
  match_ago "hour" tail = None ->
  unit_ago "day" tail = false ->
  match_ago "day" tail = None ->
  unit_ago "week" tail = true ->
  extractJobDate zone now (ds +:+ tail)
  = let weeks := round (digits_value 0 ds) in
    if num_le (Int 1) weeks then None
    else Some (Clock.setDate zone now
                 (num_sub (Int (Clock.getDate zone now))
                          (num_mul weeks (Int 7)))).
Proof.
  intros Hds Hne Htail Htoday Hyest Hhour1 Hhour2 Hday1 Hday2 Hweek.
  unfold extractJobDate.
  rewrite (is_empty_app_l _ _ Hne).
  rewrite (includes_ci_skip_digits "t" "oday" ds tail eq_refl Hds), Htoday.
  rewrite (includes_ci_skip_digits "y" "esterday" ds tail eq_refl Hds), Hyest.
  rewrite !(match_ago_skip_digits _ ds tail Hds Hne Htail).
  rewrite Hhour1, Hhour2, Hday1, Hday2, Hweek.
  by rewrite (parseInt_digits ds Hds Hne).
Qed.

Lemma round_of_nat (n : nat) :
  round (digits_value 0 (of_nat n)) = round_nonneg (Z.of_nat n).
Proof.
  rewrite digits_value_of_nat. unfold round.
  by replace (Z.of_nat n <? 0) with false by (symmetry; apply Z.ltb_ge; lia).
Qed.

(** What the classifier computes on [N day(s) ago]. *)
Lemma extractJobDate_days_text (zone : Clock.Zone) (now : Z) (n : nat)
      (plural : bool) :
  extractJobDate zone now (days_ago_text n plural)
  = if (4 <? n)%nat then None
    else Some (Clock.setDate zone now
                 (num_sub (Int (Clock.getDate zone now))
                          (Int (Z.of_nat n)))).
Proof.
  assert (H : extractJobDate zone now (days_ago_text n plural)
              = let days := round (digits_value 0 (of_nat n)) in
                if num_lt (Int 4) days then None
                else Some (Clock.setDate zone now
                             (num_sub (Int (Clock.getDate zone now)) days))).
  { unfold days_ago_text. destruct plural;
      apply extractJobDate_days_phrase;
      auto using all_digits_of_nat, of_nat_nonempty. }
  rewrite H. cbv zeta. rewrite round_of_nat.
  rewrite round_nonneg_lt by lia.
  destruct (Nat.ltb_spec 4 n).
  - by replace (4 <? Z.of_nat n) with true by (symmetry; apply Z.ltb_lt; lia).
  - replace (4 <? Z.of_nat n) with false by (symmetry; apply Z.ltb_ge; lia).
    by rewrite round_nonneg_exact by lia.
Qed.

(** In a zone whose offset is the same at both ends, moving back on the
    local calendar is subtracting whole days. *)
Lemma days_back_same_offset (zone : Clock.Zone) (now k : Z) :
  Clock.offset_of_local zone (Clock.LocalTime zone now - k * Clock.msPerDay)
  = Clock.offset_at zone now ->
  Calendar.days_back zone now k = Calendar.clip (now - k * Clock.msPerDay).
Proof.
  intros H. unfold Calendar.days_back, Calendar.of_local. rewrite H.
  unfold Clock.LocalTime. f_equal. lia.
Qed.

Lemma includes_ci_unfold (p s : string) :
  includes_ci p s =
  match strip_prefix_ci p s with
  | Some _ => true
  | None =>
      match s with
      | EmptyString => false
      | String _ s' => includes_ci p s'
      end
  end.
Proof. by destruct s. Qed.

Lemma includes_ci_suffix (p a b : string) :
  includes_ci p (a +:+ b) = false -> includes_ci p b = false.
Proof.
  induction a as [|c a IH]; [done |].
  change (String c a +:+ b) with (String c (a +:+ b)).
  rewrite includes_ci_unfold.
  destruct (strip_prefix_ci p (String c (a +:+ b))); [done | exact IH].
Qed.

(** An age pattern starts with a digit, so it cannot match inside text
    that has none. *)
Lemma match_ago_skip_prefix (unit prefix s : string) :
  all_chars (fun c => negb (is_digit c)) prefix = true ->
  match_ago unit (prefix +:+ s) = match_ago unit s.
Proof.
  induction prefix as [|c prefix IH]; [done |].
  cbn [all_chars]. intros [Hc Hp]%andb_prop. apply negb_true_iff in Hc.
  change (String c prefix +:+ s) with (String c (prefix +:+ s)).
  rewrite match_ago_unfold. unfold ago_at. cbn [span]. rewrite Hc.
  cbn [truthy is_empty negb andb]. by apply IH.
Qed.

(** Text in front of a phrase does not change the result when it holds
    no digit and brings in neither [today] nor [yesterday]. *)
Lemma extractJobDate_skip_prefix (zone : Clock.Zone) (now : Z)
      (prefix text : string) :
  plain_prefix prefix text ->
  is_empty text = false ->
  extractJobDate zone now (prefix +:+ text) = extractJobDate zone now text.
Proof.
  intros (Hp & Ht & Hy) Hne. unfold extractJobDate.
  rewrite Hne, Ht, Hy.
  rewrite (includes_ci_suffix _ _ _ Ht), (includes_ci_suffix _ _ _ Hy).
  rewrite !(match_ago_skip_prefix _ _ _ Hp).
  replace (is_empty (prefix +:+ text)) with false
    by (destruct prefix; [done | reflexivity]).
  by destruct (month_ago (prefix +:+ text)), (month_ago text).
Qed.

Lemma days_ago_text_nonempty (n : nat) (plural : bool) :
  is_empty (days_ago_text n plural) = false.
Proof. unfold days_ago_text. apply is_empty_app_l, of_nat_nonempty. Qed.

(** C1 (amended): the text [N day(s) ago], alone or after words that
    hold no digit and do not bring in [today] or [yesterday] (as in
    [Posted 5 days ago]), is rejected exactly when [N] exceeds the fixed
    window of 4 days, whatever [dateRange] the caller asked for.
    Otherwise it is accepted, and the inferred date is [now] moved back
    [N] days on the local calendar: the instant at which the local clock
    shows the time of day it shows now, [N] days earlier.  Where the
    zone's offset is the same at both instants, that is [now] minus [N]
    times 24 hours. *)
Theorem extractJobDate_days_ago (zone : Clock.Zone) (now : Z) (n : nat)
        (plural : bool) (prefix : string) :
  prefix = "" \/ plain_prefix prefix (days_ago_text n plural) ->
  let text := prefix +:+ days_ago_text n plural in
  (extractJobDate zone now text = None <-> (4 < n)%nat)
  /\ ((n <= 4)%nat -> Calendar.valid_time now -> Calendar.bounded zone ->
      extractJobDate zone now text
      = Some (Calendar.days_back zone now (Z.of_nat n)))
  /\ (Clock.offset_of_local zone
        (Clock.LocalTime zone now - Z.of_nat n * Clock.msPerDay)
      = Clock.offset_at zone now ->
      Calendar.days_back zone now (Z.of_nat n)
      = Calendar.clip (now - Z.of_nat n * Clock.msPerDay)).
Proof.
  intros Hprefix. cbv zeta.
  assert (extractJobDate zone now (prefix +:+ days_ago_text n plural)
          = extractJobDate zone now (days_ago_text n plural)) as ->.
  { destruct Hprefix as [-> | Hp]; [done |].
    apply extractJobDate_skip_prefix; [done |].
    apply days_ago_text_nonempty. }
  rewrite extractJobDate_days_text.
  split; [| split].
  - destruct (Nat.ltb_spec 4 n); split; (done || lia).
  - intros Hn Hnow Hz.
    replace (4 <? n)%nat with false by (symmetry; apply Nat.ltb_ge; lia).
    by rewrite setDate_days_back by (done || lia).
  - apply days_back_same_offset.
Qed.

Lemma extractJobDate_days_ago_witness :
  extractJobDate Calendar.utc 1700000000000 "Posted 4 days ago"
  = Some (Clock.At (1700000000000 - 4 * Clock.msPerDay))
  /\ extractJobDate Calendar.utc 1700000000000 "Posted 5 days ago" = None.
Proof.
  pose proof (extractJobDate_days_ago Calendar.utc 1700000000000 4 true
                "Posted " (or_intror (conj eq_refl (conj eq_refl eq_refl))))
    as (_ & Hacc & Hday).
  pose proof (extractJobDate_days_ago Calendar.utc 1700000000000 5 true
                "Posted " (or_intror (conj eq_refl (conj eq_refl eq_refl))))
    as (Hrej & _ & _).
  split.
  - etransitivity.
    + apply Hacc; [lia | unfold Calendar.valid_time; lia |].
      intros t. unfold Clock.msPerDay. simpl. lia.
    + rewrite Hday by reflexivity. reflexivity.
  - apply Hrej. lia.
Defined.

(** The boundary of the spec: 4 days is accepted, 5 days is not. *)
Example four_days_accepted :
  extractJobDate Calendar.utc 1700000000000 "4 days ago"
  = Some (Clock.At (1700000000000 - 4 * Clock.msPerDay)).
Proof. vm_compute. reflexivity. Qed.

Example five_days_rejected :
  extractJobDate Calendar.utc 1700000000000 "5 days ago" = None.
Proof. vm_compute. reflexivity. Qed.

(** Across a change of the clock the calendar days are not 24 hours
    long: in a zone that is two hours ahead of UTC before
    1700000000000 - 2 days and one hour ahead from then on, the date
    inferred from [4 days ago] lies 4 days and one hour before [now]. *)
Example four_days_across_clock_change :
  extractJobDate Calendar.clock_change 1700000000000 "4 days ago"
  = Some (Clock.At (1700000000000 - 4 * Clock.msPerDay - Clock.msPerHour)).
Proof. vm_compute. reflexivity. Qed.

(** C1 as stated fails: with the default window [dateRange = 3] a
    posting that is 4 days old exceeds [maxAgeDays] and is accepted all
    the same. *)
Lemma days_window_ignores_dateRange :
  Pref.dateRange Pref.performEnhancedSearch_defaults < 4
  /\ extractJobDate Calendar.utc 1700000000000 "4 days ago"
     = Some (Clock.At (1700000000000 - 4 * Clock.msPerDay)).
Proof. split; [reflexivity | vm_compute; reflexivity]. Qed.

(** What the classifier computes on [N week(s) ago]. *)
Lemma extractJobDate_weeks_text (zone : Clock.Zone) (now : Z) (n : nat)
      (plural : bool) :
  extractJobDate zone now (weeks_ago_text n plural)
  = if (1 <=? n)%nat then None
    else Some (Clock.setDate zone now
                 (num_sub (Int (Clock.getDate zone now)) (Int 0))).
Proof.
  assert (H : extractJobDate zone now (weeks_ago_text n plural)
              = let weeks := round (digits_value 0 (of_nat n)) in
                if num_le (Int 1) weeks then None
                else Some (Clock.setDate zone now
                             (num_sub (Int (Clock.getDate zone now))
                                      (num_mul weeks (Int 7))))).
  { unfold weeks_ago_text. destruct plural;
      apply extractJobDate_weeks_phrase;
      auto using all_digits_of_nat, of_nat_nonempty. }
  rewrite H. cbv zeta. rewrite round_of_nat.
  rewrite round_nonneg_le by lia.
  destruct n as [|n]; [done |].
  by replace (1 <=? Z.of_nat (S n)) with true by (symmetry; apply Z.leb_le; lia).
Qed.

(** C2 (amended): the text [N week(s) ago] is rejected for every
    [N >= 1]; the accepting branch is reached for [N = 0] only, and then
    the inferred date is [now], read back through the local calendar
    ([setDate] with the day of the month it already has). *)
Theorem extractJobDate_weeks_ago (zone : Clock.Zone) (now : Z) (n : nat)
        (plural : bool) :
  (extractJobDate zone now (weeks_ago_text n plural) = None <-> (1 <= n)%nat)
  /\ (n = 0%nat -> Calendar.valid_time now -> Calendar.bounded zone ->
      extractJobDate zone now (weeks_ago_text n plural)
      = Some (Calendar.days_back zone now 0))
  /\ (Calendar.valid_time now ->
      Clock.offset_of_local zone (Clock.LocalTime zone now)
      = Clock.offset_at zone now ->
      Calendar.days_back zone now 0 = Clock.At now).
Proof.
  rewrite extractJobDate_weeks_text.
  split; [| split].
  - destruct n; simpl; split; (done || lia).
  - intros -> Hnow Hz. cbn [Nat.leb].
    by rewrite setDate_days_back by (done || lia).
  - intros Hnow Hoff. rewrite days_back_same_offset by (by rewrite Z.sub_0_r).
    rewrite Z.sub_0_r. unfold Calendar.clip, Calendar.valid_time in *.
    by replace (_ <? _) with false by (symmetry; apply Z.ltb_ge; lia).
Qed.

Lemma extractJobDate_weeks_ago_witness :
  extractJobDate Calendar.utc 1700000000000 "0 weeks ago"
  = Some (Clock.At 1700000000000)
  /\ extractJobDate Calendar.utc 1700000000000 "1 week ago" = None.
Proof.
  pose proof (extractJobDate_weeks_ago Calendar.utc 1700000000000 0 true)
    as (_ & Hacc & Hnow).
  pose proof (extractJobDate_weeks_ago Calendar.utc 1700000000000 1 false)
    as (Hrej & _ & _).
  split.
  - etransitivity.
    + apply Hacc; [done | unfold Calendar.valid_time; lia |].
      intros t. unfold Clock.msPerDay. simpl. lia.
    + rewrite Hnow by (reflexivity || (unfold Calendar.valid_time; lia)).
      reflexivity.
  - apply Hrej. lia.
Defined.

(** C2 as stated fails: [0 weeks ago] matches the week pattern and is
    accepted, with [now] as its date. *)
Lemma zero_weeks_accepted :
  match_ago "week" "0 weeks ago" = Some "0"
  /\ extractJobDate Calendar.utc 1700000000000 "0 weeks ago"
     = Some (Clock.At 1700000000000).
Proof. split; vm_compute; reflexivity. Qed.

End freshness_facts.

(** ** JSON repair *)

Section json_repair_facts.
Import Js JsonRepair Claims.

Lemma jsonMatch_clean_empty : jsonMatch (clean "") = None.
Proof. reflexivity. Qed.

(** [safeJsonParse] never throws. *)
Lemma safeJsonParse_returns (JSON_parse : string -> Exc Json) (text : string) :
  exists v, safeJsonParse JSON_parse text = Ret v.
Proof.
  unfold safeJsonParse, parse_body, parse_handler, try_catch.
  destruct (is_empty text); [by eexists |].
  destruct (jsonMatch (clean text)) as [jsonStr|].
  - destruct (JSON_parse (repair jsonStr)); simpl.
    + by eexists.
    + destruct (_ || _); by eexists.
  - destruct (includes "refinements" text); by eexists.
Qed.

(** A text without braces or brackets that mentions [refinements] gets
    the default object, whatever the parser. *)
Lemma safeJsonParse_refinements_word (JSON_parse : string -> Exc Json) :
  pipeline_fails JSON_parse "refinements"
  /\ safeJsonParse JSON_parse "refinements" = Ret (Some no_span_default).
Proof. split; [exact I | reflexivity]. Qed.

(** C4 as stated fails: on the reply [refinements] the pipeline locates
    no span, and the result is a substitute object instead of [null]. *)
Lemma safeJsonParse_substitutes_default :
  ~ (forall (JSON_parse : string -> Exc Json) (text : string),
        pipeline_fails JSON_parse text ->
        safeJsonParse JSON_parse text = Ret None).
Proof.
  intros H.
  destruct (safeJsonParse_refinements_word (fun _ => Throw)) as [Hf Hr].
  specialize (H _ _ Hf). rewrite Hr in H. discriminate H.
Qed.

(** C4 (amended): when the pipeline fails, [safeJsonParse] does not
    throw.  It returns [null] unless the raw text mentions
    [refinements] (or, when the failure is a parse error, [missingInfo]);
    in those cases it returns a fixed default refinement object. *)
Theorem safeJsonParse_on_failure
        (JSON_parse : string -> Exc Json) (text : string) :
  pipeline_fails JSON_parse text ->
  safeJsonParse JSON_parse text
  = Ret (match jsonMatch (clean text) with
         | None =>
             if includes "refinements" text then Some no_span_default
             else None
         | Some _ =>
             if includes "refinements" text || includes "missingInfo" text
             then Some parse_failed_default
             else None
         end).
Proof.
  unfold pipeline_fails, safeJsonParse, parse_body, parse_handler, try_catch.
  destruct text as [|c text]; [done |].
  cbn [is_empty].
  destruct (jsonMatch (clean (String c text))) as [jsonStr|].
  - intros ->. simpl. by destruct (_ || _).
  - intros _. by destruct (includes "refinements" _).
Qed.

Lemma safeJsonParse_on_failure_witness :
  safeJsonParse (fun _ => Throw) "{title: Engineer"
  = Ret None
  /\ safeJsonParse (fun _ => Throw) "{missingInfo: [}"
     = Ret (Some parse_failed_default).
Proof.
  split.
  - exact (safeJsonParse_on_failure (fun _ => Throw) "{title: Engineer" I).
  - exact (safeJsonParse_on_failure (fun _ => Throw) "{missingInfo: [}"
             eq_refl).
Defined.

End json_repair_facts.

(** ** Structuring engine *)

Section structuring_facts.
Import Js Structuring Claims.

Lemma or_default_falsy (x : option string) (d : string) :
  Ranking.opt_truthy x = false -> or_default x d = d.
Proof. destruct x as [s|]; simpl; [by intros -> | done]. Qed.

Lemma unparsed_fallback_defaults id now sd url :
  fallback_defaults sd (Built (unparsed_fallback id now sd url)).
Proof. simpl. auto. Qed.

Lemma caught_fallback_defaults id now sd url :
  fallback_defaults sd (Built (caught_fallback id now sd url)).
Proof. simpl. auto. Qed.

(** C3 (amended): [structureJobWithGemini] never throws.  It resolves
    to [null] when the scraped record is missing or has neither a title
    nor a description.  In every other case it resolves to an object:
    the fallback listing of the [catch] block when the provider call or
    the scoring of the provider's object throws; the fallback listing
    with the extracted lists when the reply yields no object; and
    otherwise the provider's object spread under a fresh id, the URL,
    the clock reading and the computed score and reasons.  Both
    fallback listings carry the defaults (salary [Competitive],
    employment type [Full-time], workplace type [Onsite]). *)
Theorem structureJobWithGemini_total
        (JSON_parse : string -> Exc Json)
        (untyped_scoring : Json -> Pref.SearchRefinements -> Exc (Z * list string))
        (reply : Exc string) (randomPart : string) (now : Z)
        (scrapedData : option Scraped.ScrapedJob) (url : string)
        (r : Pref.SearchRefinements) :
  let result :=
    structureJobWithGemini JSON_parse untyped_scoring reply randomPart now
                           scrapedData url r in
  let id := generateJobId randomPart now url in
  match scrapedData with
  | None => result = Ret None
  | Some sd =>
      if no_real_data scrapedData then result = Ret None
      else
        fallback_defaults sd (Built (caught_fallback id now sd url))
        /\ fallback_defaults sd (Built (unparsed_fallback id now sd url))
        /\ match reply with
           | Throw => result = Ret (Some (Built (caught_fallback id now sd url)))
           | Ret text =>
               match JsonRepair.safeJsonParse JSON_parse text with
               | Throw => False
               | Ret None =>
                   result = Ret (Some (Built (unparsed_fallback id now sd url)))
               | Ret (Some jobData) =>
                   if json_truthy jobData then
                     match score_provider_object untyped_scoring jobData r with
                     | Ret (score, reasons) =>
                         result
                         = Ret (Some (Spread id jobData url now score
                                        reasons []))
                     | Throw =>
                         result
                         = Ret (Some (Built (caught_fallback id now sd url)))
                     end
                   else
                     result
                     = Ret (Some (Built (unparsed_fallback id now sd url)))
               end
           end
  end.
Proof.
  cbv zeta. unfold structureJobWithGemini, structure_body, structure_handler,
    try_catch.
  destruct scrapedData as [sd|]; [| done].
  destruct (no_real_data (Some sd)); [done |].
  split; [apply caught_fallback_defaults |].
  split; [apply unparsed_fallback_defaults |].
  destruct reply as [text|]; [| done].
  simpl.
  destruct (safeJsonParse_returns JSON_parse text) as [v ->].
  simpl. destruct v as [jd|]; [| done].
  destruct (json_truthy jd); [| done].
  by destruct (score_provider_object untyped_scoring jd r)
    as [[score reasons]|].
Qed.

(** C3 as stated fails: the object returned on the provider path need
    not be a listing.  On the reply [refinements], [safeJsonParse]
    substitutes its default refinement object, which is truthy; scoring
    it against the default refinements runs to completion with the base
    score and no reason (no property that is read is dereferenced), and
    the engine returns that object spread: it has no title, no company
    and no description. *)
Lemma structured_refinements_object :
  let sd := {| Scraped.title := Some "Backend Engineer";
               Scraped.company := Some "Acme Co";
               Scraped.location := None;
               Scraped.description := Some long_description;
               Scraped.salary := None;
               Scraped.employmentType := None |} in
  exists fields,
    structureJobWithGemini
      (fun _ => Throw) (fun _ _ => Ret (70, []))
      (Ret "refinements") "k3x9qa" 1700 (Some sd)
      "https://careers.example.org/jobs/42"
      Pref.performEnhancedSearch_defaults
    = Ret (Some (Spread "job_42_k3x9qa_1700" (JObj fields)
                   "https://careers.example.org/jobs/42" 1700 70 [] []))
    /\ assoc "title" fields = None
    /\ assoc "company" fields = None
    /\ assoc "description" fields = None.
Proof. eexists. repeat split. Qed.

End structuring_facts.

(** ** De-duplication *)

Section dedup_facts.
Import Js Filter Claims.

Lemma dedup_step_seen_mono (st : DedupState) (job : EnhancedJobListing)
      (x : string) :
  x ∈ seenTitles st -> x ∈ seenTitles (dedup_step st job).
Proof.
  intros Hx. unfold dedup_step.
  destruct (insufficient_data job); [done |].
  destruct (too_short job); [done |].
  destruct (_ || _); [done |]. simpl. set_solver.
Qed.

Lemma fold_seen_mono (jobs : list EnhancedJobListing) (st : DedupState)
      (x : string) :
  x ∈ seenTitles st -> x ∈ seenTitles (fold_left dedup_step jobs st).
Proof.
  revert st. induction jobs as [|job jobs IH]; intros st Hx; [done |].
  simpl. apply IH. by apply dedup_step_seen_mono.
Qed.

(** A job whose primary signature is in the set leaves the state as it
    is. *)
Lemma dedup_step_skip (st : DedupState) (job : EnhancedJobListing) :
  titleCompany job ∈ seenTitles st -> dedup_step st job = st.
Proof.
  intros Hx. unfold dedup_step.
  destruct (insufficient_data job); [done |].
  destruct (too_short job); [done |].
  by rewrite (bool_decide_eq_true_2 _ Hx).
Qed.

(** A retained job records its primary signature. *)
Lemma dedup_step_records (st : DedupState) (job : EnhancedJobListing) :
  retained st job = true ->
  dedup_step st job
  = {| seenTitles := {[ titleCompany job ]} ∪ seenTitles st;
       uniqueJobs := map_set (id job) job (uniqueJobs st) |}.
Proof.
  unfold retained, has_data, dedup_step. intros H.
  repeat (apply andb_prop in H as [H ?]).
  destruct (insufficient_data job); [done |].
  destruct (too_short job); [done |].
  destruct (bool_decide (titleCompany job ∈ _)); [done |].
  by destruct (bool_decide (titleLocation job ∈ _)).
Qed.

Lemma fold_skip_later (st : DedupState)
      (mid post : list EnhancedJobListing) (job : EnhancedJobListing) :
  titleCompany job ∈ seenTitles st ->
  fold_left dedup_step (mid ++ job :: post) st
  = fold_left dedup_step (mid ++ post) st.
Proof.
  intros Hx. rewrite !fold_left_app. simpl.
  rewrite dedup_step_skip; [done |]. by apply fold_seen_mono.
Qed.


(** The secondary signature is looked up but never recorded: two
    listings with the same title and location and different companies
    are both kept. *)
Example same_title_and_location_both_kept :
  let a := sample_job "job_1" "Backend Engineer" "Acme Co" "Austin"
             long_description in
  let b := sample_job "job_2" "Backend Engineer" "Globex" "Austin"
             long_description in
  titleLocation a = titleLocation b
  /\ removeDuplicateJobs [a; b] = [a; b].
Proof. split; vm_compute; reflexivity. Qed.

End dedup_facts.

(** ** Quality filter *)

Section quality_facts.
Import Js Filter Claims.

Lemma truthy_true (s : string) : truthy s = true <-> s <> "".
Proof. destruct s; simpl; split; (done || congruence). Qed.

Lemma list_empty_false (l : option (list string)) :
  list_empty l = false <-> non_empty l.
Proof.
  unfold non_empty. destruct l as [[|x rest]|]; simpl; split;
    try done; try (intros (? & ? & ?); done).
  intros _. by exists x, rest.
Qed.

Lemma quality_callback_spec (job : EnhancedJobListing) :
  quality_callback job = true <-> quality job.
Proof.
  unfold quality_callback, quality.
  rewrite <- !truthy_true, <- !list_empty_false.
  destruct (truthy (title job)), (truthy (company job)),
    (truthy (description job)); simpl; try (split; [done | intuition congruence]).
  destruct (Nat.ltb_spec (String.length (title job)) 5); simpl;
    [split; [done | intros; lia] |].
  destruct (String.eqb_spec (title job) "Job Opening"); simpl;
    [split; [done | intuition congruence] |].
  destruct (String.eqb_spec (company job) "Company"); simpl;
    [split; [done | intuition congruence] |].
  destruct (Nat.ltb_spec (String.length (company job)) 2); simpl;
    [split; [done | intros; lia] |].
  destruct (Nat.ltb_spec (String.length (description job)) 100); simpl;
    [split; [done | intros; lia] |].
  destruct (includes "Please visit the job page" (description job)); simpl;
    [split; [done | intuition congruence] |].
  destruct (list_empty (requirements job)),
    (list_empty (responsibilities job)); simpl;
    split; try done; intuition congruence.
Qed.

(** C7: [filterQualityJobs] retains a job exactly when its title is
    present, at least 5 characters long and not [Job Opening]; its
    company is present, at least 2 characters long and not [Company];
    its description is present, at least 100 characters long and free
    of the marker [Please visit the job page]; and its requirements or
    its responsibilities are non-empty. *)
Theorem filterQualityJobs_spec (jobs : list EnhancedJobListing)
        (job : EnhancedJobListing) :
  In job (filterQualityJobs jobs) <-> In job jobs /\ quality job.
Proof.
  unfold filterQualityJobs. rewrite filter_In.
  by rewrite quality_callback_spec.
Qed.

End quality_facts.

(** ** Ranking *)

Section ranking_facts.
Import Js Ranking Claims.

Lemma toLowerCase_app (a b : string) :
  toLowerCase (a +:+ b) = toLowerCase a +:+ toLowerCase b.
Proof. induction a as [|c a IH]; simpl; congruence. Qed.

Lemma strip_prefix_app (p s e r : string) :
  strip_prefix p s = Some r -> strip_prefix p (s +:+ e) = Some (r +:+ e).
Proof.
  revert s. induction p as [|a p IH]; intros s; simpl.
  - by intros [= ->].
  - destruct s as [|b s]; [done |]. simpl.
    destruct (Ascii.eqb a b); [apply IH | done].
Qed.

Lemma includes_unfold (p s : string) :
  includes p s =
  match strip_prefix p s with
  | Some _ => true
  | None =>
      match s with
      | EmptyString => false
      | String _ s' => includes p s'
      end
  end.
Proof. by destruct s. Qed.

(** Text appended to the subject keeps every occurrence. *)
Lemma includes_app_r (p s e : string) :
  includes p s = true -> includes p (s +:+ e) = true.
Proof.
  induction s as [|c s IH]; rewrite (includes_unfold p), (includes_unfold p (_ +:+ _)).
  - destruct (strip_prefix p "") as [r|] eqn:E; [| done].
    by rewrite (strip_prefix_app _ _ e _ E).
  - destruct (strip_prefix p (String c s)) as [r|] eqn:E.
    + by rewrite (strip_prefix_app _ _ e _ E).
    + intros H. simpl. destruct (strip_prefix p (String c (s +:+ e))); [done |].
      by apply IH.
Qed.



(** The [forEach] loop adds 2 for every matching skill. *)
Lemma skill_loop (f : string -> bool) (skills : list string) (score : Z) :
  fold_left (fun score skill => if f skill then score + 2 else score)
            skills score
  = score + 2 * Z.of_nat (List.length (List.filter f skills)).
Proof.
  revert score. induction skills as [|s skills IH]; intros score; simpl.
  - lia.
  - rewrite IH. destruct (f s); simpl List.length; lia.
Qed.


Lemma calculateMatchScore_closed (job : JobListing)
      (r : Pref.SearchRefinements) :
  calculateMatchScore job r
  = Z.min (70 + bonus (location_match job r) 10
              + bonus (remote_match job r) 10
              + bonus (salary_match job r) 5
              + 2 * Z.of_nat (matched_skills job r)) 95.
Proof.
  unfold calculateMatchScore, matched_skills, bonus. rewrite skill_loop.
  destruct (location_match job r), (remote_match job r),
    (salary_match job r); f_equal; lia.
Qed.






(** The salary text is read as a double: sixteen digits that denote an
    odd number beyond 53 bits are rounded to the even neighbour, which
    here reaches the minimum asked for. *)
Example salary_read_as_double :
  let job := with_salary "9007199254740995"
               (sample_job "job_1" "Backend Engineer" "Acme Co" "Austin"
                  long_description) in
  let r := wants_salary 9007199254740996 in
  parseInt "9007199254740995" = Int 9007199254740996
  /\ salary_match job r = true
  /\ calculateMatchScore job r = 75.
Proof. repeat split. Qed.

(** A skill that the text lacks and the appended text supplies raises
    the uncapped score by 2. *)
Example python_added_raises_score :
  let job := sample_job "job_1" "Backend Engineer" "Acme Co" "Austin"
               "We build services." in
  let r := {| Pref.jobTitles := []; Pref.synonyms := [];
              Pref.location := Pref.location (wants_salary 0);
              Pref.seniority := "mid";
              Pref.mustHaveSkills := ["Python"];
              Pref.niceToHaveSkills := [];
              Pref.salary := Pref.salary (wants_salary 0);
              Pref.contractType := "full-time";
              Pref.eligibility := Pref.eligibility (wants_salary 0);
              Pref.dateRange := 4;
              Pref.exclusions := Pref.exclusions (wants_salary 0);
              Pref.targetCompanies := None |} in
  calculateMatchScore job r = 70
  /\ calculateMatchScore (extend_description job " Python required.") r = 72.
Proof. split; reflexivity. Qed.

Lemma generateMatchReasons_notes (job : JobListing)
      (r : Pref.SearchRefinements) :
  generateMatchReasons job r = take 3 (reason_notes job r).
Proof.
  unfold generateMatchReasons, reason_notes, matched_skills, slice0.
  by destruct (location_match job r), (remote_match job r),
    (opt_truthy (salary job)), (0 <? _)%nat.
Qed.

(** C9 as stated fails: a listing whose salary text is [Competitive]
    earns no salary bonus against a minimum of 100000, and the salary
    note is listed all the same. *)
Lemma salary_note_without_bonus :
  let job := with_salary "Competitive"
               (sample_job "job_1" "Backend Engineer" "Acme Co" "Austin"
                  long_description) in
  let r := wants_salary 100000 in
  salary_match job r = false
  /\ calculateMatchScore job r = 70
  /\ generateMatchReasons job r = ["Competitive salary"].
Proof. repeat split. Qed.

(** C9 (amended): [generateMatchReasons] returns the first three of the
    notes for location match, remote opportunity, salary and skill
    count, in that order.  The location and remote notes are listed
    exactly when their bonus fired, the skill-count note only when some
    skill matched, and the salary note exactly when the listing has a
    non-empty salary text, whether or not the salary bonus fired. *)
Theorem generateMatchReasons_spec (job : JobListing)
        (r : Pref.SearchRefinements) :
  let reasons := generateMatchReasons job r in
  reasons = take 3 (reason_notes job r)
  /\ (List.length reasons <= 3)%nat
  /\ (In "Location match" reasons <-> location_match job r = true)
  /\ (In "Remote opportunity" reasons <-> remote_match job r = true)
  /\ (In "Competitive salary" reasons <-> opt_truthy (salary job) = true)
  /\ (In ("Matches " +:+ of_nat (matched_skills job r) +:+ " key skills")
         reasons
      -> (0 < matched_skills job r)%nat).
Proof.
  cbv zeta. rewrite generateMatchReasons_notes. unfold reason_notes.
  destruct (location_match job r), (remote_match job r),
    (opt_truthy (salary job)),
    (Nat.ltb_spec 0 (matched_skills job r));
    simpl; repeat split; try lia; try done;
    intuition (try discriminate; try lia).
Qed.

End ranking_facts.

(** ** Final ordering *)

Section ordering_facts.
Import Search Claims.

Lemma compare_jobs_le (a b : EnhancedJobListing) :
  compare_jobs a b <= 0 <-> newer_then_better a b.
Proof.
  unfold compare_jobs, newer_then_better.
  destruct (Z.eqb_spec (postedDate b) (postedDate a)); simpl; lia.
Qed.

Lemma newer_then_better_total (a b : EnhancedJobListing) :
  newer_then_better a b \/ newer_then_better b a.
Proof. unfold newer_then_better. lia. Qed.

Lemma newer_then_better_trans (a b c : EnhancedJobListing) :
  newer_then_better a b -> newer_then_better b c -> newer_then_better a c.
Proof. unfold newer_then_better. lia. Qed.

Lemma insert_sorted_perm (x : EnhancedJobListing)
      (l : list EnhancedJobListing) :
  Permutation (insert_sorted compare_jobs x l) (x :: l).
Proof.
  induction l as [|y l IH]; simpl; [done |].
  destruct (compare_jobs x y <=? 0); [done |].
  rewrite IH. apply perm_swap.
Qed.

Lemma insert_sorted_sorted (x : EnhancedJobListing)
      (l : list EnhancedJobListing) :
  StronglySorted newer_then_better l ->
  StronglySorted newer_then_better (insert_sorted compare_jobs x l).
Proof.
  induction 1 as [|y l Hsorted IH Hy]; simpl.
  - repeat constructor.
  - destruct (Z.leb_spec (compare_jobs x y) 0) as [Hle|Hgt].
    + apply compare_jobs_le in Hle.
      constructor; [by constructor |]. constructor; [done |].
      eapply Forall_impl; [exact Hy |].
      intros z Hz. by eapply newer_then_better_trans.
    + constructor; [done |].
      rewrite insert_sorted_perm. constructor; [| done].
      destruct (newer_then_better_total x y) as [Hxy|Hyx]; [| done].
      apply compare_jobs_le in Hxy. lia.
Qed.

Lemma sort_sorted (l : list EnhancedJobListing) :
  StronglySorted newer_then_better (sort compare_jobs l).
Proof.
  induction l as [|x l IH]; simpl; [constructor |].
  by apply insert_sorted_sorted.
Qed.

Lemma sort_perm (l : list EnhancedJobListing) :
  Permutation (sort compare_jobs l) l.
Proof.
  induction l as [|x l IH]; simpl; [done |].
  by rewrite insert_sorted_perm, IH.
Qed.

Lemma StronglySorted_take {A : Type} (R : A -> A -> Prop) (n : nat)
      (l : list A) :
  StronglySorted R l -> StronglySorted R (take n l).
Proof.
  intros H. revert n. induction H as [|x l Hsorted IH Hx]; intros [|n];
    simpl; try constructor; [apply IH |].
  by apply Forall_take.
Qed.

(** C8: the list returned by [searchWithRefinements] is ordered by
    posting date, newest first, and among equal dates by match score,
    highest first; it is the first 20 entries of a sorted rearrangement
    of the fresh, de-duplicated, quality-filtered jobs, and nothing
    reorders it after the sort. *)
Theorem searchWithRefinements_sorted (now : Z)
        (collected : Exc (list EnhancedJobListing)) :
  let result := searchWithRefinements now collected in
  StronglySorted newer_then_better result
  /\ match collected with
     | Throw => result = []
     | Ret allJobs =>
         exists sorted,
           Permutation sorted
             (Filter.filterQualityJobs
                (Filter.removeDuplicateJobs
                   (List.filter (fresh now) allJobs)))
           /\ StronglySorted newer_then_better sorted
           /\ result = take 20 sorted
     end.
Proof.
  cbv zeta. destruct collected as [allJobs|]; simpl.
  - unfold finish. split.
    + apply StronglySorted_take, sort_sorted.
    + eexists. split; [apply sort_perm |]. split; [apply sort_sorted | done].
  - split; [constructor | done].
Qed.

(** Two jobs of the same date are ordered by score, and a newer job
    goes first whatever its score. *)
Example final_order_example :
  let job (i : string) (date score : Z) : EnhancedJobListing :=
    {| listing := {| id := i; title := "Backend Engineer";
                     company := "Company " +:+ i; location := "Austin";
                     description := long_description;
                     salary := None; currency := None;
                     employmentType := None; workplaceType := None;
                     requirements := Some ["Python"];
                     responsibilities := None;
                     postedDate := date; sourceUrl := i |};
       matchScore := score; matchReasons := []; missingSkills := [] |} in
  List.map (fun j : EnhancedJobListing => id j)
           (searchWithRefinements 1000
              (Ret [job "a" 500 95; job "b" 900 70; job "c" 900 82]))
  = ["c"; "b"; "a"].
Proof. vm_compute. reflexivity. Qed.

End ordering_facts.

(** ** Page fetcher *)

Section fetcher_facts.
Import Js Fetcher Claims.

Lemma apply_jsonld_posting (JSON_parse : string -> Exc Json) (page : Page)
      (job : JobData) (html : string) (data : Json) :
  jsonld_html page = Some html ->
  truthy html = true ->
  JSON_parse html = Ret data ->
  is_job_posting data = true ->
  apply_jsonld JSON_parse page job = merge_jsonld job data.
Proof.
  intros Hhtml Htruthy Hparse Hposting. unfold apply_jsonld.
  rewrite Hhtml, Htruthy, Hparse, Hposting.
  by destruct data.
Qed.

(** C10 as stated fails: the page's [h1] text and the JSON-LD title both
    exist, and the returned record holds the [h1] text. *)
Lemma page_text_beats_jsonld :
  let page := page_with_heading "Senior Engineer at Acme - Apply" in
  let data := posting_titled "Senior Engineer" in
  exists job,
    extractJobData (fun _ => Ret data) (fun _ _ => list_of [])
                   page "https://careers.example.org/42"
    = single job
    /\ prop "title" data = Some (JStr "Senior Engineer")
    /\ title job = Some (JStr "Senior Engineer at Acme - Apply").
Proof. eexists. repeat split. Qed.

(** C10 (amended): on an unrecognised domain with [JobPosting] JSON-LD,
    each of title, company, location, salary and description of the
    record keeps the text found by the heuristic selectors when that
    text is non-empty, and takes the JSON-LD value only when it is
    empty. *)
Theorem extractJobData_page_text_first
        (JSON_parse : string -> Exc Json)
        (site_scraper : Page -> string -> ScrapeResponse)
        (page : Page) (url html : string) (data : Json) :
  recognised url = false ->
  jsonld_html page = Some html ->
  truthy html = true ->
  JSON_parse html = Ret data ->
  is_job_posting data = true ->
  let found := heuristic_job page url in
  exists job,
    (extractJobData JSON_parse site_scraper page url = single job
     \/ extractJobData JSON_parse site_scraper page url
        = list_of (jobLinks page))
    /\ title job
       = (if value_truthy (title found) then title found
          else prop "title" data)
    /\ company job
       = (if value_truthy (company found) then company found
          else opt_prop "name" (prop "hiringOrganization" data))
    /\ location job
       = (if value_truthy (location found) then location found
          else opt_prop "addressLocality"
                 (opt_prop "address" (prop "jobLocation" data)))
    /\ salary job
       = (if value_truthy (salary found) then salary found
          else opt_prop "value" (opt_prop "value" (prop "baseSalary" data)))
    /\ description job
       = (if value_truthy (description found) then description found
          else prop "description" data).
Proof.
  intros Hurl Hhtml Htruthy Hparse Hposting found.
  exists (merge_jsonld found data). split.
  - unfold extractJobData. rewrite Hurl.
    rewrite (apply_jsonld_posting _ _ _ _ _ Hhtml Htruthy Hparse Hposting).
    fold found. destruct (_ && _); auto.
  - done.
Qed.

Lemma extractJobData_page_text_first_witness :
  let page := page_with_heading "Senior Engineer at Acme - Apply" in
  let data := posting_titled "Senior Engineer" in
  exists job,
    (extractJobData (fun _ => Ret data) (fun _ _ => list_of [])
                    page "https://careers.example.org/42" = single job
     \/ extractJobData (fun _ => Ret data) (fun _ _ => list_of [])
                       page "https://careers.example.org/42"
        = list_of (jobLinks page))
    /\ title job = Some (JStr "Senior Engineer at Acme - Apply")
    /\ company job = None.
Proof.
  intros page data.
  destruct (extractJobData_page_text_first
              (fun _ => Ret data) (fun _ _ => list_of [])
              page "https://careers.example.org/42" "{...}" data
              eq_refl eq_refl eq_refl eq_refl eq_refl)
    as (job & Hres & Htitle & Hcompany & _).
  exists job. split; [exact Hres |]. split; [exact Htitle | exact Hcompany].
Defined.

End fetcher_facts.

(** ** More on the freshness classifier *)

Section freshness_more.
Import Js Phrase Phrase2 Freshness.

Lemma digits_value_nonneg (s : string) (acc : Z) :
  0 <= acc -> 0 <= digits_value acc s.
Proof.
  revert acc. induction s as [|c s IH]; intros acc Hacc; simpl; [done |].
  apply IH. unfold digit_value. lia.
Qed.

Lemma span_all (f : ascii -> bool) (s a b : string) :
  span f s = (a, b) -> all_chars f a = true.
Proof.
  revert a b. induction s as [|c s IH]; intros a b; simpl.
  - by intros [= <- <-].
  - destruct (f c) eqn:Ec.
    + destruct (span f s) as [a' b'] eqn:E. intros [= <- <-].
      simpl. by rewrite Ec, (IH a' b').
    + by intros [= <- <-].
Qed.

(** A capture of an age pattern is a non-empty run of digits. *)
Lemma match_ago_capture (unit s ds : string) :
  match_ago unit s = Some ds ->
  all_chars is_digit ds = true /\ is_empty ds = false.
Proof.
  induction s as [|c s IH]; rewrite match_ago_unfold; unfold ago_at.
  - simpl. done.
  - destruct (span is_digit (String c s)) as [a b] eqn:E.
    destruct (truthy a && unit_ago unit b) eqn:Et.
    + intros [= <-]. apply andb_prop in Et as [Ht _].
      split; [by eapply span_all |].
      unfold truthy in Ht. by apply negb_true_iff in Ht.
    + exact IH.
Qed.

Lemma parseInt_capture (unit s ds : string) :
  match_ago unit s = Some ds ->
  exists v, 0 <= v /\ parseInt ds = round_nonneg v.
Proof.
  intros [Hds Hne]%match_ago_capture.
  exists (digits_value 0 ds).
  pose proof (digits_value_nonneg ds 0 ltac:(lia)) as Hv.
  split; [done |]. rewrite parseInt_digits by done. unfold round.
  by replace (_ <? 0) with false by (symmetry; apply Z.ltb_ge; lia).
Qed.

Lemma round_nonneg_sign (v : Z) :
  0 <= v -> Calendar.at_most (num_neg (round_nonneg v)) 0.
Proof.
  intros Hv. destruct (Z.lt_ge_cases v (2 ^ 53)) as [Hs | Hl].
  - rewrite round_nonneg_exact by lia. simpl. lia.
  - pose proof (round_nonneg_large v Hl) as H.
    destruct (round_nonneg v) as [m | s |]; simpl in *;
      [lia | by subst | done].
Qed.

(** The dates that the classifier can return. *)
Lemma extractJobDate_values (zone : Clock.Zone) (now : Z) (text : string)
      (d : Clock.Date) :
  Calendar.valid_time now -> Calendar.bounded zone ->
  extractJobDate zone now text = Some d ->
  d = Clock.At now
  \/ (exists k, 0 <= k <= 4 /\ d = Calendar.days_back zone now k)
  \/ (exists hours,
         is_Some (match_ago "hour" text)
         /\ Calendar.at_most (num_neg hours) 0
         /\ d = Clock.setHours zone now
                  (num_sub (Int (Clock.getHours zone now)) hours)).
Proof.
  intros Hnow Hz. unfold extractJobDate.
  destruct (is_empty text); [done |].
  destruct (includes_ci "today" text); [intros [= <-]; by left |].
  destruct (includes_ci "yesterday" text).
  { intros [= <-]. right; left. exists 1. split; [lia |].
    by apply setDate_days_back; [| | lia]. }
  destruct (match_ago "hour" text) as [h|] eqn:Eh.
  { destruct (parseInt_capture _ _ _ Eh) as (v & Hv & ->).
    intros [= <-]. right; right. eexists. split; [by eexists |].
    split; [| reflexivity]. by apply round_nonneg_sign. }
  destruct (match_ago "day" text) as [dd|] eqn:Ed.
  { destruct (parseInt_capture _ _ _ Ed) as (v & Hv & ->).
    rewrite round_nonneg_lt by lia.
    destruct (Z.ltb_spec 4 v); [done |].
    rewrite round_nonneg_exact by lia.
    intros [= <-]. right; left. exists v. split; [lia |].
    by apply setDate_days_back; [| | lia]. }
  destruct (match_ago "week" text) as [w|] eqn:Ew.
  { destruct (parseInt_capture _ _ _ Ew) as (v & Hv & ->).
    rewrite round_nonneg_le by lia.
    destruct (Z.leb_spec 1 v); [done |].
    assert (v = 0) as -> by lia.
    intros [= <-]. right; left. exists 0. split; [lia |].
    by apply setDate_days_back; [| | lia]. }
  by destruct (month_ago text).
Qed.

Lemma extractJobDate_range (zone : Clock.Zone) (lo hi now t : Z)
      (text : string) :
  Calendar.valid_time now ->
  Calendar.offsets_within lo hi zone ->
  - Clock.msPerDay < lo -> hi < Clock.msPerDay ->
  extractJobDate zone now text = Some (Clock.At t) ->
  t <= now + (hi - lo)
  /\ (match_ago "hour" text = None ->
      now - 4 * Clock.msPerDay - (hi - lo) <= t).
Proof.
  intros Hnow Hoff Hlo Hhi Hd.
  assert (Calendar.bounded zone) as Hz.
  { intros u. destruct (Hoff u). lia. }
  destruct (Hoff now) as [Ha _].
  destruct (extractJobDate_values zone now text _ Hnow Hz Hd)
    as [[= ->] | [(k & Hk & Hback) | (hours & Hsome & Hh & Hset)]].
  - lia.
  - unfold Calendar.days_back, Calendar.of_local, Calendar.clip,
      Clock.LocalTime in Hback.
    destruct (_ <? _); [done |]. injection Hback as ->.
    match goal with
    | |- context [Clock.offset_of_local zone ?u] =>
        destruct (Hoff u) as [_ Hb]
    end.
    unfold Clock.msPerDay in *. lia.
  - split.
    + by eapply setHours_upper.
    + intros Hnone. rewrite Hnone in Hsome. by destruct Hsome.
Qed.

(** X1: in a zone whose offsets all lie between [lo] and [hi], a valid
    date inferred by [extractJobDate] is at most [hi - lo] later than
    [now], and unless it comes from an hour count it is at most 4 days
    and [hi - lo] older; in a zone without clock changes it is not in
    the future and, hour counts apart, lies in the 4 days before
    [now]. *)
Theorem extractJobDate_bounds (zone : Clock.Zone) (lo hi now t : Z)
        (text : string) :
  Calendar.valid_time now ->
  Calendar.offsets_within lo hi zone ->
  - Clock.msPerDay < lo -> hi < Clock.msPerDay ->
  extractJobDate zone now text = Some (Clock.At t) ->
  t <= now + (hi - lo)
  /\ (match_ago "hour" text = None ->
      now - 4 * Clock.msPerDay - (hi - lo) <= t).
Proof. apply extractJobDate_range. Qed.

Lemma extractJobDate_bounds_witness :
  1700000000000 - 3 * Clock.msPerDay <= 1700000000000 + (0 - 0)
  /\ (match_ago "hour" "Posted 3 days ago" = None ->
      1700000000000 - 4 * Clock.msPerDay - (0 - 0)
      <= 1700000000000 - 3 * Clock.msPerDay).
Proof.
  apply (extractJobDate_bounds Calendar.utc 0 0 1700000000000
           (1700000000000 - 3 * Clock.msPerDay) "Posted 3 days ago").
  - unfold Calendar.valid_time. lia.
  - intros u. simpl. lia.
  - reflexivity.
  - reflexivity.
  - vm_compute. reflexivity.
Defined.

Lemma extractJobDate_months_phrase (zone : Clock.Zone) (now : Z)
      (ds tail : string) :
  all_chars is_digit ds = true ->
  is_empty ds = false ->
  no_leading_digit tail = true ->
  includes_ci "today" tail = false ->
  includes_ci "yesterday" tail = false ->
  unit_ago "hour" tail = false ->
  match_ago "hour" tail = None ->
  unit_ago "day" tail = false ->
  match_ago "day" tail = None ->
  unit_ago "week" tail = false ->
  match_ago "week" tail = None ->
  extractJobDate zone now (ds +:+ tail) = None.
Proof.
  intros Hds Hne Htail Htoday Hyest Hh1 Hh2 Hd1 Hd2 Hw1 Hw2.
  unfold extractJobDate.
  rewrite (is_empty_app_l _ _ Hne).
  rewrite (includes_ci_skip_digits "t" "oday" ds tail eq_refl Hds), Htoday.
  rewrite (includes_ci_skip_digits "y" "esterday" ds tail eq_refl Hds), Hyest.
  rewrite !(match_ago_skip_digits _ ds tail Hds Hne Htail).
  rewrite Hh1, Hh2, Hd1, Hd2, Hw1, Hw2.
  by destruct (month_ago _).
Qed.

(** X2: every month count is rejected. *)
Theorem extractJobDate_months_ago (zone : Clock.Zone) (now : Z) (n : nat)
        (plural : bool) :
  extractJobDate zone now (months_ago_text n plural) = None.
Proof.
  unfold months_ago_text.
  destruct plural;
    apply extractJobDate_months_phrase;
    auto using all_digits_of_nat, of_nat_nonempty.
Qed.

Lemma extractJobDate_hours_phrase (zone : Clock.Zone) (now : Z)
      (ds tail : string) :
  all_chars is_digit ds = true ->
  is_empty ds = false ->
  no_leading_digit tail = true ->
  includes_ci "today" tail = false ->
  includes_ci "yesterday" tail = false ->
  unit_ago "hour" tail = true ->
  extractJobDate zone now (ds +:+ tail)
  = Some (Clock.setHours zone now
            (num_sub (Int (Clock.getHours zone now))
                     (round (digits_value 0 ds)))).
Proof.
  intros Hds Hne Htail Htoday Hyest Hhour.
  unfold extractJobDate.
  rewrite (is_empty_app_l _ _ Hne).
  rewrite (includes_ci_skip_digits "t" "oday" ds tail eq_refl Hds), Htoday.
  rewrite (includes_ci_skip_digits "y" "esterday" ds tail eq_refl Hds), Hyest.
  rewrite !(match_ago_skip_digits _ ds tail Hds Hne Htail), Hhour.
  by rewrite (parseInt_digits ds Hds Hne).
Qed.

Lemma extractJobDate_hours_text (zone : Clock.Zone) (now : Z) (n : nat)
      (plural : bool) :
  extractJobDate zone now (hours_ago_text n plural)
  = Some (Clock.setHours zone now
            (num_sub (Int (Clock.getHours zone now))
                     (round_nonneg (Z.of_nat n)))).
Proof.
  rewrite <- round_of_nat. unfold hours_ago_text.
  destruct plural;
    apply extractJobDate_hours_phrase;
    auto using all_digits_of_nat, of_nat_nonempty.
Qed.

(** X3: an hour count is never rejected.  Up to 100 million hours the
    inferred date is [now] moved back that many hours on the local
    clock, or the Invalid Date when that instant lies outside the range
    of dates. *)
Theorem extractJobDate_hours_ago (zone : Clock.Zone) (now : Z) (n : nat)
        (plural : bool) :
  (exists d, extractJobDate zone now (hours_ago_text n plural) = Some d)
  /\ (Z.of_nat n <= 100000000 ->
      Calendar.valid_time now -> Calendar.bounded zone ->
      extractJobDate zone now (hours_ago_text n plural)
      = Some (Calendar.hours_back zone now (Z.of_nat n))).
Proof.
  rewrite extractJobDate_hours_text. split; [by eexists |].
  intros Hn Hnow Hz. rewrite round_nonneg_exact by lia.
  by rewrite setHours_hours_back by (done || lia).
Qed.

Lemma extractJobDate_hours_ago_witness :
  extractJobDate Calendar.utc 1700000000000 "5 hours ago"
  = Some (Clock.At (1700000000000 - 5 * Clock.msPerHour)).
Proof.
  pose proof (extractJobDate_hours_ago Calendar.utc 1700000000000 5 true)
    as [_ H].
  transitivity
    (Some (Calendar.hours_back Calendar.utc 1700000000000 (Z.of_nat 5)));
    [| reflexivity].
  apply H; [lia | unfold Calendar.valid_time; lia |].
  intros t. unfold Clock.msPerDay. simpl. lia.
Defined.

(** An hour count that leads out of the range of dates gives the
    Invalid Date, which is not [null]. *)
Example huge_hour_count_is_invalid :
  extractJobDate Calendar.utc 1700000000000 "10000000000 hours ago"
  = Some Clock.InvalidDate.
Proof. vm_compute. reflexivity. Qed.

Lemma match_ago_no_digit (unit s : string) :
  all_chars not_digit s = true -> match_ago unit s = None.
Proof.
  induction s as [|c s IH]; [done |].
  simpl. intros H. apply andb_prop in H as [Hc Hs].
  unfold not_digit in Hc. apply negb_true_iff in Hc.
  unfold ago_at. simpl. rewrite Hc. simpl. by apply IH.
Qed.

(** X4: a text without a digit that mentions neither [today] nor
    [yesterday] carries no date: the result is [null]. *)
Theorem extractJobDate_no_digit (zone : Clock.Zone) (now : Z)
        (text : string) :
  all_chars not_digit text = true ->
  includes_ci "today" text = false ->
  includes_ci "yesterday" text = false ->
  extractJobDate zone now text = None.
Proof.
  intros Hnd Ht Hy. unfold extractJobDate.
  rewrite Ht, Hy, !(match_ago_no_digit _ _ Hnd).
  destruct (is_empty text); [done |]. by destruct (month_ago text).
Qed.

Lemma extractJobDate_no_digit_witness :
  extractJobDate Calendar.utc 1700000000000 "Posted a few months ago" = None.
Proof.
  exact (extractJobDate_no_digit Calendar.utc 1700000000000
           "Posted a few months ago" eq_refl eq_refl eq_refl).
Defined.

End freshness_more.

(** ** More on JSON repair *)

Section json_repair_more.
Import Js JsonRepair Phrase Shape.

Lemma all_chars_app (f : ascii -> bool) (a b : string) :
  all_chars f (a +:+ b) = all_chars f a && all_chars f b.
Proof.
  induction a as [|c a IH]; simpl; [done |].
  by rewrite IH, andb_assoc.
Qed.

Lemma all_chars_rev_string (f : ascii -> bool) (s acc : string) :
  all_chars f (rev_string acc s) = all_chars f s && all_chars f acc.
Proof.
  revert acc. induction s as [|c s IH]; intros acc; simpl; [done |].
  rewrite IH. simpl. destruct (f c), (all_chars f s); simpl; auto.
Qed.

Lemma all_chars_drop_spaces (f : ascii -> bool) (s : string) :
  all_chars f s = true -> all_chars f (drop_spaces s) = true.
Proof.
  induction s as [|c s IH]; [done |].
  simpl. intros H. destruct (is_space c); [| done].
  apply andb_prop in H as [_ H]. by apply IH.
Qed.

Lemma all_chars_trim (f : ascii -> bool) (s : string) :
  all_chars f s = true -> all_chars f (trim s) = true.
Proof.
  intros H. unfold trim.
  rewrite all_chars_rev_string. simpl. rewrite andb_true_r.
  apply all_chars_drop_spaces.
  rewrite all_chars_rev_string. simpl. rewrite andb_true_r.
  by apply all_chars_drop_spaces.
Qed.

(** A one-character replacement keeps a property that the subject and
    the replacement text both have. *)
Lemma replace_one_char_keeps (f : ascii -> bool) (c : ascii) (out : string)
      (fuel : nat) (s : string) :
  all_chars f out = true -> all_chars f s = true ->
  all_chars f (replace_all (one_char c out) fuel s) = true.
Proof.
  intros Hout. revert s. induction fuel as [|fuel IH]; intros s Hs; [done |].
  destruct s as [|x r]; [done |].
  simpl in Hs. apply andb_prop in Hs as [Hx Hr].
  simpl. destruct (Ascii.eqb x c).
  - rewrite all_chars_app, Hout. by apply IH.
  - simpl. rewrite Hx. by apply IH.
Qed.

(** With enough fuel a one-character replacement leaves no occurrence
    of the character, unless the replacement text brings one. *)
Lemma replace_one_char_removes (c : ascii) (out : string) (fuel : nat)
      (s : string) :
  lacks c out = true -> (String.length s < fuel)%nat ->
  lacks c (replace_all (one_char c out) fuel s) = true.
Proof.
  intros Hout. unfold lacks in *.
  revert s. induction fuel as [|fuel IH]; intros s Hlen; [lia |].
  destruct s as [|x r]; [done |].
  simpl in Hlen. simpl. destruct (Ascii.eqb x c) eqn:E.
  - rewrite all_chars_app, Hout. apply IH. lia.
  - simpl. rewrite E. apply IH. lia.
Qed.

(** X5: the text that [safeJsonParse] cleans up has no line feed, no
    carriage return and no tab left, so the span patterns see one single
    line. *)
Theorem clean_single_line (text : string) :
  lacks LF (clean text) = true
  /\ lacks CR (clean text) = true
  /\ lacks TAB (clean text) = true.
Proof.
  unfold clean, replace_g.
  set (t1 := replace_all fence _ text).
  set (t2 := replace_all (one_char LF " ") _ t1).
  set (t3 := replace_all (one_char CR "") _ t2).
  assert (H2 : lacks LF t2 = true)
    by (apply replace_one_char_removes; [done | lia]).
  assert (H3 : lacks CR t3 = true)
    by (apply replace_one_char_removes; [done | lia]).
  assert (H3' : lacks LF t3 = true)
    by (apply replace_one_char_keeps; [done | exact H2]).
  repeat split; apply all_chars_trim.
  - apply replace_one_char_keeps; [done | exact H3'].
  - apply replace_one_char_keeps; [done | exact H3].
  - apply replace_one_char_removes; [done | lia].
Qed.

Lemma upto_last_shape (c : ascii) (s t : string) :
  upto_last c s = Some t ->
  ends_with c t = true /\ is_Some (strip_prefix t s).
Proof.
  revert t. induction s as [|x r IH]; intros t; [done |].
  simpl. destruct (upto_last c r) as [t'|] eqn:E.
  - intros [= <-]. destruct (IH t' eq_refl) as [Hend Hpre]. split.
    + simpl. destruct t'; [done | exact Hend].
    + simpl. by rewrite Ascii.eqb_refl.
  - destruct (Ascii.eqb x c) eqn:Ex; [| done].
    intros [= <-]. split; simpl; [done |]. by rewrite Ascii.eqb_refl.
Qed.

Lemma span_prefix (f : ascii -> bool) (s a b : string) :
  span f s = (a, b) -> s = a +:+ b.
Proof.
  revert a b. induction s as [|c s IH]; intros a b; simpl.
  - by intros [= <- <-].
  - destruct (f c); [| by intros [= <- <-]].
    destruct (span f s) as [a' b']. intros [= <- <-].
    simpl. f_equal. by apply IH.
Qed.

Lemma strip_prefix_app_r (t s e : string) :
  is_Some (strip_prefix t s) -> is_Some (strip_prefix t (s +:+ e)).
Proof.
  intros [r Hr]. exists (r +:+ e). by apply strip_prefix_app.
Qed.

Lemma match_span_shape (open close : ascii) (s m : string) :
  match_span open close s = Some m ->
  starts_with open m = true /\ ends_with close m = true
  /\ includes m s = true.
Proof.
  induction s as [|x r IH]; [done |].
  rewrite includes_unfold.
  cbn [match_span]. destruct (span_at open close (String x r)) as [m'|] eqn:E.
  - intros [= <-]. unfold span_at in E.
    destruct (Ascii.eqb x open) eqn:Ex; [| done].
    destruct (span dot r) as [line rest] eqn:Hsp.
    destruct (upto_last close line) as [body|] eqn:Hb; [| done].
    injection E as <-.
    destruct (upto_last_shape _ _ _ Hb) as [Hend Hpre].
    apply span_prefix in Hsp. subst r.
    split; [exact Ex |]. split.
    + simpl. destruct body; [done | exact Hend].
    + cbn [strip_prefix]. rewrite Ascii.eqb_refl.
      destruct (strip_prefix_app_r body line rest Hpre) as [? ->]. done.
  - intros H. destruct (IH H) as (Hs & He & Hi).
    split; [done |]. split; [done |].
    destruct (strip_prefix m (String x r)); [done | exact Hi].
Qed.

(** X6: the span that [safeJsonParse] hands to the repair step is a
    piece of the cleaned text that runs from an opening brace to a
    closing brace, or from an opening bracket to a closing bracket. *)
Theorem jsonMatch_shape (cleaned m : string) :
  jsonMatch cleaned = Some m ->
  includes m cleaned = true
  /\ ((starts_with "{" m = true /\ ends_with "}" m = true)
      \/ (starts_with "[" m = true /\ ends_with "]" m = true)).
Proof.
  unfold jsonMatch.
  destruct (match_span "{" "}" cleaned) as [m'|] eqn:E.
  - intros [= <-]. destruct (match_span_shape _ _ _ _ E) as (? & ? & ?).
    auto.
  - intros H. destruct (match_span_shape _ _ _ _ H) as (? & ? & ?). auto.
Qed.

Lemma jsonMatch_shape_witness :
  includes "{ a: [1, 2] }" "Sure! { a: [1, 2] } Done." = true
  /\ ((starts_with "{" "{ a: [1, 2] }" = true
       /\ ends_with "}" "{ a: [1, 2] }" = true)
      \/ (starts_with "[" "{ a: [1, 2] }" = true
          /\ ends_with "]" "{ a: [1, 2] }" = true)).
Proof.
  exact (jsonMatch_shape "Sure! { a: [1, 2] } Done." "{ a: [1, 2] }" eq_refl).
Defined.

(** X7: [safeJsonParse] never throws, and its result is [null], one of
    the two default refinement objects, or the value that [JSON.parse]
    returned for the repaired span. *)
Theorem safeJsonParse_results (JSON_parse : string -> Exc Json)
        (text : string) :
  exists res,
    safeJsonParse JSON_parse text = Ret res
    /\ (res = None
        \/ res = Some no_span_default
        \/ res = Some parse_failed_default
        \/ exists jsonStr v,
             jsonMatch (clean text) = Some jsonStr
             /\ JSON_parse (repair jsonStr) = Ret v
             /\ res = Some v).
Proof.
  unfold safeJsonParse, parse_body, parse_handler, try_catch.
  destruct (is_empty text); [eexists; eauto |].
  destruct (jsonMatch (clean text)) as [jsonStr|].
  - destruct (JSON_parse (repair jsonStr)) as [v|] eqn:E; simpl.
    + eexists. split; [done |]. do 3 right. by exists jsonStr, v.
    + destruct (_ || _); eexists; eauto.
  - destruct (includes "refinements" text); eexists; eauto.
Qed.

End json_repair_more.

(** ** More on the structuring engine *)

Section structuring_more.
Import Js Structuring Phrase Shape ListingShape.

Lemma substring0_length (n : nat) (s : string) :
  String.length (substring0 n s) = Nat.min n (String.length s).
Proof.
  unfold substring0. revert s.
  induction n as [|n IH]; intros [|c s]; simpl; auto.
Qed.

(** The loop of [extractListFromText] keeps between the bounds. *)
Lemma scan_lines_bounds (type : string) (lines : list string)
      (capturing : bool) (items : list string) :
  (List.length items < 5)%nat ->
  Forall (fun i => (10 < String.length i <= 150)%nat) items ->
  let result := scan_lines type capturing items lines in
  (List.length items <= List.length result <= 5)%nat
  /\ Forall (fun i => (10 < String.length i <= 150)%nat) result.
Proof.
  revert capturing items.
  induction lines as [|line rest IH]; intros capturing items Hlen Hall;
    cbv zeta; cbn [scan_lines]; [split; [lia | done] |].
  destruct (includes type (toLowerCase line)); [by apply IH |].
  destruct capturing; cbn [andb]; [| by apply IH].
  destruct (Nat.ltb_spec 10 (String.length (trim line))) as [Hlong|];
    [| by apply IH].
  set (items' := items ++ [substring0 150 (trim line)]).
  assert (Hlen' : List.length items' = S (List.length items))
    by (unfold items'; rewrite length_app; simpl; lia).
  assert (Hall' : Forall (fun i => (10 < String.length i <= 150)%nat) items').
  { apply Forall_app. split; [done |]. constructor; [| done].
    rewrite substring0_length. lia. }
  destruct (Nat.leb_spec 5 (List.length items')).
  - split; [lia | done].
  - specialize (IH true items' ltac:(lia) Hall'). cbv zeta in IH.
    split; [lia | apply IH].
Qed.

Lemma extractListFromText_some (text : option string) (type : string)
      (items : list string) :
  extractListFromText text type = Some items ->
  (1 <= List.length items <= 5)%nat
  /\ Forall (fun i => (10 < String.length i <= 150)%nat) items.
Proof.
  unfold extractListFromText. destruct text as [t|]; [| done].
  destruct (is_empty t); [done |].
  pose proof (scan_lines_bounds type (split_lines "" t) false []
                ltac:(simpl; lia) ltac:(constructor)) as H.
  cbv zeta in H.
  destruct (Nat.ltb_spec 0 (List.length (scan_lines type false []
                                           (split_lines "" t))));
    [| done].
  intros [= <-]. split; [lia | apply H].
Qed.

(** X8: when [extractListFromText] returns a list, it has between 1 and
    5 entries, and every entry is longer than 10 and at most 150
    characters long. *)
Theorem extractListFromText_bounds (text : option string) (type : string)
        (items : list string) :
  extractListFromText text type = Some items ->
  (1 <= List.length items <= 5)%nat
  /\ Forall (fun i => (10 < String.length i <= 150)%nat) items.
Proof. apply extractListFromText_some. Qed.

Lemma extractListFromText_bounds_witness :
  let items := ["5+ years of Python experience";
                "Strong communication skills"] in
  (1 <= List.length items <= 5)%nat
  /\ Forall (fun i => (10 < String.length i <= 150)%nat) items.
Proof.
  exact (extractListFromText_bounds
           (Some ("Requirements:" +:+ String JsonRepair.LF
                    ("  5+ years of Python experience " +:+ String JsonRepair.LF
                       ("Remote" +:+ String JsonRepair.LF
                          "Strong communication skills"))))
           "requirements" _ eq_refl).
Defined.

Lemma rev_string_acc (s acc : string) :
  rev_string acc s = rev_string "" s +:+ acc.
Proof.
  revert acc. induction s as [|c s IH]; intros acc; simpl; [done |].
  rewrite (IH (String c acc)), (IH (String c "")).
  by rewrite append_assoc.
Qed.

(** Every line is a piece of the text. *)
Lemma split_lines_pieces (s cur line : string) :
  In line (split_lines cur s) ->
  exists a b, rev_string "" cur +:+ s = a +:+ line +:+ b.
Proof.
  revert cur. induction s as [|c r IH]; intros cur; simpl.
  - intros [<- | []]. exists "", "". simpl. done.
  - destruct (is_separator c).
    + intros [<- | Hin].
      * by exists "", (String c r).
      * destruct (IH "" Hin) as (a & b & Hab). simpl in Hab.
        exists (rev_string "" cur +:+ String c a), b.
        rewrite Hab, !append_assoc. done.
    + intros Hin. destruct (IH _ Hin) as (a & b & Hab).
      exists a, b. rewrite <- Hab. simpl.
      rewrite (rev_string_acc cur (String c "")), append_assoc. done.
Qed.

Lemma includes_app_l (p a s : string) :
  includes p s = true -> includes p (a +:+ s) = true.
Proof.
  intros H. induction a as [|x a IH]; [done |].
  change (String x a +:+ s) with (String x (a +:+ s)).
  rewrite includes_unfold.
  destruct (strip_prefix p (String x (a +:+ s))); [done | exact IH].
Qed.

Lemma scan_lines_no_heading (type : string) (lines items : list string) :
  Forall (fun line => includes type (toLowerCase line) = false) lines ->
  scan_lines type false items lines = items.
Proof.
  induction 1 as [|line rest Hline _ IH]; simpl; [done |].
  by rewrite Hline.
Qed.

(** X9: a description that never mentions the heading keyword (compared
    in lower case) yields [null]: nothing is captured before a heading
    line. *)
Theorem extractListFromText_no_heading (text type : string) :
  includes type (toLowerCase text) = false ->
  extractListFromText (Some text) type = None.
Proof.
  intros Hno. unfold extractListFromText.
  destruct (is_empty text); [done |].
  rewrite scan_lines_no_heading; [done |].
  apply List.Forall_forall. intros line Hin.
  destruct (includes type (toLowerCase line)) eqn:E; [| done].
  destruct (split_lines_pieces _ _ _ Hin) as (a & b & Hab).
  simpl in Hab. subst text.
  rewrite !toLowerCase_app in Hno.
  rewrite includes_app_l in Hno; [done |].
  by apply includes_app_r.
Qed.

Lemma extractListFromText_no_heading_witness :
  extractListFromText
    (Some "We are hiring. Responsibilities include on-call duty.")
    "requirements" = None.
Proof.
  exact (extractListFromText_no_heading
           "We are hiring. Responsibilities include on-call duty."
           "requirements" eq_refl).
Defined.

Lemma or_default_nonempty (x : option string) (d : string) :
  d <> "" -> or_default x d <> "".
Proof.
  intros Hd. destruct x as [s|]; simpl; [| done].
  destruct s; simpl; [done | discriminate].
Qed.

Lemma default_one_to_five (d : list string) (text : option string)
      (type : string) :
  (1 <= List.length d <= 5)%nat ->
  one_to_five (Some (default d (extractListFromText text type))).
Proof.
  intros Hd. eexists. split; [done |].
  destruct (extractListFromText text type) as [items|] eqn:E; simpl;
    [| done].
  by destruct (extractListFromText_some _ _ _ E).
Qed.

Lemma unparsed_fallback_fields id now sd url :
  fields_present (unparsed_fallback id now sd url).
Proof.
  unfold fields_present, unparsed_fallback. simpl.
  repeat split; try (by apply or_default_nonempty).
  - eexists. split; [done |]. by apply or_default_nonempty.
  - apply default_one_to_five. simpl. lia.
  - apply default_one_to_five. simpl. lia.
Qed.

Lemma caught_fallback_fields id now sd url :
  fields_present (caught_fallback id now sd url).
Proof.
  unfold fields_present, caught_fallback. simpl.
  repeat split; try (by apply or_default_nonempty).
  - eexists. split; [done |]. by apply or_default_nonempty.
  - eexists. split; [done |]. simpl. lia.
  - eexists. split; [done |]. simpl. lia.
Qed.

(** X10: whenever [structureJobWithGemini] falls back to an object of
    its own, on a provider error or on an unusable reply, that object
    has a non-empty title, company, location, description and salary,
    between 1 and 5 requirements and responsibilities, the score 70 and
    the single reason [Potential match]. *)
Theorem structureJobWithGemini_fallback_fields
        (JSON_parse : string -> Exc Json)
        (untyped_scoring : Json -> Pref.SearchRefinements -> Exc (Z * list string))
        (reply : Exc string) (randomPart : string) (now : Z)
        (scrapedData : option Scraped.ScrapedJob) (url : string)
        (r : Pref.SearchRefinements) :
  match structureJobWithGemini JSON_parse untyped_scoring reply randomPart
          now scrapedData url r with
  | Ret (Some (Built job)) => fields_present job
  | _ => True
  end.
Proof.
  unfold structureJobWithGemini, structure_body, structure_handler,
    try_catch.
  destruct scrapedData as [sd|]; [| done].
  destruct (no_real_data (Some sd)); [done |].
  destruct reply as [text|]; simpl; [| apply caught_fallback_fields].
  destruct (safeJsonParse_returns JSON_parse text) as [v ->].
  simpl. destruct v as [jd|]; [| apply unparsed_fallback_fields].
  destruct (json_truthy jd); [| apply unparsed_fallback_fields].
  destruct (score_provider_object untyped_scoring jd r) as [[score reasons]|];
    simpl; [done | apply caught_fallback_fields].
Qed.

(** When the provider throws, the listing is the one of the [catch]
    block. *)
Example provider_outage_falls_back :
  structureJobWithGemini (fun _ => Throw) (fun _ _ => Throw) Throw "k3x9ab"
    1700
    (Some {| Scraped.title := Some "Backend Engineer";
             Scraped.company := Some "Acme Co";
             Scraped.location := None;
             Scraped.description := Some "Posted 2 days ago";
             Scraped.salary := None;
             Scraped.employmentType := Some "Contract" |})
    "https://careers.example.org/jobs/42"
    Pref.performEnhancedSearch_defaults
  = Ret (Some (Built
      {| listing :=
           {| id := "job_42_k3x9ab_1700";
              title := "Backend Engineer"; company := "Acme Co";
              location := "Location not specified";
              description := "Posted 2 days ago";
              salary := Some "Competitive"; currency := Some "USD";
              employmentType := Some "Full-time";
              workplaceType := Some "Onsite";
              requirements := Some ["Visit job page for full requirements"];
              responsibilities :=
                Some ["Visit job page for full responsibilities"];
              postedDate := 1700;
              sourceUrl := "https://careers.example.org/jobs/42" |};
         matchScore := 70; matchReasons := ["Potential match"];
         missingSkills := [] |})).
Proof. vm_compute. reflexivity. Qed.

Lemma incomplete_fails_quality (job : EnhancedJobListing)
      (sd : Scraped.ScrapedJob) :
  title job = or_default (Scraped.title sd) "Job Opening" ->
  company job = or_default (Scraped.company sd) "Company" ->
  description job
  = or_default (Scraped.description sd)
      "Please visit the job page for full details." ->
  incomplete sd = true ->
  Filter.quality_callback job = false.
Proof.
  intros Ht Hc Hd Hinc. unfold Filter.quality_callback.
  rewrite Ht, Hc, Hd. unfold incomplete in Hinc.
  destruct (Ranking.opt_truthy (Scraped.title sd)) eqn:E1.
  2:{ rewrite (or_default_falsy _ _ E1). simpl. by repeat case_match. }
  destruct (Ranking.opt_truthy (Scraped.company sd)) eqn:E2.
  2:{ rewrite (or_default_falsy _ _ E2). simpl. by repeat case_match. }
  destruct (Ranking.opt_truthy (Scraped.description sd)) eqn:E3; [done |].
  rewrite (or_default_falsy _ _ E3). simpl. by repeat case_match.
Qed.

(** X11: a fallback listing built from a scraped record that lacks its
    title, its company or its description carries a placeholder in that
    field, and the quality filter never lets it through. *)
Theorem fallback_of_incomplete_record_filtered
        (id : string) (now : Z) (sd : Scraped.ScrapedJob) (url : string)
        (jobs : list EnhancedJobListing) :
  incomplete sd = true ->
  ~ In (unparsed_fallback id now sd url) (Filter.filterQualityJobs jobs)
  /\ ~ In (caught_fallback id now sd url) (Filter.filterQualityJobs jobs).
Proof.
  intros Hinc. unfold Filter.filterQualityJobs.
  split; intros [_ Hq]%filter_In;
    by rewrite (incomplete_fails_quality _ sd) in Hq.
Qed.

Lemma fallback_of_incomplete_record_filtered_witness :
  let sd := {| Scraped.title := Some "Backend Engineer";
               Scraped.company := Some "";
               Scraped.location := Some "Austin";
               Scraped.description := Some Claims.long_description;
               Scraped.salary := None;
               Scraped.employmentType := None |} in
  ~ In (unparsed_fallback "job_1" 0 sd "u")
       (Filter.filterQualityJobs [unparsed_fallback "job_1" 0 sd "u"])
  /\ ~ In (caught_fallback "job_1" 0 sd "u")
         (Filter.filterQualityJobs [unparsed_fallback "job_1" 0 sd "u"]).
Proof.
  intros sd.
  exact (fallback_of_incomplete_record_filtered "job_1" 0 sd "u"
           [unparsed_fallback "job_1" 0 sd "u"] eq_refl).
Defined.

End structuring_more.

(** ** More on de-duplication and the quality filter *)

Section dedup_more.
Import Js Filter Claims DedupShape.

Lemma map_set_elem {V : Type} (k0 : string) (v0 : V)
      (m : list (string * V)) (k : string) (v : V) :
  (k, v) ∈ map_set k0 v0 m -> (k, v) = (k0, v0) \/ (k, v) ∈ m.
Proof.
  induction m as [|[k' v'] m IH]; simpl.
  - intros ->%list_elem_of_singleton. by left.
  - destruct (String.eqb k0 k').
    + intros [->|H]%elem_of_cons; [by left |]. right. by right.
    + intros [->|H]%elem_of_cons; [right; by left |].
      destruct (IH H) as [->|?]; [by left |]. right. by right.
Qed.

Lemma map_set_fresh {V : Type} (k : string) (v : V) (m : list (string * V)) :
  k ∉ m.*1 -> map_set k v m = m ++ [(k, v)].
Proof.
  induction m as [|[k' v'] m IH]; [done |].
  cbn [map_set]. rewrite fmap_cons. cbn [fst].
  intros Hk. apply not_elem_of_cons in Hk as [Hne Hk].
  destruct (String.eqb_spec k k'); [done |].
  rewrite IH by done. done.
Qed.

Lemma map_set_keys {V : Type} (k : string) (v : V) (m : list (string * V)) :
  k ∈ m.*1 -> (map_set k v m).*1 = m.*1.
Proof.
  induction m as [|[k' v'] m IH]; [by intros ?%elem_of_nil |].
  cbn [map_set]. rewrite !fmap_cons. cbn [fst].
  destruct (String.eqb_spec k k') as [->|Hne]; [done |].
  intros [?|H]%elem_of_cons; [done |].
  rewrite fmap_cons. cbn [fst]. f_equal. by apply IH.
Qed.

Lemma map_set_keys_nodup {V : Type} (k : string) (v : V)
      (m : list (string * V)) :
  NoDup m.*1 -> NoDup (map_set k v m).*1.
Proof.
  intros Hnd. destruct (decide (k ∈ m.*1)) as [Hin|Hout].
  - by rewrite map_set_keys.
  - rewrite map_set_fresh by done. rewrite fmap_app. simpl.
    apply NoDup_app. split; [done |]. split; [| apply NoDup_singleton].
    intros x Hx ->%list_elem_of_singleton. done.
Qed.

Lemma map_set_image_nodup {V B : Type} (f : V -> B) (k : string) (v : V)
      (m : list (string * V)) :
  NoDup (f <$> m.*2) -> f v ∉ f <$> m.*2 ->
  NoDup (f <$> (map_set k v m).*2).
Proof.
  induction m as [|[k' v'] m IH]; simpl; intros Hnd Hv.
  - apply NoDup_singleton.
  - apply NoDup_cons in Hnd as [Hv' Hnd].
    apply not_elem_of_cons in Hv as [Hne Hv].
    destruct (String.eqb k k'); simpl.
    + apply NoDup_cons. split; done.
    + apply NoDup_cons. split; [| by apply IH].
      intros (w & Hw & Hin)%list_elem_of_fmap.
      apply list_elem_of_fmap in Hin as ([k2 w2] & -> & Hin).
      apply map_set_elem in Hin as [[= -> ->]|Hin]; simpl in *.
      * congruence.
      * apply Hv'. apply list_elem_of_fmap. exists w2. split; [done |].
        apply list_elem_of_fmap. by exists (k2, w2).
Qed.

Lemma dedup_step_not_retained (st : DedupState) (job : EnhancedJobListing) :
  retained st job = false -> dedup_step st job = st.
Proof.
  unfold retained, has_data, dedup_step.
  destruct (insufficient_data job); [done |].
  destruct (too_short job); [done |].
  destruct (bool_decide (titleCompany job ∈ _)); [done |].
  by destruct (bool_decide (titleLocation job ∈ _)).
Qed.

Lemma retained_facts (st : DedupState) (job : EnhancedJobListing) :
  retained st job = true ->
  has_data job = true /\ titleCompany job ∉ seenTitles st.
Proof.
  unfold retained. intros H.
  apply andb_prop in H as [H _]. apply andb_prop in H as [Hd Hs].
  split; [done |]. apply negb_true_iff in Hs.
  by apply bool_decide_eq_false in Hs.
Qed.

Lemma dedup_inv_step (input : list EnhancedJobListing) (st : DedupState)
      (job : EnhancedJobListing) :
  job ∈ input -> dedup_inv input st -> dedup_inv input (dedup_step st job).
Proof.
  intros Hjob (Hent & Hkeys & Hsigs).
  destruct (retained st job) eqn:Hret;
    [| by rewrite dedup_step_not_retained].
  rewrite (dedup_step_records _ _ Hret).
  destruct (retained_facts _ _ Hret) as [Hdata Hnew].
  split; [| split]; simpl.
  - intros k v [[= -> ->]|Hin]%map_set_elem.
    + repeat split; try done. apply elem_of_union. left.
      by apply elem_of_singleton.
    + destruct (Hent _ _ Hin) as (? & ? & ? & ?).
      repeat split; try done. apply elem_of_union. by right.
  - by apply map_set_keys_nodup.
  - apply map_set_image_nodup; [done |].
    intros (w & Hw & Hin)%list_elem_of_fmap.
    apply list_elem_of_fmap in Hin as ([k2 w2] & -> & Hin). simpl in *.
    destruct (Hent _ _ Hin) as (_ & _ & _ & Hseen). congruence.
Qed.

Lemma dedup_inv_fold (input jobs : list EnhancedJobListing)
      (st : DedupState) :
  (forall job, job ∈ jobs -> job ∈ input) ->
  dedup_inv input st -> dedup_inv input (fold_left dedup_step jobs st).
Proof.
  revert st. induction jobs as [|job jobs IH]; intros st Hsub Hinv; [done |].
  simpl. apply IH.
  - intros j Hj. apply Hsub. by right.
  - apply dedup_inv_step; [| done]. apply Hsub. by left.
Qed.

Lemma dedup_inv_final (jobs : list EnhancedJobListing) :
  dedup_inv jobs (fold_left dedup_step jobs dedup_init).
Proof.
  apply dedup_inv_fold; [done |].
  split; [| split]; simpl; [| constructor | constructor].
  by intros k v ?%elem_of_nil.
Qed.

Lemma keys_are_ids (m : list (string * EnhancedJobListing)) :
  (forall (k : string) (v : EnhancedJobListing), (k, v) ∈ m -> k = id v) ->
  List.map (fun job : EnhancedJobListing => id job) m.*2 = m.*1.
Proof.
  induction m as [|[k v] m IH]; intros H; [done |].
  rewrite !fmap_cons. cbn [fst snd List.map]. f_equal.
  - symmetry. apply H. apply elem_of_cons. by left.
  - apply IH. intros k' v' Hin. apply H. apply elem_of_cons. by right.
Qed.

Lemma removeDuplicateJobs_facts (jobs : list EnhancedJobListing) :
  Forall (fun job => In job jobs /\ has_data job = true)
         (removeDuplicateJobs jobs)
  /\ NoDup (List.map (fun job : EnhancedJobListing => id job)
                     (removeDuplicateJobs jobs))
  /\ NoDup (List.map titleCompany (removeDuplicateJobs jobs)).
Proof.
  destruct (dedup_inv_final jobs) as (Hent & Hkeys & Hsigs).
  unfold removeDuplicateJobs, map_values.
  set (m := uniqueJobs (fold_left dedup_step jobs dedup_init)) in *.
  split; [| split].
  - apply List.Forall_forall. intros v Hv.
    apply list_elem_of_In, list_elem_of_fmap in Hv as ([k w] & -> & Hin).
    destruct (Hent _ _ Hin) as (_ & Hv & Hd & _).
    split; [by apply list_elem_of_In | done].
  - rewrite (keys_are_ids m); [done |]. intros k v Hin.
    by destruct (Hent _ _ Hin).
  - exact Hsigs.
Qed.

(** X12: every job that [removeDuplicateJobs] returns is one of the jobs
    it was given, has a title other than [Job Opening], a company and a
    description of at least 100 characters; among the returned jobs no
    two share an id, and no two share the primary signature. *)
Theorem removeDuplicateJobs_output (jobs : list EnhancedJobListing) :
  Forall (fun job => In job jobs /\ has_data job = true)
         (removeDuplicateJobs jobs)
  /\ NoDup (List.map (fun job : EnhancedJobListing => id job)
                     (removeDuplicateJobs jobs))
  /\ NoDup (List.map titleCompany (removeDuplicateJobs jobs)).
Proof. apply removeDuplicateJobs_facts. Qed.

(** With distinct ids every [set] appends to the map. *)
Lemma dedup_sublist_fold (post pre : list EnhancedJobListing)
      (st : DedupState) :
  NoDup (List.map (fun job : EnhancedJobListing => id job) (pre ++ post)) ->
  (uniqueJobs st).*2 `sublist_of` pre ->
  (forall k, k ∈ (uniqueJobs st).*1 ->
             k ∈ List.map (fun job : EnhancedJobListing => id job) pre) ->
  (uniqueJobs (fold_left dedup_step post st)).*2 `sublist_of` pre ++ post.
Proof.
  revert pre st. induction post as [|job post IH]; intros pre st Hnd Hsub Hkeys.
  - by rewrite app_nil_r.
  - simpl. replace (pre ++ job :: post) with ((pre ++ [job]) ++ post)
      by (by rewrite <- app_assoc).
    replace (pre ++ job :: post) with ((pre ++ [job]) ++ post) in Hnd
      by (by rewrite <- app_assoc).
    assert (Hfresh : id job ∉ (uniqueJobs st).*1).
    { intros Hin. apply Hkeys in Hin.
      rewrite !map_app in Hnd. apply NoDup_app in Hnd as [Hnd _].
      apply NoDup_app in Hnd as (_ & Hdisj & _).
      apply (Hdisj _ Hin). simpl. by left. }
    apply IH; [done | |].
    + destruct (retained st job) eqn:Hret.
      * rewrite (dedup_step_records _ _ Hret). simpl.
        rewrite map_set_fresh by done. rewrite fmap_app. simpl.
        by apply sublist_app.
      * rewrite dedup_step_not_retained by done.
        by apply sublist_inserts_r.
    + intros k Hk. rewrite map_app. apply elem_of_app.
      destruct (retained st job) eqn:Hret.
      * rewrite (dedup_step_records _ _ Hret) in Hk. simpl in Hk.
        rewrite map_set_fresh in Hk by done. rewrite fmap_app in Hk.
        apply elem_of_app in Hk as [Hk| ->%list_elem_of_singleton].
        -- left. by apply Hkeys.
        -- right. simpl. by left.
      * rewrite dedup_step_not_retained in Hk by done. left. by apply Hkeys.
Qed.

(** X13: when the ids of the jobs are pairwise distinct,
    [removeDuplicateJobs] keeps the survivors in their input order: its
    result is a subsequence of its argument. *)
Theorem removeDuplicateJobs_stable (jobs : list EnhancedJobListing) :
  NoDup (List.map (fun job : EnhancedJobListing => id job) jobs) ->
  removeDuplicateJobs jobs `sublist_of` jobs.
Proof.
  intros Hnd. unfold removeDuplicateJobs, map_values.
  apply (dedup_sublist_fold jobs [] dedup_init); simpl; [done | done |].
  by intros k ?%elem_of_nil.
Qed.

Lemma removeDuplicateJobs_stable_witness :
  let a := sample_job "job_1" "Backend Engineer" "Acme Co" "Austin"
             long_description in
  let b := sample_job "job_2" "Backend Engineer" "Acme Co" "Remote"
             long_description in
  let c := sample_job "job_3" "Data Engineer" "Globex" "Austin"
             long_description in
  removeDuplicateJobs [a; b; c] `sublist_of` [a; b; c].
Proof.
  intros a b c. apply removeDuplicateJobs_stable.
  apply (bool_decide_unpack _). vm_compute. exact I.
Defined.

(** With equal ids the later listing takes the place of the earlier
    one. *)
Example same_id_replaces_in_place :
  let a := sample_job "job_1" "Backend Engineer" "Acme Co" "Austin"
             long_description in
  let b := sample_job "job_2" "Data Engineer" "Globex" "Austin"
             long_description in
  let c := sample_job "job_1" "Site Reliability Engineer" "Initech" "Austin"
             long_description in
  removeDuplicateJobs [a; b; c] = [c; b].
Proof. vm_compute. reflexivity. Qed.

(** X14: the quality filter implies the data guards of the
    de-duplication loop: a job that [filterQualityJobs] keeps is never
    one that [removeDuplicateJobs] skips for insufficient data. *)
Theorem quality_implies_has_data (job : EnhancedJobListing) :
  quality_callback job = true ->
  insufficient_data job = false /\ too_short job = false.
Proof.
  unfold quality_callback, insufficient_data, too_short.
  destruct (truthy (title job)), (truthy (company job)),
    (truthy (description job)); simpl; try done.
  destruct (String.length (title job) <? 5)%nat; simpl; [done |].
  destruct (String.eqb (title job) "Job Opening"); simpl; [done |].
  destruct (_ || _); [done |].
  destruct (String.length (description job) <? 100)%nat; simpl; done.
Qed.

Lemma quality_implies_has_data_witness :
  let a := sample_job "job_1" "Backend Engineer" "Acme Co" "Austin"
             long_description in
  insufficient_data a = false /\ too_short a = false.
Proof.
  intros a. exact (quality_implies_has_data a eq_refl).
Defined.

End dedup_more.

(** ** The de-duplication rule *)

Section dedup_rule.
Import Js Filter Claims DedupShape.












End dedup_rule.


(** ** More on ordering and the end of the search *)

Section ordering_more.
Import Js Filter Search Claims DedupShape.

Lemma filterQualityJobs_keeps (jobs : list EnhancedJobListing)
      (job : EnhancedJobListing) :
  In job (filterQualityJobs jobs) -> In job jobs /\ quality job.
Proof.
  unfold filterQualityJobs. rewrite filter_In.
  by rewrite quality_callback_spec.
Qed.

(** X15: the comparison function of the final sort is the lexicographic
    order on posting date (descending) and match score (descending): it
    is antisymmetric, negative exactly when the first job is newer or as
    new and scored higher, and zero exactly when both keys agree. *)
Theorem compare_jobs_lexicographic (a b : EnhancedJobListing) :
  compare_jobs b a = - compare_jobs a b
  /\ (compare_jobs a b < 0 <->
      postedDate a > postedDate b
      \/ (postedDate a = postedDate b /\ matchScore a > matchScore b))
  /\ (compare_jobs a b = 0 <->
      postedDate a = postedDate b /\ matchScore a = matchScore b).
Proof.
  unfold compare_jobs.
  destruct (Z.eqb_spec (postedDate b) (postedDate a)),
    (Z.eqb_spec (postedDate a) (postedDate b)); simpl; lia.
Qed.

Lemma insert_sorted_perm_any {A : Type} (cmp : A -> A -> Z) (x : A)
      (l : list A) :
  Permutation (insert_sorted cmp x l) (x :: l).
Proof.
  induction l as [|y l IH]; simpl; [done |].
  destruct (cmp x y <=? 0); [done |].
  rewrite IH. apply perm_swap.
Qed.

Lemma sort_perm_any {A : Type} (cmp : A -> A -> Z) (l : list A) :
  Permutation (sort cmp l) l.
Proof.
  induction l as [|x l IH]; simpl; [done |].
  by rewrite insert_sorted_perm_any, IH.
Qed.

Lemma sort_sorted_any {A : Type} (cmp : A -> A -> Z) (R : A -> A -> Prop)
      (l : list A) :
  (forall a b, cmp a b <= 0 -> R a b) ->
  (forall a b, 0 < cmp a b -> R b a) ->
  (forall a b c, R a b -> R b c -> R a c) ->
  StronglySorted R (sort cmp l).
Proof.
  intros Hle Hgt Htrans.
  induction l as [|x l IH]; simpl; [constructor |].
  induction IH as [|y rest Hsorted IH' Hy]; simpl.
  - repeat constructor.
  - destruct (Z.leb_spec (cmp x y) 0) as [H|H].
    + constructor; [by constructor |]. constructor; [by apply Hle |].
      eapply Forall_impl; [exact Hy |]. intros z Hz.
      eapply Htrans; [by apply Hle | done].
    + constructor; [done |].
      rewrite insert_sorted_perm_any. constructor; [by apply Hgt | done].
Qed.

Lemma push_loop {A B : Type} (f : A -> B) (l : list A) (acc : list B) :
  fold_left (fun acc x => acc ++ [f x]) l acc = acc ++ List.map f l.
Proof.
  revert acc. induction l as [|x l IH]; intros acc; simpl.
  - by rewrite app_nil_r.
  - rewrite IH. by rewrite <- app_assoc.
Qed.

Lemma calculateMatchScore_range (job : JobListing)
      (r : Pref.SearchRefinements) :
  70 <= Ranking.calculateMatchScore job r <= 95.
Proof.
  rewrite calculateMatchScore_closed. unfold bonus.
  destruct (Ranking.location_match job r), (Ranking.remote_match job r),
    (Ranking.salary_match job r); lia.
Qed.

(** X16: [rankJobsForResume] returns the given jobs, each with its match
    score (between 70 and 95), its match reasons and no missing skills,
    ordered by score from high to low. *)
Theorem rankJobsForResume_ranked (jobs : list JobListing)
        (resumeText : string) (r : Pref.SearchRefinements) :
  let ranked := Resume.rankJobsForResume jobs resumeText r in
  StronglySorted better ranked
  /\ Permutation (List.map listing ranked) jobs
  /\ Forall (fun e : EnhancedJobListing =>
               matchScore e = Ranking.calculateMatchScore e r
               /\ 70 <= matchScore e <= 95
               /\ matchReasons e = Ranking.generateMatchReasons e r
               /\ missingSkills e = [])
            ranked.
Proof.
  cbv zeta. unfold Resume.rankJobsForResume. rewrite push_loop. simpl.
  split; [| split].
  - apply sort_sorted_any; unfold Resume.by_score, better; intros; lia.
  - rewrite (Permutation_map listing (sort_perm_any _ _)).
    rewrite map_map. simpl. by rewrite map_id.
  - rewrite (sort_perm_any Resume.by_score _).
    apply List.Forall_forall. intros e (job & <- & _)%in_map_iff. simpl.
    repeat split; try apply calculateMatchScore_range.
Qed.

Lemma map_filter_sublist {A B : Type} (f : A -> B) (p : A -> bool)
      (l : list A) :
  List.map f (List.filter p l) `sublist_of` List.map f l.
Proof.
  induction l as [|x l IH]; simpl; [constructor |].
  destruct (p x); simpl; by constructor.
Qed.

Lemma map_take_sublist {A B : Type} (f : A -> B) (n : nat) (l : list A) :
  List.map f (take n l) `sublist_of` List.map f l.
Proof.
  revert n. induction l as [|x l IH]; intros [|n]; simpl;
    try constructor; try apply IH. apply sublist_nil_l.
Qed.

Lemma finish_facts (now : Z) (allJobs : list EnhancedJobListing) :
  let result := finish now allJobs in
  (List.length result <= 20)%nat
  /\ Forall (fun job => In job allJobs /\ fresh now job = true
                        /\ quality job /\ has_data job = true) result
  /\ NoDup (List.map titleCompany result).
Proof.
  cbv zeta. unfold finish.
  set (freshJobs := List.filter (fresh now) allJobs).
  destruct (removeDuplicateJobs_facts freshJobs) as (Hfrom & _ & Hsig).
  set (unique := removeDuplicateJobs freshJobs) in *.
  set (good := filterQualityJobs unique).
  split; [| split].
  - rewrite length_take. lia.
  - apply Forall_take. rewrite (sort_perm_any compare_jobs good).
    apply List.Forall_forall. intros job Hjob.
    apply filterQualityJobs_keeps in Hjob as [Hin Hq].
    rewrite List.Forall_forall in Hfrom.
    destruct (Hfrom _ Hin) as [Hfresh Hdata].
    apply filter_In in Hfresh as [Hall Hfresh]. done.
  - eapply sublist_NoDup; [| apply map_take_sublist].
    rewrite (Permutation_map titleCompany (sort_perm_any compare_jobs good)).
    eapply sublist_NoDup; [exact Hsig | apply map_filter_sublist].
Qed.

(** The date filter keeps the jobs that are less than five days old. *)
Lemma fresh_age (now : Z) (job : EnhancedJobListing) :
  fresh now job = true <-> now - postedDate job < 5 * 86400000.
Proof.
  unfold fresh, day_ms. rewrite Z.leb_le.
  change (1000 * 60 * 60 * 24) with 86400000.
  split; intros H; Z.div_mod_to_equations; lia.
Qed.

(** X17: the list returned by [searchWithRefinements] has at most 20
    entries; each is one of the collected jobs, is less than five days
    (432000000 ms) old by the clock of the final filter, which counts
    whole days and admits up to 4 of them, passes the quality predicate
    and the data guards; and no two entries share the primary
    signature. *)
Theorem searchWithRefinements_output (now : Z)
        (collected : Exc (list EnhancedJobListing)) :
  let result := searchWithRefinements now collected in
  (List.length result <= 20)%nat
  /\ Forall (fun job : EnhancedJobListing =>
               now - postedDate job < 5 * 86400000
               /\ quality job /\ has_data job = true) result
  /\ NoDup (List.map titleCompany result)
  /\ match collected with
     | Ret allJobs => Forall (fun job => In job allJobs) result
     | Throw => result = []
     end.
Proof.
  cbv zeta. destruct collected as [allJobs|]; simpl.
  - destruct (finish_facts now allJobs) as (Hlen & Hall & Hsig).
    repeat split; try done.
    + eapply Forall_impl; [exact Hall |].
      intros job (_ & Hf & ? & ?). by apply fresh_age in Hf.
    + eapply Forall_impl; [exact Hall |]. by intros job (? & _).
  - repeat split; try constructor. lia.
Qed.

(** A job posted 5 days less one millisecond ago passes the date
    filter; one posted exactly 5 days ago does not. *)
Example date_filter_boundary :
  let job (posted : Z) :=
    {| listing :=
         {| id := "job_1"; title := "Backend Engineer";
            company := "Acme Co"; location := "Austin";
            description := Claims.long_description;
            salary := None; currency := None; employmentType := None;
            workplaceType := None;
            requirements := Some ["Five years of experience"];
            responsibilities := None;
            postedDate := posted; sourceUrl := "https://example.org/1" |};
       matchScore := 70; matchReasons := []; missingSkills := [] |} in
  fresh 1700000000000 (job (1700000000000 - 5 * 86400000 + 1)) = true
  /\ fresh 1700000000000 (job (1700000000000 - 5 * 86400000)) = false.
Proof. split; reflexivity. Qed.

End ordering_more.

(** ** Page resolver and collection loop *)

Section resolver_facts.
Import Js Phrase Phrase2 Freshness Resolver OldPhrase.

Lemma date_or_now_source (zone : Clock.Zone) (now : Z) (text : string)
      (s : Structuring.Structured) :
  Provenance.dated_by_page zone now
    (set_postedDate (date_or_now now (extractJobDate zone now text)) s).
Proof.
  unfold Provenance.dated_by_page, set_postedDate, date_or_now. cbn [posted].
  destruct (extractJobDate zone now text) as [d|] eqn:E; simpl.
  - right. by exists text.
  - by left.
Qed.

Lemma resolve_listed_facts
      (fetch : string -> option Response)
      (structure : Scraped.ScrapedJob -> string
                   -> Exc (option Structuring.Structured))
      (zone : Clock.Zone) (now : Z) (entries : list ListedJob)
      (jobs0 : list Dated) :
  Forall (Provenance.dated_by_page zone now) jobs0 ->
  match resolve_listed fetch structure zone now entries jobs0 with
  | Ret jobs =>
      (List.length jobs <= List.length jobs0 + List.length entries)%nat
      /\ Forall (Provenance.dated_by_page zone now) jobs
  | Throw => True
  end.
Proof.
  revert jobs0. induction entries as [|jobInfo rest IH]; intros jobs0 H0;
    cbn [resolve_listed].
  - split; [simpl; lia | done].
  - assert (Hskip :
      match resolve_listed fetch structure zone now rest jobs0 with
      | Ret jobs =>
          (List.length jobs <= List.length jobs0 + List.length (jobInfo :: rest))%nat
          /\ Forall (Provenance.dated_by_page zone now) jobs
      | Throw => True
      end).
    { specialize (IH jobs0 H0).
      destruct (resolve_listed fetch structure zone now rest jobs0); [| done].
      simpl. split; [lia | apply IH]. }
    destruct (truthy (url jobInfo)); [| done].
    destruct (fetch (url jobInfo)) as [page|]; [| done].
    destruct (job page) as [scrapedJob|]; [| done].
    destruct (String.eqb (type page) "single"); [| done].
    destruct (structure scrapedJob (url jobInfo)) as [[s|]|]; simpl;
      [| done | done].
    destruct (_ && _); [done |].
    match goal with
    | |- context [resolve_listed _ _ _ _ _ ?js] =>
        specialize (IH js);
        destruct (resolve_listed fetch structure zone now rest js)
    end; [| done].
    rewrite length_app in IH. simpl in *.
    destruct IH as [Hlen Hall].
    { apply Forall_app. split; [done |]. constructor; [| done].
      apply date_or_now_source. }
    split; [lia | done].
Qed.

Lemma processJobResult_facts
      (fetch : string -> option Response)
      (structure : Scraped.ScrapedJob -> string
                   -> Exc (option Structuring.Structured))
      (zone : Clock.Zone) (now : Z) (result : Hit.SearchResult) :
  let jobs := processJobResult fetch structure zone now result in
  (List.length jobs <= 3)%nat
  /\ Forall (Provenance.dated_by_page zone now) jobs.
Proof.
  cbv zeta. unfold processJobResult, process_body.
  assert (Hnil : (List.length (@nil Dated) <= 3)%nat
                 /\ Forall (Provenance.dated_by_page zone now) []).
  { split; [simpl; lia | constructor]. }
  destruct (_ || _); [done |].
  destruct (not_a_posting _); [done |].
  destruct (fetch (Hit.link result)) as [scraped|]; [| done].
  destruct (Ranking.opt_truthy (error scraped)); [done |].
  destruct (_ && _).
  - pose proof (resolve_listed_facts fetch structure zone now
                  (take 3 (default [] (jobs scraped))) []
                  ltac:(constructor)) as H.
    destruct (resolve_listed _ _ _ _ _ _); [| done].
    destruct H as [Hlen Hall]. rewrite length_take in Hlen.
    cbn [List.length] in Hlen. split; [lia | done].
  - destruct (job scraped) as [scrapedJob|]; [| done].
    destruct (String.eqb _ _); [| done].
    destruct (_ || _); [done |].
    destruct (_ && _); [done |].
    destruct (structure scrapedJob (Hit.link result)) as [[s|]|]; simpl;
      try done.
    split; [lia |]. constructor; [| done].
    apply date_or_now_source.
Qed.

(** X18: [processJobResult] never throws and returns at most 3 jobs for
    one search result.  The posting date it leaves on each of them is
    never the provider's: it is the clock reading, or a date that
    [extractJobDate] inferred from a text.  When it is a valid date, it
    is not later than [now] by more than the zone's offsets differ: in
    a zone without clock changes it is not in the future. *)
Theorem processJobResult_output
        (fetch : string -> option Response)
        (structure : Scraped.ScrapedJob -> string
                     -> Exc (option Structuring.Structured))
        (zone : Clock.Zone) (lo hi now : Z) (result : Hit.SearchResult) :
  Calendar.valid_time now ->
  Calendar.offsets_within lo hi zone ->
  - Clock.msPerDay < lo -> hi < Clock.msPerDay ->
  let jobs := processJobResult fetch structure zone now result in
  (List.length jobs <= 3)%nat
  /\ Forall (Provenance.dated_by_page zone now) jobs
  /\ Forall (fun job => forall t, posted job = Clock.At t ->
                                  t <= now + (hi - lo)) jobs.
Proof.
  intros Hnow Hoff Hlo Hhi.
  destruct (processJobResult_facts fetch structure zone now result)
    as [Hlen Hall].
  cbv zeta. split; [done |]. split; [done |].
  eapply Forall_impl; [exact Hall |].
  intros job [Hj | (text & Hj)] t Ht.
  - rewrite Ht in Hj. injection Hj as ->. destruct (Hoff now). lia.
  - rewrite Ht in Hj.
    by destruct (extractJobDate_range zone lo hi now t text).
Qed.

(** A page that says [Posted 2 days ago]: the job is dated two days
    before [now], whatever date the structuring step put on it. *)
Lemma processJobResult_output_witness :
  let page :=
    {| type := "single"; jobs := None; error := None;
       job := Some {| Scraped.title := Some "Backend Engineer";
                      Scraped.company := Some "Acme Co";
                      Scraped.location := Some "Austin";
                      Scraped.description :=
                        Some ("Posted 2 days ago. "
                                +:+ Claims.long_description);
                      Scraped.salary := None;
                      Scraped.employmentType := None |} |} in
  let built :=
    Structuring.Built
      (Claims.sample_job "job_1" "Backend Engineer" "Acme Co" "Austin"
         Claims.long_description) in
  let jobs :=
    processJobResult (fun _ => Some page) (fun _ _ => Ret (Some built))
      Calendar.utc 1700000000000
      {| Hit.title := Some "Backend Engineer at Acme";
         Hit.snippet := None;
         Hit.link := "https://careers.example.org/jobs/42" |} in
  jobs = [ {| object := built;
              posted := Clock.At (1700000000000 - 2 * Clock.msPerDay) |} ]
  /\ ((List.length jobs <= 3)%nat
      /\ Forall (Provenance.dated_by_page Calendar.utc 1700000000000) jobs
      /\ Forall (fun job => forall t, posted job = Clock.At t ->
                                      t <= 1700000000000 + (0 - 0)) jobs).
Proof.
  intros page built jobs. split; [vm_compute; reflexivity |].
  apply (processJobResult_output _ _ Calendar.utc 0 0).
  - unfold Calendar.valid_time. lia.
  - intros u. simpl. lia.
  - reflexivity.
  - reflexivity.
Defined.

Lemma old_phrase_rejected (zone : Clock.Zone) (now : Z) (t : string) :
  old_phrase t ->
  extractJobDate zone now t = None /\ includes "ago" t = true.
Proof.
  intros [(n & plural & Hn & ->) | [(n & plural & Hn & ->) | (n & plural & ->)]].
  - split.
    + rewrite extractJobDate_days_text.
      by replace (4 <? n)%nat with true by (symmetry; apply Nat.ltb_lt; lia).
    + unfold days_ago_text. apply includes_app_l. by destruct plural.
  - split.
    + rewrite extractJobDate_weeks_text.
      by replace (1 <=? n)%nat with true by (symmetry; apply Nat.leb_le; lia).
    + unfold weeks_ago_text. apply includes_app_l. by destruct plural.
  - split.
    + unfold months_ago_text.
      destruct plural; apply extractJobDate_months_phrase;
        auto using all_digits_of_nat, of_nat_nonempty.
    + unfold months_ago_text. apply includes_app_l. by destruct plural.
Qed.

(** X19: a search result whose snippet or title is a phrase for more
    than 4 days, for one or more weeks or for any number of months is
    dropped: [processJobResult] returns no job for it, whatever the
    page behind its link holds. *)
Theorem processJobResult_drops_old
        (fetch : string -> option Response)
        (structure : Scraped.ScrapedJob -> string
                     -> Exc (option Structuring.Structured))
        (zone : Clock.Zone) (now : Z) (result : Hit.SearchResult)
        (t : string) :
  old_phrase t ->
  Hit.snippet result = Some t \/ Hit.title result = Some t ->
  processJobResult fetch structure zone now result = [].
Proof.
  intros Hold Hwhere.
  destruct (old_phrase_rejected zone now t Hold) as [Hnone Hago].
  unfold processJobResult, process_body.
  assert (Hlooks : looks_old zone now (Some t) = true).
  { unfold looks_old. rewrite Hago, andb_true_r.
    by apply bool_decide_eq_true. }
  destruct Hwhere as [-> | ->]; rewrite Hlooks; [done |].
  by rewrite orb_true_r.
Qed.

Lemma processJobResult_drops_old_witness :
  processJobResult (fun _ => None) (fun _ _ => Throw) Calendar.utc
    1700000000000
    {| Hit.title := Some "Backend Engineer at Acme";
       Hit.snippet := Some (weeks_ago_text 3 true);
       Hit.link := "https://careers.example.org/jobs/42" |}
  = [].
Proof.
  apply (processJobResult_drops_old _ _ _ _ _ (weeks_ago_text 3 true)).
  - right. left. exists 3%nat, true. split; [lia | reflexivity].
  - left. reflexivity.
Defined.

End resolver_facts.

Section collect_facts.
Import Js Collect.

Lemma scan_results_bound
      (process : Hit.SearchResult -> list Resolver.Dated)
      (results : list Hit.SearchResult) (st : LoopState) :
  (forall result, (List.length (process result) <= 3)%nat) ->
  (List.length (allJobs st) < 25)%nat ->
  (List.length (allJobs (scan_results process results st)) <= 27)%nat.
Proof.
  intros Hp. revert st.
  induction results as [|result rest IH]; intros st Hst;
    cbn [scan_results]; [lia |].
  destruct (bool_decide _); [by apply IH |].
  destruct (snippet_old _); [by apply IH |].
  cbn [allJobs processedUrls]. pose proof (Hp result) as H3.
  destruct (Nat.leb_spec 25 (List.length (allJobs st ++ process result))) as [H|H].
  - cbn [allJobs]. rewrite length_app. lia.
  - by apply IH.
Qed.

Lemma run_searches_bound
      (search : string -> Exc (list Hit.SearchResult))
      (process : Hit.SearchResult -> list Resolver.Dated)
      (queries : list string) (st : LoopState) :
  (forall result, (List.length (process result) <= 3)%nat) ->
  (List.length (allJobs st) < 25)%nat ->
  (List.length (allJobs (run_searches search process queries st)) <= 27)%nat.
Proof.
  intros Hp. revert st.
  induction queries as [|q rest IH]; intros st Hst;
    cbn [run_searches]; [lia |].
  destruct (search q) as [results|]; [| by apply IH].
  pose proof (scan_results_bound process results st Hp Hst) as Hb.
  destruct (Nat.leb_spec 25
              (List.length (allJobs (scan_results process results st))));
    [done | by apply IH].
Qed.

(** X20: the collection loop of [searchWithRefinements] stops as soon
    as 25 jobs are collected, so with [processJobResult] as the
    processing step it never accumulates more than 27 jobs, whatever
    the search provider and the page fetcher return. *)
Theorem collect_bound
        (search : string -> Exc (list Hit.SearchResult))
        (fetch : string -> option Resolver.Response)
        (structure : Scraped.ScrapedJob -> string
                     -> Exc (option Structuring.Structured))
        (zone : Clock.Zone) (now : Z) (query location : string)
        (pick : nat) :
  (List.length
     (collect search (Resolver.processJobResult fetch structure zone now)
        query location pick) <= 27)%nat.
Proof.
  unfold collect. apply run_searches_bound; [| simpl; lia].
  intros result. apply processJobResult_facts.
Qed.

End collect_facts.

(** ** The Playwright scraper's helpers *)

Section playwright_facts.
Import Js Phrase Shape Digits Playwright.

Lemma lower_digit (c : ascii) : is_digit c = true -> lower c = c.
Proof.
  destruct c as [[] [] [] [] [] [] [] []]; by vm_compute.
Qed.

Lemma toLowerCase_digits (ds : string) :
  all_chars is_digit ds = true -> toLowerCase ds = ds.
Proof.
  induction ds as [|d ds IH]; [done |].
  simpl. intros H. apply andb_prop in H as [Hd Hds].
  by rewrite (lower_digit _ Hd), (IH Hds).
Qed.

(** A pattern with a character that the subject lacks occurs
    nowhere. *)
Lemma strip_prefix_lacks (c : ascii) (p s : string) :
  lacks c s = true -> lacks c p = false -> strip_prefix p s = None.
Proof.
  unfold lacks. revert s. induction p as [|a p IH]; intros s Hs Hp; [done |].
  destruct s as [|b s]; [done |].
  simpl in *. apply andb_prop in Hs as [Hb Hs].
  destruct (Ascii.eqb_spec a b) as [->|]; [| done].
  rewrite Hb in Hp. simpl in Hp. by apply IH.
Qed.

Lemma includes_lacks (c : ascii) (p s : string) :
  lacks c s = true -> lacks c p = false -> includes p s = false.
Proof.
  intros Hs Hp. induction s as [|b s IH].
  - simpl. by rewrite (strip_prefix_lacks c p "" Hs Hp).
  - rewrite includes_unfold, (strip_prefix_lacks c p _ Hs Hp).
    apply IH. unfold lacks in *. simpl in Hs.
    by apply andb_prop in Hs as [_ Hs].
Qed.

Lemma digits_lack (c : ascii) (ds : string) :
  is_digit c = false -> all_chars is_digit ds = true -> lacks c ds = true.
Proof.
  intros Hc. unfold lacks. induction ds as [|d ds IH]; [done |].
  simpl. intros H. apply andb_prop in H as [Hd Hds].
  rewrite (IH Hds), andb_true_r.
  destruct (Ascii.eqb_spec d c) as [->|]; [congruence | done].
Qed.

Lemma phrase_lacks (c : ascii) (ds tail : string) :
  is_digit c = false -> all_chars is_digit ds = true ->
  lacks c tail = true -> lacks c (ds +:+ tail) = true.
Proof.
  intros Hc Hds Htail. unfold lacks. rewrite all_chars_app.
  fold (lacks c ds). fold (lacks c tail).
  by rewrite (digits_lack c ds Hc Hds), Htail.
Qed.

(** A pattern made of a digit, a space and more text occurs in a digit
    run followed by a space only at the end of the run. *)
Lemma includes_digit_space (a : ascii) (p ds tail : string) :
  all_chars is_digit ds = true ->
  is_empty ds = false ->
  includes (String a (String " " p)) (ds +:+ String " " tail)
  = (ends_with a ds && bool_decide (is_Some (strip_prefix p tail)))
    || includes (String a (String " " p)) (String " " tail).
Proof.
  intros Hds _. induction ds as [|d ds IH]; [done |].
  simpl in Hds. apply andb_prop in Hds as [Hd Hds].
  change (String d ds +:+ String " " tail)
    with (String d (ds +:+ String " " tail)).
  rewrite includes_unfold. cbn [strip_prefix].
  destruct ds as [|d' ds'].
  - cbn [String.append strip_prefix ends_with]. rewrite Ascii.eqb_refl.
    rewrite (Ascii.eqb_sym d a).
    destruct (Ascii.eqb a d); [| done].
    by destruct (strip_prefix p tail).
  - pose proof Hds as Hds'. simpl in Hds'.
    apply andb_prop in Hds' as [Hd' _].
    cbn [String.append].
    assert (Hsp : Ascii.eqb " " d' = false)
      by (by destruct (Ascii.eqb_spec " " d') as [<-|]).
    rewrite Hsp. specialize (IH Hds).
    destruct (Ascii.eqb a d); exact IH.
Qed.

Lemma loose_days_match_phrase (ds : string) :
  all_chars is_digit ds = true -> is_empty ds = false ->
  loose_days_match (ds +:+ " days ago") = Some ds.
Proof.
  intros Hds Hne.
  assert (H : loose_days_at (ds +:+ " days ago") = Some ds).
  { unfold loose_days_at. rewrite (span_all_app is_digit ds " days ago" Hds);
      [| done].
    unfold truthy. by rewrite Hne. }
  destruct ds as [|d ds]; [done |].
  change (String d ds +:+ " days ago") with (String d (ds +:+ " days ago")) in *.
  cbn [loose_days_match]. by rewrite H.
Qed.

(** X21: on the text [N days ago], [isRecentJob] answers yes exactly
    when [N] is at most 4 or its last digit is 1, 2, 3 or 4: the
    substring tests for [1 day], [2 days], [3 days] and [4 days] also
    fire inside larger numbers such as 14 or 21. *)
Theorem isRecentJob_days_ago (ds : string) :
  all_chars is_digit ds = true ->
  is_empty ds = false ->
  isRecentJob (Some (ds +:+ " days ago"))
  = ends_1_to_4 ds || (digits_value 0 ds <=? 4).
Proof.
  intros Hds Hne. unfold isRecentJob.
  rewrite (is_empty_app_l _ _ Hne).
  rewrite toLowerCase_app, (toLowerCase_digits _ Hds).
  change (toLowerCase " days ago") with " days ago".
  rewrite (includes_lacks "j" "just posted"),
    (includes_lacks "t" "today"),
    (includes_lacks "w" "week"),
    (includes_lacks "m" "month"),
    (includes_lacks "+" "30+ days");
    try done; try (by apply phrase_lacks).
  rewrite !(includes_digit_space _ _ ds "days ago" Hds Hne).
  rewrite (loose_days_match_phrase ds Hds Hne).
  rewrite (parseInt_digits ds Hds Hne).
  pose proof (digits_value_nonneg ds 0 ltac:(lia)) as Hv.
  unfold round.
  replace (digits_value 0 ds <? 0) with false
    by (symmetry; apply Z.ltb_ge; lia).
  rewrite round_nonneg_ge by lia.
  unfold ends_1_to_4.
  change (includes "1 day" " days ago") with false.
  change (includes "2 days" " days ago") with false.
  change (includes "3 days" " days ago") with false.
  change (includes "4 days" " days ago") with false.
  change (bool_decide (is_Some (strip_prefix "day" "days ago"))) with true.
  change (bool_decide (is_Some (strip_prefix "days" "days ago"))) with true.
  rewrite !andb_true_r, !orb_false_r. simpl.
  by destruct (ends_with "1" ds), (ends_with "2" ds), (ends_with "3" ds),
    (ends_with "4" ds).
Qed.

Lemma isRecentJob_days_ago_witness :
  isRecentJob (Some ("14" +:+ " days ago"))
  = ends_1_to_4 "14" || (digits_value 0 "14" <=? 4).
Proof.
  exact (isRecentJob_days_ago "14" eq_refl eq_refl).
Defined.

Lemma section_lines_long (start stop : list string) (lines : list string)
      (inSection : bool) (found : list string) :
  Forall (fun e => (10 < String.length e)%nat) found ->
  Forall (fun e => (10 < String.length e)%nat)
         (section_lines start stop inSection found lines).
Proof.
  revert inSection found.
  induction lines as [|line rest IH]; intros inSection found Hfound;
    cbn [section_lines]; [done |].
  cbv zeta. destruct (mentions start (toLowerCase line)); [by apply IH |].
  assert (Hfound' :
    Forall (fun e => (10 < String.length e)%nat)
           (if inSection && (10 <? String.length (trim line))%nat
            then found ++ [trim line] else found)).
  { destruct inSection; simpl; [| done].
    destruct (Nat.ltb_spec 10 (String.length (trim line))); [| done].
    apply Forall_app. split; [done |]. by constructor. }
  destruct (_ && _ && _); [done |].
  destruct (_ && mentions stop _); [done |]. by apply IH.
Qed.

Lemma section_lines_quiet (start stop : list string) (lines : list string)
      (found : list string) :
  Forall (fun line => mentions start (toLowerCase line) = false) lines ->
  section_lines start stop false found lines = found.
Proof.
  induction 1 as [|line rest Hline _ IH]; cbn [section_lines]; [done |].
  cbv zeta. by rewrite Hline.
Qed.

(** X22: [extractRequirements] and [extractResponsibilities] return at
    most 5 entries, each longer than 10 characters. *)
Theorem extract_sections_bounds (description : string) :
  ((List.length (extractRequirements description) <= 5)%nat
   /\ Forall (fun e => (10 < String.length e)%nat)
             (extractRequirements description))
  /\ ((List.length (extractResponsibilities description) <= 5)%nat
      /\ Forall (fun e => (10 < String.length e)%nat)
                (extractResponsibilities description)).
Proof.
  unfold extractRequirements, extractResponsibilities.
  split; (split; [rewrite length_take; lia |]);
    apply Forall_take, section_lines_long; constructor.
Qed.

End playwright_facts.

(** ** Query builder *)

Section query_facts.
Import Js Query.

Lemma join_app (sep : string) (l1 l2 : list string) :
  l2 <> [] ->
  join sep (l1 ++ l2)
  = match l1 with
    | [] => join sep l2
    | _ => join sep l1 +:+ sep +:+ join sep l2
    end.
Proof.
  intros Hl2. induction l1 as [|y l1 IH]; [done |].
  change ((y :: l1) ++ l2) with (y :: (l1 ++ l2)).
  destruct l1 as [|z l1].
  - simpl. by destruct l2.
  - change (join sep (y :: (z :: l1) ++ l2))
      with (y +:+ sep +:+ join sep ((z :: l1) ++ l2)).
    rewrite IH.
    change (join sep (y :: z :: l1))
      with (y +:+ sep +:+ join sep (z :: l1)).
    by rewrite !append_assoc.
Qed.

Lemma join_tail (parts : list string) (a b c : string) :
  exists prefix,
    join " " (((parts ++ [a]) ++ [b]) ++ [c])
    = prefix +:+ a +:+ " " +:+ b +:+ " " +:+ c.
Proof.
  rewrite <- !app_assoc. simpl. rewrite join_app by done.
  destruct parts as [|x parts].
  - by exists "".
  - exists (join " " (x :: parts) +:+ " "). by rewrite !append_assoc.
Qed.

(** X23: every query built by [buildSearchQuery] ends with the same
    freshness phrases, and of the must-have skills only the first three
    have any influence on it. *)
Theorem buildSearchQuery_tail (r : Pref.SearchRefinements)
        (skills : list string) :
  (exists prefix, buildSearchQuery r = prefix +:+ fresh_tail)
  /\ buildSearchQuery (with_skills r skills)
     = buildSearchQuery (with_skills r (take 3 skills)).
Proof.
  split.
  - unfold buildSearchQuery, fresh_tail.
    match goal with
    | |- context [join " " (((?ps ++ [_]) ++ [_]) ++ [_])] =>
        destruct (join_tail ps "hiring now" "actively hiring"
                    (Collect.quoted "posted today" +:+ " OR "
                       +:+ Collect.quoted "posted yesterday" +:+ " OR "
                       +:+ Collect.quoted "posted 2 days ago"))
          as [prefix Hp]
    end.
    exists prefix. rewrite Hp. done.
  - unfold buildSearchQuery, with_skills. simpl.
    rewrite take_take, Nat.min_id.
    by destruct skills.
Qed.

(** X24: [performEnhancedSearch] without refinements searches with the
    default refinements, and whatever partial refinements it is given,
    the full refinements have a non-zero [dateRange] and a non-empty
    seniority and contract type. *)
Theorem fullRefinements_defaults (refinements : option PartialRefinements) :
  fullRefinements None = Pref.performEnhancedSearch_defaults
  /\ Pref.dateRange (fullRefinements refinements) <> 0
  /\ Pref.seniority (fullRefinements refinements) <> ""
  /\ Pref.contractType (fullRefinements refinements) <> "".
Proof.
  split; [done |]. destruct refinements as [p|]; simpl; [| done].
  repeat split; try (by apply or_default_nonempty).
  destruct (dateRange p) as [d|]; [| done].
  by destruct (Z.eqb_spec d 0).
Qed.

End query_facts.

(** ** More on the page fetcher and the job id *)

Section fetcher_more.
Import Js Fetcher Phrase.

(** X25: [extractText] returns either the empty string or the trimmed
    text of one of its selectors, longer than 3 characters. *)
Theorem extractText_shape (page : Page) (selectors : list string) :
  extractText page selectors = ""
  \/ exists selector,
       In selector selectors
       /\ extractText page selectors = trim (first_text page selector)
       /\ (3 < String.length (extractText page selectors))%nat.
Proof.
  induction selectors as [|selector rest IH]; [by left |].
  simpl.
  destruct (truthy (trim (first_text page selector))); simpl.
  - destruct (Nat.ltb_spec 3 (String.length (trim (first_text page selector)))).
    + right. exists selector. auto.
    + destruct IH as [IH | (sel & Hin & Heq & Hlen)]; [by left |].
      right. exists sel. auto.
  - destruct IH as [IH | (sel & Hin & Heq & Hlen)]; [by left |].
    right. exists sel. auto.
Qed.

(** X26: on an unrecognised domain, JSON-LD that is missing, empty,
    malformed, [null] or not a [JobPosting] changes nothing: the result
    is built from the heuristic record alone. *)
Theorem extractJobData_ignores_bad_jsonld
        (JSON_parse : string -> Exc Json)
        (site_scraper : Page -> string -> ScrapeResponse)
        (page : Page) (url : string) :
  recognised url = false ->
  JsonLd.unusable JSON_parse page ->
  let found := heuristic_job page url in
  extractJobData JSON_parse site_scraper page url
  = if (1 <? List.length (jobLinks page))%nat
       && (negb (value_truthy (title found))
           || negb (value_truthy (company found)))
    then list_of (jobLinks page)
    else single found.
Proof.
  intros Hurl Hbad found. unfold extractJobData. rewrite Hurl.
  assert (Hsame : apply_jsonld JSON_parse page found = found).
  { unfold apply_jsonld, JsonLd.unusable in *.
    destruct (jsonld_html page) as [html|]; [| done].
    destruct Hbad as [-> | Hbad]; [done |].
    destruct (truthy html); [| done].
    destruct (JSON_parse html) as [data|]; [| done].
    destruct Hbad as [-> | Hno]; [done |].
    rewrite Hno. by destruct data. }
  fold found. by rewrite Hsame.
Qed.

Lemma extractJobData_ignores_bad_jsonld_witness :
  extractJobData (fun _ => Throw) (fun _ _ => list_of [])
    (Claims.page_with_heading "Senior Engineer at Acme")
    "https://careers.example.org/42"
  = single (heuristic_job (Claims.page_with_heading "Senior Engineer at Acme")
              "https://careers.example.org/42").
Proof.
  exact (extractJobData_ignores_bad_jsonld (fun _ => Throw)
           (fun _ _ => list_of [])
           (Claims.page_with_heading "Senior Engineer at Acme")
           "https://careers.example.org/42" eq_refl (or_intror I)).
Defined.

Lemma keep_all (f : ascii -> bool) (s : string) :
  all_chars f (Structuring.keep f s) = true.
Proof.
  induction s as [|c s IH]; [done |].
  simpl. destruct (f c) eqn:E; simpl; [by rewrite E | done].
Qed.

Lemma is_alnum_letter_or_digit (c : ascii) :
  Structuring.is_alnum c = IdShape.letter_or_digit c.
Proof. destruct c as [[] [] [] [] [] [] [] []]; by vm_compute. Qed.

Lemma keep_letters_and_digits (s : string) :
  Structuring.keep Structuring.is_alnum s = IdShape.letters_and_digits s.
Proof.
  unfold IdShape.letters_and_digits.
  induction s as [|c s IH]; [done |].
  cbn [Structuring.keep list_ascii_of_string List.filter].
  rewrite is_alnum_letter_or_digit.
  destruct (IdShape.letter_or_digit c); cbn [string_of_list_ascii];
    by rewrite IH.
Qed.

(** [last_segment] returns what follows the last slash. *)
Lemma last_segment_spec (s cur : string) :
  Shape.lacks "/" cur = true ->
  exists pre,
    rev_string "" cur +:+ s
    = pre +:+ Structuring.last_segment cur s
    /\ (pre = "" \/ exists p, pre = p +:+ "/")
    /\ Shape.lacks "/" (Structuring.last_segment cur s) = true.
Proof.
  revert cur. induction s as [|c s IH]; intros cur Hcur.
  - exists "". cbn [Structuring.last_segment String.append].
    rewrite append_nil_r. split; [done |]. split; [by left |].
    unfold Shape.lacks in *. rewrite all_chars_rev_string.
    by rewrite Hcur.
  - cbn [Structuring.last_segment].
    destruct (Ascii.eqb_spec c "/") as [-> | Hne].
    + destruct (IH "" eq_refl) as (pre & Heq & Hpre & Hseg).
      cbn [rev_string String.append] in Heq.
      exists (rev_string "" cur +:+ "/" +:+ pre).
      split; [| split; [right |]; [| done]].
      * rewrite !append_assoc. by rewrite <- Heq.
      * destruct Hpre as [-> | (p & ->)].
        -- exists (rev_string "" cur). by rewrite append_nil_r.
        -- exists (rev_string "" cur +:+ "/" +:+ p).
           by rewrite !append_assoc.
    + destruct (IH (String c cur)) as (pre & Heq & Hpre & Hseg).
      { unfold Shape.lacks in *. cbn [all_chars]. rewrite Hcur.
        by destruct (Ascii.eqb_spec c "/"). }
      exists pre. split; [| done].
      rewrite <- Heq. cbn [rev_string].
      rewrite (rev_string_acc cur (String c "")).
      by rewrite append_assoc.
Qed.

(** X27: an id made by [generateJobId] is [job_], a segment, the random
    part and the clock reading, joined by underscores.  The segment is
    made of the letters and digits of what follows the last slash of
    the URL (of the whole URL when it has no slash), in their order; it
    is [job] when there are none. *)
Theorem generateJobId_shape (randomPart : string) (now : Z) (url : string) :
  exists pre tail segment,
    url = pre +:+ tail
    /\ (pre = "" \/ exists p, pre = p +:+ "/")
    /\ Shape.lacks "/" tail = true
    /\ segment = (if is_empty (IdShape.letters_and_digits tail) then "job"
                  else IdShape.letters_and_digits tail)
    /\ segment <> ""
    /\ Structuring.generateJobId randomPart now url
       = "job_" +:+ segment +:+ "_" +:+ randomPart +:+ "_"
           +:+ of_nat (Z.to_nat now).
Proof.
  destruct (last_segment_spec url "" eq_refl) as (pre & Heq & Hpre & Htail).
  cbn [rev_string String.append] in Heq.
  exists pre, (Structuring.last_segment "" url). eexists.
  split; [done |]. split; [done |]. split; [done |].
  split; [reflexivity |].
  unfold Structuring.generateJobId. rewrite keep_letters_and_digits.
  unfold truthy.
  destruct (IdShape.letters_and_digits _) as [|c r]; by cbn [is_empty negb].
Qed.

(** The id of a posting URL, and of a URL that ends in a slash. *)
Example generateJobId_examples :
  Structuring.generateJobId "k3x9qa" 1700
    "https://careers.example.org/jobs/backend-engineer_42?ref=a"
  = "job_backendengineer42refa_k3x9qa_1700"
  /\ Structuring.generateJobId "k3x9qa" 1700 "https://careers.example.org/"
     = "job_job_k3x9qa_1700".
Proof. split; reflexivity. Qed.

End fetcher_more.

(** ** The intent analyzer *)

Section intent_facts.
Import Js Intent.

Lemma hasSalary_plain (input : string) :
  Shape.lacks "$" input = true ->
  Phrase.all_chars Phrase2.not_digit input = true ->
  hasSalary input = false.
Proof.
  unfold Shape.lacks.
  induction input as [|c r IH]; first done.
  cbn [Phrase.all_chars hasSalary].
  intros [Hc Hr]%andb_prop [Hd Hrd]%andb_prop.
  rewrite (IH Hr Hrd), orb_false_r.
  apply negb_true_iff in Hc. rewrite Hc. cbn [orb].
  unfold number_k_at. cbn [span].
  apply negb_true_iff in Hd. by rewrite Hd.
Qed.

Lemma missing_info_salary (input : string) :
  hasSalary input = false ->
  exists l, missing_info input = l ++ ["Salary expectations (optional)"]
            /\ (List.length l <= 2)%nat.
Proof.
  intros Hs. unfold missing_info. rewrite Hs. cbn [negb].
  destruct (negb (hasJobTitle input)), (negb (hasLocation input));
    eexists; (split; [reflexivity | cbn; lia]).
Qed.

(** X28 (analyzeSearchIntent): a free-text prompt that holds no dollar
    sign and no digit is never passed on to the provider.  Whatever the
    rest of the function would resolve to, the result is the written
    reply: the empty refinements (three-day window, no location), three
    suggestions, and between one and three missing items, the last of
    which is the salary expectation. *)
Theorem analyzeSearchIntent_asks_back (input : string) :
  Shape.lacks "$" input = true ->
  Phrase.all_chars Phrase2.not_digit input = true ->
  exists a,
    (forall rest, analyzeSearchIntent input false rest = Written a)
    /\ refinements a = empty_refinements
    /\ List.length (suggestions a) = 3%nat
    /\ (1 <= List.length (missingInfo a) <= 3)%nat
    /\ last (missingInfo a) = Some "Salary expectations (optional)".
Proof.
  intros Hdollar Hdigit.
  destruct (missing_info_salary input (hasSalary_plain _ Hdollar Hdigit))
    as (l & Hl & Hlen).
  eexists. split.
  - intros rest. unfold analyzeSearchIntent.
    rewrite Hl, length_app. cbn [List.length].
    replace (0 <? List.length l + 1)%nat with true
      by (symmetry; apply Nat.ltb_lt; lia).
    cbn [andb negb]. reflexivity.
  - cbn [refinements suggestions missingInfo].
    repeat split.
    + rewrite length_app. cbn. lia.
    + rewrite length_app. cbn. lia.
    + by rewrite last_snoc.
Qed.

Lemma analyzeSearchIntent_asks_back_witness :
  exists a,
    (forall rest,
        analyzeSearchIntent "Senior React developer in Berlin" false rest
        = Written a)
    /\ refinements a = empty_refinements
    /\ List.length (suggestions a) = 3%nat
    /\ (1 <= List.length (missingInfo a) <= 3)%nat
    /\ last (missingInfo a) = Some "Salary expectations (optional)".
Proof.
  apply (analyzeSearchIntent_asks_back "Senior React developer in Berlin");
    reflexivity.
Defined.

(** A prompt that names a role, a place and a pay figure goes on to the
    provider. *)
Example complete_prompt_goes_on (rest : Outcome) :
  analyzeSearchIntent "react developer remote 120k" false rest = rest.
Proof. reflexivity. Qed.

End intent_facts.
